(** * HMI agent: a shallow embedding of [agents/hmiAgent.js]

    The development follows the class [HMIAgent]: the section segmenter,
    the keyword extractor, the workflow composer, the screen specification
    generator with its validation pass, the band clamping of the renderer
    and the document reader.

    Conventions of the embedding.
    - A JavaScript string is a [string]: a sequence of code units, here the
      code units below 256 (Latin-1).  White space, word characters and case
      folding are those of ECMAScript restricted to that range.
    - A JavaScript number that holds a count is a [nat] or a [Z]; one that
      holds a coordinate is a [Num], a whole number or NaN.  A coordinate as
      parsed JSON may hold it is a [Value]: absent, a number, or something
      that is not a number.  Any other field that may be absent is an
      [option].
    - [new RegExp] on a pattern built from a screen name returns or throws
      as the runtime decides; that verdict is a parameter, [validPattern].
    - Where a class has several methods of one name, the last one is the
      method of the class; only that one is embedded.
    - A method that may throw returns a [result]. *)

From Stdlib Require Import String Ascii List ZArith NArith Bool Lia Arith.
From Stdlib Require Import DecimalString ZifyNat.
Import ListNotations.

Set Implicit Arguments.

Open Scope string_scope.
Open Scope list_scope.

(* ===================================================================== *)
(** * Part I: definitions                                                 *)
(* ===================================================================== *)

(** ** JavaScript strings *)

Module Js.

Definition code (c : ascii) : N := N_of_ascii c.

Definition between (lo hi : N) (c : ascii) : bool :=
  (N.leb lo (code c) && N.leb (code c) hi)%bool.

(** [\d], [\w], [[A-Z]] and [\s] of a regular expression. *)
Definition isDigit (c : ascii) : bool := between 48 57 c.
Definition isUpperAZ (c : ascii) : bool := between 65 90 c.
Definition isLowerAZ (c : ascii) : bool := between 97 122 c.
Definition isWord (c : ascii) : bool :=
  (isDigit c || isUpperAZ c || isLowerAZ c || N.eqb (code c) 95)%bool.

(** White space and line terminators: TAB, LF, VT, FF, CR, SP and NBSP. *)
Definition isSpace (c : ascii) : bool :=
  (between 9 13 c || N.eqb (code c) 32 || N.eqb (code c) 160)%bool.

(** The characters [.] does not match: LF and CR below 256. *)
Definition isLineTerminator (c : ascii) : bool :=
  (N.eqb (code c) 10 || N.eqb (code c) 13)%bool.

Definition lowerChar (c : ascii) : ascii :=
  if (isUpperAZ c || (between 192 222 c && negb (N.eqb (code c) 215)))%bool
  then ascii_of_N (code c + 32) else c.

(** [String.prototype.toUpperCase] on one code unit.  The sharp s becomes
    two letters; the two letters whose capital lies above 255 (micro sign,
    y with diaeresis) are kept. *)
Definition upperChar (c : ascii) : string :=
  if (isLowerAZ c || (between 224 254 c && negb (N.eqb (code c) 247)))%bool
  then String (ascii_of_N (code c - 32)) ""
  else if N.eqb (code c) 223 then "SS"
  else String c "".

Fixpoint toLowerCase (s : string) : string :=
  match s with
  | "" => ""
  | String c r => String (lowerChar c) (toLowerCase r)
  end.

Fixpoint toUpperCase (s : string) : string :=
  match s with
  | "" => ""
  | String c r => upperChar c ++ toUpperCase r
  end.

(** Equality of characters under the [i] flag: a letter of the pattern
    matches both of its cases. *)
Definition eqChar_ci (a b : ascii) : bool :=
  Ascii.eqb (lowerChar a) (lowerChar b).

Fixpoint startsWith (p s : string) : bool :=
  match p, s with
  | "", _ => true
  | String a p', String b s' => (Ascii.eqb a b && startsWith p' s')%bool
  | String _ _, "" => false
  end.

Fixpoint startsWith_ci (p s : string) : bool :=
  match p, s with
  | "", _ => true
  | String a p', String b s' => (eqChar_ci a b && startsWith_ci p' s')%bool
  | String _ _, "" => false
  end.

(** [s.includes(p)] *)
Fixpoint includes (s p : string) : bool :=
  (startsWith p s ||
   match s with
   | "" => false
   | String _ r => includes r p
   end)%bool.

(** An unanchored literal pattern under the [i] flag, [/p/i]. *)
Fixpoint includes_ci (s p : string) : bool :=
  (startsWith_ci p s ||
   match s with
   | "" => false
   | String _ r => includes_ci r p
   end)%bool.

(** A literal pattern anchored at the end under the [i] flag, [/p$/i]. *)
Fixpoint endsWith_ci (s p : string) : bool :=
  ((Nat.eqb (String.length s) (String.length p) && startsWith_ci p s) ||
   match s with
   | "" => false
   | String _ r => endsWith_ci r p
   end)%bool.

Fixpoint trimStart (s : string) : string :=
  match s with
  | "" => ""
  | String c r => if isSpace c then trimStart r else s
  end.

Fixpoint trimEnd (s : string) : string :=
  match s with
  | "" => ""
  | String c r =>
      match trimEnd r with
      | "" => if isSpace c then "" else String c ""
      | t => String c t
      end
  end.

Definition trim (s : string) : string := trimEnd (trimStart s).

(** [s.split(sep)] for a separator of one character: never the empty
    list, the empty string gives one empty piece. *)
Fixpoint splitChar (sep : ascii) (s : string) : list string :=
  match s with
  | "" => [""]
  | String c r =>
      if Ascii.eqb c sep then "" :: splitChar sep r
      else match splitChar sep r with
           | [] => [String c ""]
           | p :: ps => String c p :: ps
           end
  end.

Definition LF : ascii := ascii_of_N 10.

Definition nl : string := String LF "".

Definition splitLines (s : string) : list string := splitChar LF s.

(** [a.join(sep)] *)
Fixpoint join (sep : string) (l : list string) : string :=
  match l with
  | [] => ""
  | [x] => x
  | x :: r => x ++ sep ++ join sep r
  end.

(** [s.substring(0, n)] *)
Fixpoint take (n : nat) (s : string) : string :=
  match n, s with
  | O, _ => ""
  | _, "" => ""
  | S n', String c r => String c (take n' r)
  end.

Fixpoint drop (n : nat) (s : string) : string :=
  match n, s with
  | O, _ => s
  | _, "" => ""
  | S n', String _ r => drop n' r
  end.

(** [s.replace(a, b)] with string arguments: the first occurrence only. *)
Fixpoint replaceFirst (a b s : string) : string :=
  if startsWith a s then b ++ drop (String.length a) s
  else match s with
       | "" => ""
       | String c r => String c (replaceFirst a b r)
       end.

(** [x || d] on a string: the empty string is falsy. *)
Definition orStr (x : option string) (d : string) : string :=
  match x with
  | Some s => if String.eqb s "" then d else s
  | None => d
  end.

(** [Boolean(x)] of a string field that may be absent. *)
Definition truthyStr (x : option string) : bool :=
  match x with
  | Some s => negb (String.eqb s "")
  | None => false
  end.

(** A number: a whole number or NaN. *)
Inductive Num : Type :=
| Fin (z : Z)
| NaN.

(** Arithmetic that yields NaN as soon as an operand is NaN. *)
Definition onNumbers (f : Z -> Z -> Z) (a b : Num) : Num :=
  match a, b with
  | Fin x, Fin y => Fin (f x y)
  | _, _ => NaN
  end.

(** [Math.max(a, b)], [Math.min(a, b)], [a + b] and [a - b] on numbers. *)
Definition mathMax : Num -> Num -> Num := onNumbers Z.max.
Definition mathMin : Num -> Num -> Num := onNumbers Z.min.
Definition plus : Num -> Num -> Num := onNumbers Z.add.
Definition minus : Num -> Num -> Num := onNumbers Z.sub.

(** [a < b] on numbers: false when an operand is NaN. *)
Definition lessThan (a b : Num) : bool :=
  match a, b with
  | Fin x, Fin y => Z.ltb x y
  | _, _ => false
  end.

(** A value found where the code expects a number.  The code reads such
    a value in two ways only: [||] asks whether it is truthy, and
    [Math.max], [Math.min], [-] and [<] convert it to a number.  A
    non-empty string, an array and an object are all truthy and are told
    apart by the number they convert to alone: [other NaN] is the string
    "auto" or an object, [other (Fin 12)] the string "12". *)
Inductive Value : Type :=
| undefined
| null
| boolean (b : bool)
| number (n : Num)
| emptyString
| other (reads : Num).

(** [Boolean(v)] *)
Definition truthy (v : Value) : bool :=
  match v with
  | undefined | null | emptyString => false
  | boolean b => b
  | number (Fin z) => negb (Z.eqb z 0)
  | number NaN => false
  | other _ => true
  end.

(** [Number(v)] *)
Definition toNumber (v : Value) : Num :=
  match v with
  | undefined => NaN
  | null | emptyString => Fin 0
  | boolean b => Fin (if b then 1 else 0)
  | number n => n
  | other reads => reads
  end.

(** [v || d] where a number is expected: the value itself when it is
    truthy, read as a number, and the default otherwise. *)
Definition orValue (v : Value) (d : Num) : Num :=
  if truthy v then toNumber v else d.

(** The syntax characters of a regular expression. *)
Definition isSyntaxCharacter (c : ascii) : bool :=
  existsb (Ascii.eqb c)
          ["^"; "$"; "\"; "."; "*"; "+"; "?"; "("; ")"; "["; "]"; "{"; "}"; "|"]%char.

(** A text without syntax characters: inside a pattern it is a sequence
    of pattern characters, each of which matches itself. *)
Fixpoint plainText (s : string) : bool :=
  match s with
  | "" => true
  | String c r => (negb (isSyntaxCharacter c) && plainText r)%bool
  end.

(** A count inside a template literal. *)
Definition showNat (n : nat) : string := NilZero.string_of_uint (Nat.to_uint n).

(** How a field that may be absent prints inside a template literal. *)
Definition show (x : option string) : string :=
  match x with
  | Some s => s
  | None => "undefined"
  end.

End Js.

(** The outcome of a method that may throw. *)
Inductive result (A : Type) : Type :=
| Ok (a : A)
| Throw (message : string).
Arguments Ok {A} a.
Arguments Throw {A} message.

(** ** Keyword extractor *)

Module Keywords.
Import Js.

Record SystemKeywords := mkKeywords {
  systemType : list string;
  operations : list string;
  components : list string;
  controls : list string
}.

(** The catalog of [extractSystemKeywords], in the order of the object
    literal ([Object.entries] keeps insertion order). *)
Definition systemPatterns : list (string * list string) :=
  [("generator_control", ["generator"; "standby"; "backup"; "power"; "diesel"; "engine"; "alternator"; "utility"; "transfer"; "switch"]);
   ("water_treatment", ["water"; "treatment"; "filtration"; "purification"; "clarification"; "chlorination"; "disinfection"]);
   ("gas_analyzer", ["gas"; "analyzer"; "sf6"; "concentration"; "ppm"; "measurement"; "spectrometer"]);
   ("motor_control", ["motor"; "drive"; "speed"; "torque"; "rpm"; "inverter"; "starter"]);
   ("pump_system", ["pump"; "flow"; "pressure"; "suction"; "discharge"; "centrifugal"; "impeller"]);
   ("cylinder_control", ["cylinder"; "extend"; "retract"; "acting"; "pneumatic"; "hydraulic"; "actuator"]);
   ("plc_system", ["plc"; "logic"; "controller"; "input"; "output"; "ladder"; "programming"]);
   ("hvac_system", ["hvac"; "temperature"; "heating"; "cooling"; "ventilation"; "air"; "conditioning"]);
   ("conveyor_system", ["conveyor"; "belt"; "transport"; "material"; "handling"; "sorting"]);
   ("valve_control", ["valve"; "open"; "close"; "position"; "actuator"; "flow"; "control"]);
   ("power_generation", ["generator"; "turbine"; "power"; "electrical"; "grid"; "transmission"]);
   ("chemical_processing", ["chemical"; "reactor"; "distillation"; "separation"; "catalyst"; "process"]);
   ("oil_gas_processing", ["oil"; "gas"; "refinery"; "crude"; "petroleum"; "hydrocarbon"; "pipeline"]);
   ("manufacturing", ["manufacturing"; "production"; "assembly"; "fabrication"; "quality"; "inspection"]);
   ("packaging", ["packaging"; "labeling"; "sealing"; "filling"; "wrapping"; "bottling"]);
   ("food_beverage", ["food"; "beverage"; "pasteurization"; "sterilization"; "fermentation"; "mixing"])].

Definition primaryKeywords : list (string * list string) :=
  [("generator_control", ["generator"; "standby"; "backup"; "power"; "diesel"; "engine"; "alternator"]);
   ("water_treatment", ["water"; "treatment"]);
   ("gas_analyzer", ["gas"; "analyzer"]);
   ("motor_control", ["motor"; "control"]);
   ("pump_system", ["pump"; "system"])].

Definition operationPatterns : list string :=
  ["start"; "stop"; "manual"; "auto"; "automatic"; "test"; "calibrate";
   "settings"; "alarm"; "reset"; "transfer"; "utility"; "generator";
   "emergency"; "override"; "load"; "shed"; "paralleling"].

Definition componentPatterns : list string :=
  ["sensor"; "valve"; "motor"; "pump"; "heater"; "cooler"; "display";
   "button"; "indicator"; "engine"; "alternator"; "generator"; "battery";
   "charger"; "voltage"; "current"; "frequency"; "temperature"; "pressure";
   "rpm"; "fuel"; "coolant"; "oil"; "air"; "filter"; "transfer"; "switch"].

Definition controlPatterns : list string :=
  ["control"; "monitor"; "feedback"; "status"; "command"; "setpoint";
   "parameter"; "operating"; "mode"; "selector"; "protection"; "interlock";
   "safety"; "emergency"].

(** [\b]: a word character on exactly one side; outside the text counts
    as no word character. *)
Definition wordAt (c : option ascii) : bool :=
  match c with
  | Some a => isWord a
  | None => false
  end.

Definition boundary (before after : option ascii) : bool :=
  xorb (wordAt before) (wordAt after).

Definition first (s : string) : option ascii :=
  match s with
  | String c _ => Some c
  | "" => None
  end.

Fixpoint lastOr (d : option ascii) (s : string) : option ascii :=
  match s with
  | "" => d
  | String c r => lastOr (Some c) r
  end.

(** Does [\bp\b] under the [i] flag match at the head of [s], the
    character before being [prev]? *)
Definition matchWordAt (p : string) (prev : option ascii) (s : string) : bool :=
  (boundary prev (first s) && startsWith_ci p s &&
   boundary (lastOr prev (take (String.length p) s))
            (first (drop (String.length p) s)))%bool.

(** [s.match(new RegExp('\\bp\\b', 'gi'))]: the number of matches found
    from left to right, the search resuming after each match ([skip]
    counts the characters of the last match still to pass). *)
Fixpoint countWordFrom (p : string) (prev : option ascii) (skip : nat)
  (s : string) : nat :=
  match s with
  | "" => 0
  | String c r =>
      match skip with
      | S k => countWordFrom p (Some c) k r
      | O =>
          if matchWordAt p prev s
          then S (countWordFrom p (Some c) (String.length p - 1) r)
          else countWordFrom p (Some c) 0 r
      end
  end.

Definition countWord (p s : string) : nat := countWordFrom p None 0 s.

Definition lookup (k : string) (m : list (string * list string)) : option (list string) :=
  match find (fun e => String.eqb (fst e) k) m with
  | Some e => Some (snd e)
  | None => None
  end.

(** The body of the loop over the catalog: the score of one system type. *)
Definition scoreOf (lowerContent : string) (type : string) (patterns : list string) : nat :=
  let counts := map (fun p => countWord p lowerContent) patterns in
  let score := fold_left Nat.add counts 0 in
  let matchedPatterns := filter (fun n => negb (Nat.eqb n 0)) counts in
  let score :=
    if Nat.leb 2 (List.length matchedPatterns)
    then score + List.length matchedPatterns * 2 else score in
  match lookup type primaryKeywords with
  | Some primaries =>
      fold_left (fun sc primary =>
                   if includes lowerContent primary then sc + 5 else sc)
                primaries score
  | None => score
  end.

(** [systemTypeScores]: the types of positive score, in catalog order. *)
Definition systemTypeScores (lowerContent : string) : list (string * nat) :=
  filter (fun e => Nat.ltb 0 (snd e))
         (map (fun e => (fst e, scoreOf lowerContent (fst e) (snd e)))
              systemPatterns).

(** [Array.prototype.sort] with the comparator [(a, b) => b - a] on the
    scores: a stable sort by decreasing score. *)
Fixpoint insertDesc (e : string * nat) (l : list (string * nat)) : list (string * nat) :=
  match l with
  | [] => [e]
  | h :: t => if Nat.leb (snd h) (snd e) then e :: l else h :: insertDesc e t
  end.

Fixpoint sortDesc (l : list (string * nat)) : list (string * nat) :=
  match l with
  | [] => []
  | e :: r => insertDesc e (sortDesc r)
  end.

Definition detectSystemType (lowerContent : string) : list string :=
  let detected :=
    match sortDesc (systemTypeScores lowerContent) with
    | bestMatch :: _ => if Nat.leb 3 (snd bestMatch) then [fst bestMatch] else []
    | [] => []
    end in
  match detected with
  | [] => ["industrial_control"]
  | _ => detected
  end.

Definition extractSystemKeywords (content : string) : SystemKeywords :=
  let lowerContent := toLowerCase content in
  {| systemType := detectSystemType lowerContent;
     operations := filter (includes lowerContent) operationPatterns;
     components := filter (includes lowerContent) componentPatterns;
     controls := filter (includes lowerContent) controlPatterns |}.

End Keywords.

(** ** The agent and its session *)

Module Agent.
Import Js Keywords.

Record Screen := mkScreen {
  screenId : option string;
  screenName : string;
  screenPurpose : option string;
  screenType : option string
}.

(** [this.sessionData]: the fields the embedded methods read. *)
Record SessionData := mkSession {
  fdsContent : option string;
  screenList : option (list Screen)
}.

(** The agent: its session, the progress events it has sent and the
    prompts it has sent to the language-model service, oldest first. *)
Record HMIAgent := mkAgent {
  sessionData : SessionData;
  progress : list (string * string);
  requests : list string
}.

(** A method that uses [this]: a state transformer on the agent. *)
Definition M (A : Type) : Type := HMIAgent -> A * HMIAgent.

Definition ret {A : Type} (a : A) : M A := fun ag => (a, ag).

Definition bind {A B : Type} (m : M A) (k : A -> M B) : M B :=
  fun ag => let '(a, ag') := m ag in k a ag'.

(** Reading [this] without changing it. *)
Definition reading {A : Type} (f : HMIAgent -> A) : M A := fun ag => (f ag, ag).

(** [this.updateProgress(step, message)]; the pictograph that opens a
    message in the source is left out of the text. *)
Definition updateProgress (step message : string) : M unit :=
  fun ag => (tt, {| sessionData := sessionData ag;
                    progress := progress ag ++ [(step, message)];
                    requests := requests ag |}).

Definition clearSession : M unit :=
  fun ag => (tt, {| sessionData := mkSession None None;
                    progress := progress ag;
                    requests := requests ag |}).

(** [await this.openai.chat.completions.create(...)] through the service
    [chat]: the reply text, or the failure of the call. *)
Definition callModel (chat : string -> result string) (prompt : string)
  : M (result string) :=
  fun ag => (chat prompt, {| sessionData := sessionData ag;
                             progress := progress ag;
                             requests := requests ag ++ [prompt] |}).

(** [this.extractSystemKeywords(content)] as a call on the agent: the
    method works on its argument and on objects it creates itself, and
    neither reads nor changes the agent. *)
Definition extractSystemKeywordsCall (content : string) : M SystemKeywords :=
  reading (fun _ => extractSystemKeywords content).

(** Two runs of a method on one agent, the second on the agent as the
    first run and whatever the agent did in between have left it. *)
Definition twoRuns {A B : Type} (m : M A) (between : M B) : M (A * A) :=
  bind m (fun first =>
  bind between (fun _ =>
  bind m (fun second => ret (first, second)))).

Record DocumentContext := mkContext {
  documentSample : string;
  systemKeywords : SystemKeywords;
  totalScreens : nat;
  screenNames : list string;
  ctxScreenList : list Screen;
  ctxFdsContent : string
}.

Definition getDocumentContext (ag : HMIAgent) : DocumentContext :=
  let fds := orStr (fdsContent (sessionData ag)) "" in
  let screens :=
    match screenList (sessionData ag) with
    | Some l => l
    | None => []
    end in
  {| documentSample := take 2000 fds;
     systemKeywords := extractSystemKeywords fds;
     totalScreens := List.length screens;
     screenNames := map screenName screens;
     ctxScreenList := screens;
     ctxFdsContent := fds |}.

(** [documentContext.systemKeywords.systemType[0] || d] *)
Definition systemTypeOr (ctx : DocumentContext) (d : string) : string :=
  orStr (hd_error (systemType (systemKeywords ctx))) d.

(** The first pattern of [extractDetailedScreenSection], a template
    literal around the lower-cased screen name. *)
Definition screenSectionPattern (screenName : string) : string :=
  "\b" ++ screenName ++ "\b[\s\S]{0,2000}".

(** Whether [new RegExp(screenSectionPattern screenName, 'gi')] returns.
    A name without syntax characters gives a word boundary, pattern
    characters, a word boundary and a quantified class, which every
    runtime accepts; on any other name the verdict is [validPattern]'s.
    The remaining patterns of the method are constants. *)
Definition compiles (validPattern : string -> bool) (screenName : string) : bool :=
  (plainText screenName || validPattern (screenSectionPattern screenName))%bool.

Definition invalidPattern : string := "SyntaxError: Invalid regular expression".

End Agent.

(** ** Section segmenter *)

Module Segmenter.
Import Js Agent.

Record Section_ := mkSection { heading : string; content : list string }.

(** [/^\d+\.\s/] and [/^\d+\.\d+\s/]: a run of digits is consumed, since
    what follows a run of digits in either pattern is not a digit. *)
Fixpoint skipDigits (s : string) : string :=
  match s with
  | String c r => if isDigit c then skipDigits r else s
  | "" => ""
  end.

Definition digits1 (s : string) : option string :=
  match s with
  | String c r => if isDigit c then Some (skipDigits r) else None
  | "" => None
  end.

Definition numbered (s : string) : bool :=
  match digits1 s with
  | Some (String d (String w _)) => (Ascii.eqb d "." && isSpace w)%bool
  | _ => false
  end.

Definition subNumbered (s : string) : bool :=
  match digits1 s with
  | Some (String d r) =>
      (Ascii.eqb d "." &&
       match digits1 r with
       | Some (String w _) => isSpace w
       | _ => false
       end)%bool
  | _ => false
  end.

(** [/^[A-Z][A-Z\s]+$/] *)
Fixpoint allCapsOrSpace (s : string) : bool :=
  match s with
  | "" => true
  | String c r => ((isUpperAZ c || isSpace c) && allCapsOrSpace r)%bool
  end.

Definition allCaps (s : string) : bool :=
  match s with
  | String c (String d r) =>
      (isUpperAZ c && allCapsOrSpace (String d r))%bool
  | _ => false
  end.

Definition leadingWords : list string :=
  ["Manual"; "Auto"; "Automatic"; "Home"; "Main"; "Test"; "Pumpback";
   "Purging"; "Settings"; "Alarm"; "User"; "Configuration"; "Display";
   "Control"; "Interface"; "Panel"; "View"; "Time"; "Tracking";
   "Diagnostic"].

Definition nounWords : list string :=
  ["Screen"; "Display"; "Interface"; "Panel"; "View"; "Mode"; "System";
   "Control"; "Management"].

(** [/^\w+\s*(Screen|...)/i]: some non-empty prefix of word characters,
    then white space, then one of the nouns.  [wordThenNoun] is entered
    after the first word character and tries every end of the prefix. *)
Fixpoint wordThenNoun (s : string) : bool :=
  (existsb (fun w => startsWith_ci w (trimStart s)) nounWords ||
   match s with
   | String c r => (isWord c && wordThenNoun r)%bool
   | "" => false
   end)%bool.

Definition wordNoun (s : string) : bool :=
  match s with
  | String c r => (isWord c && wordThenNoun r)%bool
  | "" => false
  end.

Definition anywhereWords : list string :=
  ["acting"; "cylinder"; "extend"; "retract"; "feedback"; "fault"; "timer";
   "interlock"].

Definition endingWords : list string :=
  ["Screen"; "Interface"; "Control"; "Mode"; "System"].

(** [headingPatterns.some(pattern => pattern.test(trimmed))] *)
Definition isHeading (line : string) : bool :=
  let trimmed := trim line in
  if Nat.eqb (String.length trimmed) 0 then false
  else
    (numbered trimmed || subNumbered trimmed || allCaps trimmed ||
     existsb (endsWith_ci trimmed) endingWords ||
     existsb (fun w => startsWith_ci w trimmed) leadingWords ||
     wordNoun trimmed ||
     existsb (includes_ci trimmed) anywhereWords)%bool.

(** The lines the loop runs over:
    [content.split('\n').filter(line => line.trim().length > 0)] *)
Definition nonEmptyLines (text : string) : list string :=
  filter (fun line => negb (Nat.eqb (String.length (trim line)) 0))
         (splitLines text).

(** The state of the loop: the sections pushed so far and the section
    under construction. *)
Definition loopState : Type := (list Section_ * option Section_)%type.

Definition step (implicitHeading : string) (st : loopState) (line : string)
  : loopState :=
  let '(sections, currentSection) := st in
  if isHeading line then
    (match currentSection with
     | Some cur => sections ++ [cur]
     | None => sections
     end,
     Some (mkSection (trim line) []))
  else
    match currentSection with
    | Some cur =>
        (sections, Some (mkSection (heading cur) (content cur ++ [trim line])))
    | None => (sections, Some (mkSection implicitHeading [trim line]))
    end.

Definition finish (st : loopState) : list Section_ :=
  match snd st with
  | Some cur => fst st ++ [cur]
  | None => fst st
  end.

Definition segment (implicitHeading : string) (lines : list string)
  : list Section_ :=
  finish (fold_left (step implicitHeading) lines ([], None)).

(** What [createBasicStructure] returns for a text. *)
Definition basicStructure (content : string) : list Section_ :=
  segment "Document Content" (nonEmptyLines content).

Definition createBasicStructure (content : string) : M (list Section_) :=
  bind (updateProgress "analysis" "Creating basic structure for non-DOCX file...")
       (fun _ => ret (basicStructure content)).

(** [parseDocumentStructure] on a document that is already text (the first
    case of [extractTextFromDocx]). *)
Definition parseDocumentStructure (content : string) : list Section_ :=
  segment "Introduction" (nonEmptyLines content).

(** ** Screen identifier: the rule-based pre-filter *)

Definition screenKeywords : list string :=
  ["screen"; "display"; "interface"; "panel"; "view"; "window"; "home";
   "main"; "test"; "pumpback"; "purging"; "settings"; "alarm"; "user";
   "configuration"; "status"; "control"; "navigation"; "menu"; "hmi";
   "gui"; "ui"].

Definition screenLike (section : Section_) : bool :=
  let sectionText :=
    toLowerCase (heading section ++ " " ++ join " " (content section)) in
  existsb (includes sectionText) screenKeywords.

(** [/^\d+\.\d+/] *)
Definition startsNumbered (s : string) : bool :=
  match digits1 s with
  | Some (String d (String e _)) => (Ascii.eqb d "." && isDigit e)%bool
  | _ => false
  end.

Definition structural (section : Section_) : bool :=
  let h := toLowerCase (heading section) in
  (includes h "screen" || includes h "display" || includes h "interface" ||
   startsNumbered h ||
   existsb (fun line => (includes line "button" || includes line "field" ||
                         includes line "status" || includes line "indicator")%bool)
           (content section))%bool.

(** [self.filter((section, index) => index === self.findIndex(s =>
    s.heading === section.heading))]: the first section of each heading;
    [seen] holds the headings met so far. *)
Fixpoint firstOfEachHeading (seen : list string) (sections : list Section_)
  : list Section_ :=
  match sections with
  | [] => []
  | section :: rest =>
      if existsb (String.eqb (heading section)) seen
      then firstOfEachHeading seen rest
      else section :: firstOfEachHeading (heading section :: seen) rest
  end.

(** What [filterScreenLikeSections] returns. *)
Definition screenLikeSections (sections : list Section_) : list Section_ :=
  firstOfEachHeading [] (filter screenLike sections ++ filter structural sections).

Definition filterScreenLikeSections (sections : list Section_) : M (list Section_) :=
  bind (updateProgress "analysis" "Filtering screen-like sections...")
       (fun _ => ret (screenLikeSections sections)).

End Segmenter.

(** ** Screen specifications *)

Module Spec.
Import Js Keywords Agent.

Open Scope Z_scope.

(** [position]: the four coordinates, as parsed JSON may hold them. *)
Record Position := mkPos {
  pos_x : Value;
  pos_y : Value;
  pos_width : Value;
  pos_height : Value
}.

(** A position literal of the code: four whole numbers. *)
Definition at_ (x y w h : Z) : Position :=
  mkPos (number (Fin x)) (number (Fin y)) (number (Fin w)) (number (Fin h)).

(** [{}] *)
Definition noPosition : Position := mkPos undefined undefined undefined undefined.

Record Element := mkElement {
  type_ : string;
  label : string;
  position : option Position;
  style : list (string * string);
  purpose : option string;
  userAction : option string;
  headers : list string;
  rows : option Z
}.

(** An element literal with [type], [label], [position] and [style]. *)
Definition element (t l : string) (p : Position) (st : list (string * string)) : Element :=
  mkElement t l (Some p) st None None [] None.

Definition table (t l : string) (hs : list string) (n : Z) (p : Position)
  (st : list (string * string)) : Element :=
  mkElement t l (Some p) st None None hs (Some n).

Record Band := mkBand {
  band_title : option string;
  band_height : Value;
  band_backgroundColor : option string;
  band_titleColor : option string;
  band_elements : option (list Element)
}.

Record MainArea := mkMainArea {
  main_backgroundColor : option string;
  main_type : option string
}.

Record Layout := mkLayout {
  header : option Band;
  mainArea : option MainArea;
  footer : option Band
}.

Record Navigation := mkNavigation {
  nav_from : list string;
  nav_to : list string;
  breadcrumb : string
}.

(** A screen specification, as the model returns it and as the generator
    emits it: every top-level field may be absent. *)
Record ScreenSpec := mkSpec {
  screenTitle : option string;
  specPurpose : option string;
  navigation : option Navigation;
  layout : option Layout;
  colorScheme : option (list (string * string));
  elements : option (list Element);
  functionalDescription : option string;
  recommendations : option (list string)
}.

(** What [extractScreenRelevantContent] hands to the element generators. *)
Record ScreenContent := mkContent {
  relatedEquipment : list string;
  keyOperations : list string;
  parameters : list string
}.

Definition elementsOf (s : ScreenSpec) : list Element :=
  match elements s with
  | Some l => l
  | None => []
  end.

(** *** The document-driven element generators *)

(** The loop that lays buttons out three to a row: [index] counts the
    items done, [buttonX] and [buttonY] are the loop variables. *)
Fixpoint buttonGrid (mk : string -> Z -> Z -> Element) (rowStep colStep : Z)
  (index : nat) (buttonX buttonY : Z) (items : list string) : list Element :=
  match items with
  | [] => []
  | item :: rest =>
      let wrap := (Nat.ltb 0 index && Nat.eqb (index mod 3) 0)%bool in
      let buttonY := if wrap then buttonY + rowStep else buttonY in
      let buttonX := if wrap then 50 else buttonX in
      mk item buttonX buttonY ::
      buttonGrid mk rowStep colStep (S index) (buttonX + colStep) buttonY rest
  end.

(** [list.forEach((item, index) => ...)] that pushes one element per item. *)
Fixpoint indexed (mk : string -> nat -> Element) (index : nat) (items : list string)
  : list Element :=
  match items with
  | [] => []
  | item :: rest => mk item index :: indexed mk (S index) rest
  end.

Definition generateDocumentDrivenHomeElements (screenContent : ScreenContent)
  (documentContext : DocumentContext) : list Element :=
  let systemType := systemTypeOr documentContext "System" in
  let otherScreens :=
    filter (fun name => (negb (includes (toLowerCase name) "home") &&
                         negb (includes (toLowerCase name) "main"))%bool)
           (screenNames documentContext) in
  [element "text"
     (toUpperCase (replaceFirst "_" " " systemType) ++ " CONTROL SYSTEM")
     (at_ 50 120 500 30)
     [("fontSize", "20px"); ("color", "#F39C12"); ("fontWeight", "bold")]]
  ++ buttonGrid
       (fun screenName bx by_ =>
          element "control_button" (toUpperCase screenName) (at_ bx by_ 200 60)
            [("backgroundColor", "#3498DB"); ("color", "#FFFFFF"); ("fontSize", "12px")])
       80 220 0 50 180 (firstn 6 otherScreens)
  ++ [table "data_table" "System Overview" ["COMPONENT"; "STATUS"; "VALUE"] 6
        (at_ 50 350 700 150) [("fontSize", "12px"); ("color", "#2C3E50")]].

Definition generateDocumentDrivenControlElements (screenContent : ScreenContent)
  (documentContext : DocumentContext) : list Element :=
  [element "text" "Manual Control Interface" (at_ 50 120 400 30)
     [("fontSize", "20px"); ("color", "#F39C12"); ("fontWeight", "bold")]]
  ++ buttonGrid
       (fun operation bx by_ =>
          element "control_button" (toUpperCase operation) (at_ bx by_ 140 50)
            [("backgroundColor", "#27AE60"); ("color", "#FFFFFF"); ("fontSize", "14px")])
       70 160 0 50 180 (keyOperations screenContent)
  ++ indexed
       (fun equipment index =>
          element "data_display" (toUpperCase equipment)
            (at_ (50 + Z.of_nat index * 200) 280 180 40)
            [("fontSize", "14px"); ("color", "#2ECC71")])
       0 (firstn 3 (relatedEquipment screenContent))
  ++ [element "gauge" "System Pressure" (at_ 600 180 100 100)
        [("fontSize", "12px"); ("color", "#3498DB")]].

Definition generateDocumentDrivenAutoElements (screenContent : ScreenContent)
  (documentContext : DocumentContext) : list Element :=
  [element "text" "Automatic Operation Mode" (at_ 50 120 400 30)
     [("fontSize", "20px"); ("color", "#F39C12"); ("fontWeight", "bold")];
   element "control_button" "START AUTO" (at_ 50 180 180 60)
     [("backgroundColor", "#27AE60"); ("color", "#FFFFFF"); ("fontSize", "16px")];
   element "control_button" "STOP AUTO" (at_ 250 180 180 60)
     [("backgroundColor", "#E74C3C"); ("color", "#FFFFFF"); ("fontSize", "16px")];
   element "progress_bar" "Auto Sequence Progress" (at_ 50 270 400 30)
     [("fontSize", "12px"); ("color", "#3498DB")]]
  ++ indexed
       (fun operation index =>
          element "status_indicator" ("AUTO " ++ toUpperCase operation)
            (at_ (50 + Z.of_nat (index mod 2) * 300)
                 (320 + Z.of_nat (index / 2) * 50) 250 30)
            [("color", "#ECF0F1"); ("backgroundColor", "#27AE60"); ("fontSize", "12px")])
       0 (firstn 4 (keyOperations screenContent)).

Definition generateDocumentDrivenTestElements (screenContent : ScreenContent)
  (documentContext : DocumentContext) : list Element :=
  [element "text" "System Test & Diagnostics" (at_ 50 120 400 30)
     [("fontSize", "20px"); ("color", "#F39C12"); ("fontWeight", "bold")];
   element "control_button" "START TEST" (at_ 500 120 120 50)
     [("backgroundColor", "#27AE60"); ("color", "#FFFFFF"); ("fontSize", "14px")];
   element "control_button" "STOP TEST" (at_ 640 120 120 50)
     [("backgroundColor", "#E74C3C"); ("color", "#FFFFFF"); ("fontSize", "14px")];
   element "progress_bar" "Test Progress" (at_ 50 180 400 25)
     [("fontSize", "12px"); ("color", "#3498DB")];
   table "data_table" "Test Results" ["COMPONENT"; "TEST"; "RESULT"; "STATUS"] 8
     (at_ 50 230 700 200) [("fontSize", "11px"); ("color", "#2C3E50")]].

Definition generateDocumentDrivenPumpElements (screenContent : ScreenContent)
  (documentContext : DocumentContext) : list Element :=
  [element "text" "Pump Control & Monitoring" (at_ 50 120 400 30)
     [("fontSize", "20px"); ("color", "#F39C12"); ("fontWeight", "bold")];
   element "control_button" "START PUMP" (at_ 50 180 150 60)
     [("backgroundColor", "#27AE60"); ("color", "#FFFFFF"); ("fontSize", "14px")];
   element "control_button" "STOP PUMP" (at_ 220 180 150 60)
     [("backgroundColor", "#E74C3C"); ("color", "#FFFFFF"); ("fontSize", "14px")];
   element "gauge" "Pump Pressure" (at_ 400 160 100 100)
     [("fontSize", "12px"); ("color", "#3498DB")];
   element "gauge" "Flow Rate" (at_ 520 160 100 100)
     [("fontSize", "12px"); ("color", "#2ECC71")];
   element "status_indicator" "PUMP STATUS" (at_ 650 180 120 40)
     [("color", "#ECF0F1"); ("backgroundColor", "#27AE60"); ("fontSize", "14px")]].

Definition generateDocumentDrivenPurgeElements (screenContent : ScreenContent)
  (documentContext : DocumentContext) : list Element :=
  [element "text" "Purging Sequence Control" (at_ 50 120 400 30)
     [("fontSize", "20px"); ("color", "#F39C12"); ("fontWeight", "bold")];
   element "control_button" "START PURGE" (at_ 50 180 150 60)
     [("backgroundColor", "#F39C12"); ("color", "#FFFFFF"); ("fontSize", "14px")];
   element "control_button" "STOP PURGE" (at_ 220 180 150 60)
     [("backgroundColor", "#E74C3C"); ("color", "#FFFFFF"); ("fontSize", "14px")];
   element "progress_bar" "Purge Progress" (at_ 50 270 400 30)
     [("fontSize", "12px"); ("color", "#F39C12")];
   element "data_display" "Purge Time Remaining" (at_ 500 180 200 40)
     [("fontSize", "14px"); ("color", "#2ECC71")];
   element "status_indicator" "PURGE STATUS" (at_ 500 240 200 40)
     [("color", "#ECF0F1"); ("backgroundColor", "#F39C12"); ("fontSize", "14px")]].

Definition generateDocumentDrivenSettingsElements (screenContent : ScreenContent)
  (documentContext : DocumentContext) : list Element :=
  [element "text" "System Configuration" (at_ 50 120 400 30)
     [("fontSize", "20px"); ("color", "#F39C12"); ("fontWeight", "bold")];
   element "control_button" "SAVE CONFIG" (at_ 50 180 120 50)
     [("backgroundColor", "#27AE60"); ("color", "#FFFFFF"); ("fontSize", "14px")];
   element "control_button" "LOAD CONFIG" (at_ 190 180 120 50)
     [("backgroundColor", "#3498DB"); ("color", "#FFFFFF"); ("fontSize", "14px")];
   element "control_button" "RESET CONFIG" (at_ 330 180 120 50)
     [("backgroundColor", "#E74C3C"); ("color", "#FFFFFF"); ("fontSize", "14px")]]
  ++ indexed
       (fun param index =>
          element "value_input" (toUpperCase param)
            (at_ (50 + Z.of_nat (index mod 2) * 300)
                 (250 + Z.of_nat (index / 2) * 60) 250 40)
            [("fontSize", "12px"); ("color", "#2C3E50")])
       0 (firstn 4 (parameters screenContent)).

Definition generateDocumentDrivenAlarmElements (screenContent : ScreenContent)
  (documentContext : DocumentContext) : list Element :=
  [element "text" "System Alarms & Faults" (at_ 50 120 400 30)
     [("fontSize", "20px"); ("color", "#E74C3C"); ("fontWeight", "bold")];
   element "control_button" "ACK ALL" (at_ 500 120 100 40)
     [("backgroundColor", "#F39C12"); ("color", "#FFFFFF"); ("fontSize", "14px")];
   element "control_button" "CLEAR ALL" (at_ 620 120 100 40)
     [("backgroundColor", "#E74C3C"); ("color", "#FFFFFF"); ("fontSize", "14px")];
   table "data_table" "Active Alarms" ["ALARM"; "PRIORITY"; "TIME"; "STATUS"] 10
     (at_ 20 180 760 280)
     [("headerColor", "#E74C3C"); ("rowColor", "#34495E"); ("textColor", "#ECF0F1")]].

Definition generateDocumentDrivenTrackingElements (screenContent : ScreenContent)
  (documentContext : DocumentContext) : list Element :=
  [element "text" "System Performance Tracking" (at_ 50 120 400 30)
     [("fontSize", "20px"); ("color", "#F39C12"); ("fontWeight", "bold")];
   table "data_table" "Performance Data" ["PARAMETER"; "CURRENT"; "AVERAGE"; "TREND"] 12
     (at_ 20 180 760 300)
     [("headerColor", "#F39C12"); ("rowColor", "#34495E"); ("textColor", "#ECF0F1")]].

Definition generateDocumentDrivenUserElements (screenContent : ScreenContent)
  (documentContext : DocumentContext) : list Element :=
  [element "text" "User Access Management" (at_ 50 120 400 30)
     [("fontSize", "20px"); ("color", "#F39C12"); ("fontWeight", "bold")];
   element "control_button" "LOGIN" (at_ 50 180 100 50)
     [("backgroundColor", "#27AE60"); ("color", "#FFFFFF"); ("fontSize", "14px")];
   element "control_button" "LOGOUT" (at_ 170 180 100 50)
     [("backgroundColor", "#E74C3C"); ("color", "#FFFFFF"); ("fontSize", "14px")];
   element "control_button" "CHANGE PASSWORD" (at_ 290 180 150 50)
     [("backgroundColor", "#3498DB"); ("color", "#FFFFFF"); ("fontSize", "14px")];
   table "data_table" "User List" ["USERNAME"; "ROLE"; "STATUS"; "LAST LOGIN"] 8
     (at_ 50 250 700 200)
     [("headerColor", "#3498DB"); ("rowColor", "#34495E"); ("textColor", "#ECF0F1")]].

Definition generateDocumentDrivenGenericElements (screenContent : ScreenContent)
  (documentContext : DocumentContext) (screen : Screen) : list Element :=
  [element "text" (screenName screen ++ " Interface") (at_ 50 120 400 30)
     [("fontSize", "18px"); ("color", "#F39C12")]]
  ++ buttonGrid
       (fun operation bx by_ =>
          element "control_button" (toUpperCase operation) (at_ bx by_ 150 50)
            [("backgroundColor", "#3498DB"); ("color", "#FFFFFF"); ("fontSize", "14px")])
       70 170 0 50 180 (firstn 6 (keyOperations screenContent))
  ++ [table "data_table" "System Data" ["COMPONENT"; "STATUS"; "VALUE"; "CONTROL"] 8
        (at_ 20 300 760 200)
        [("headerColor", "#F39C12"); ("rowColor", "#34495E"); ("textColor", "#ECF0F1")]].

(** *** The rule-based fallback *)

Section Fallback.

(** The verdict of the runtime on a pattern, see [compiles]. *)
Variable validPattern : string -> bool.

(** What [extractScreenRelevantContent] returns once its patterns are
    built: the three lists that the regular expressions find in the
    document, or the defaults for the kind of screen.  The generators
    below read nothing else of it, so the lists are a parameter here. *)
Variable screenRelevantContent : Screen -> DocumentContext -> ScreenContent.

(** [extractScreenRelevantContent]: building the pattern around the
    screen name comes first, and throws when the runtime rejects it. *)
Definition extractScreenRelevantContent (screen : Screen)
  (documentContext : DocumentContext) : result ScreenContent :=
  let screenName := toLowerCase (screenName screen) in
  if compiles validPattern screenName
  then Ok (screenRelevantContent screen documentContext)
  else Throw invalidPattern.

(** The elements [generateAdaptiveElements] pushes once the content of
    the screen is there. *)
Definition adaptiveElements (screen : Screen) (documentContext : DocumentContext)
  (screenRelevantContent : ScreenContent) : list Element :=
  let name := toLowerCase (screenName screen) in
  let has := includes name in
  [element "header_title" (screenName screen) (at_ 20 25 400 30)
     [("fontSize", "24px"); ("color", "#ECF0F1"); ("fontWeight", "bold")];
   element "status_indicator" "SYSTEM READY" (at_ 600 25 140 30)
     [("color", "#ECF0F1"); ("backgroundColor", "#27AE60")]]
  ++
  (if (has "home" || has "main")%bool then
     generateDocumentDrivenHomeElements screenRelevantContent documentContext
   else if (has "manual" || has "control")%bool then
     generateDocumentDrivenControlElements screenRelevantContent documentContext
   else if (has "auto" || has "automatic")%bool then
     generateDocumentDrivenAutoElements screenRelevantContent documentContext
   else if (has "test" || has "diagnostic")%bool then
     generateDocumentDrivenTestElements screenRelevantContent documentContext
   else if (has "pump" || has "pumpback")%bool then
     generateDocumentDrivenPumpElements screenRelevantContent documentContext
   else if (has "purge" || has "purging")%bool then
     generateDocumentDrivenPurgeElements screenRelevantContent documentContext
   else if (has "settings" || has "config")%bool then
     generateDocumentDrivenSettingsElements screenRelevantContent documentContext
   else if (has "alarm" || has "alert")%bool then
     generateDocumentDrivenAlarmElements screenRelevantContent documentContext
   else if (has "time" || has "tracking")%bool then
     generateDocumentDrivenTrackingElements screenRelevantContent documentContext
   else if (has "user" || has "management")%bool then
     generateDocumentDrivenUserElements screenRelevantContent documentContext
   else
     generateDocumentDrivenGenericElements screenRelevantContent documentContext screen).

Definition generateAdaptiveElements (screen : Screen) (systemType : string)
  (documentContext : DocumentContext) : result (list Element) :=
  match extractScreenRelevantContent screen documentContext with
  | Throw e => Throw e
  | Ok screenRelevantContent =>
      Ok (adaptiveElements screen documentContext screenRelevantContent)
  end.

(** [baseSpec], with its [elements] once they are assigned. *)
Definition baseSpec (screen : Screen) (elements : list Element) : ScreenSpec :=
  {| screenTitle := Some (screenName screen);
     specPurpose := None;
     navigation := None;
     layout := Some
       {| header := Some (mkBand (Some (screenName screen)) (number (Fin 80))
                            (Some "#2C3E50") (Some "#ECF0F1") None);
          mainArea := Some (mkMainArea (Some "#34495E")
                              (Some (orStr (screenType screen) "control")));
          footer := Some (mkBand None (number (Fin 60)) (Some "#2C3E50") None None) |};
     colorScheme := Some
       [("background", "#34495E"); ("primary", "#3498DB");
        ("secondary", "#F39C12"); ("accent", "#E74C3C");
        ("success", "#27AE60"); ("text", "#ECF0F1"); ("header", "#2C3E50")];
     elements := Some elements;
     functionalDescription := None;
     recommendations := None |}.

Definition generateFallbackSpec (screen : Screen) (documentContext : DocumentContext)
  : result ScreenSpec :=
  let systemType := systemTypeOr documentContext "generic" in
  match generateAdaptiveElements screen systemType documentContext with
  | Throw e => Throw e
  | Ok elements => Ok (baseSpec screen elements)
  end.

End Fallback.

(** *** Validation and repair of a specification *)

Definition elementTypes : list string :=
  ["control_button"; "status_indicator"; "data_display"; "value_input";
   "gauge"; "progress_bar"; "data_table"; "alarm_indicator"].

Definition pick (l : list string) (i : nat) : string := nth i l "".

(** [generateElementLabel]: the terms come from the session's document,
    read through [this.getDocumentContext()]. *)
Definition generateElementLabel (ag : HMIAgent) (type systemType : string)
  (index : nat) : string :=
  let kw := systemKeywords (getDocumentContext ag) in
  let availableTerms := components kw ++ operations kw ++ controls kw in
  let term := nth_error availableTerms index in
  let four l := pick l (index mod 4) in
  if String.eqb type "control_button" then
    match term with
    | Some t => toUpperCase t
    | None => four ["START"; "STOP"; "RESET"; "CONFIRM"]
    end
  else if String.eqb type "status_indicator" then
    match term with
    | Some t => toUpperCase t ++ " STATUS"
    | None => four ["SYSTEM STATUS"; "READY"; "ACTIVE"; "NORMAL"]
    end
  else if String.eqb type "data_display" then
    match term with
    | Some t =>
        if includes (toLowerCase t) "temperature" then "TEMPERATURE"
        else if includes (toLowerCase t) "pressure" then "PRESSURE"
        else if includes (toLowerCase t) "flow" then "FLOW RATE"
        else if includes (toLowerCase t) "speed" then "SPEED"
        else toUpperCase t
    | None => four ["TEMPERATURE"; "PRESSURE"; "FLOW RATE"; "LEVEL"]
    end
  else if String.eqb type "value_input" then
    four ["SET POINT"; "TARGET VALUE"; "THRESHOLD"; "LIMIT"]
  else if String.eqb type "gauge" then
    match term with
    | Some t => toUpperCase t ++ " GAUGE"
    | None => four ["PRESSURE GAUGE"; "TEMPERATURE GAUGE"; "FLOW GAUGE"; "LEVEL GAUGE"]
    end
  else if String.eqb type "progress_bar" then
    match term with
    | Some t => toUpperCase t ++ " PROGRESS"
    | None => four ["OPERATION PROGRESS"; "TEST PROGRESS"; "STARTUP PROGRESS"; "PROCESS PROGRESS"]
    end
  else if String.eqb type "alarm_indicator" then
    match term with
    | Some t => toUpperCase t ++ " ALARM"
    | None => four ["SYSTEM ALARM"; "PRESSURE ALARM"; "TEMPERATURE ALARM"; "FLOW ALARM"]
    end
  else if String.eqb type "data_table" then "SYSTEM DATA"
  else "ELEMENT " ++ showNat (index + 1).

(** One turn of the loop of [generateAdditionalElements]. *)
Definition additionalElement (ag : HMIAgent) (systemType : string) (i : nat) : Element :=
  let type := pick elementTypes (i mod List.length elementTypes) in
  let ty := String.eqb type in
  {| type_ := type;
     label := generateElementLabel ag type systemType i;
     position := Some (at_
       (50 + Z.of_nat (i mod 3) * 250)
       (200 + Z.of_nat (i / 3) * 100)
       (if ty "data_table" then 300 else if ty "gauge" then 80
        else if ty "progress_bar" then 200 else 120)
       (if ty "data_table" then 80 else if ty "gauge" then 80
        else if ty "progress_bar" then 25 else 40));
     style :=
       [("backgroundColor",
         if ty "control_button" then "#3498DB"
         else if ty "alarm_indicator" then "#E74C3C" else "#27AE60");
        ("color", "#FFFFFF"); ("fontSize", "14px")];
     purpose := Some ("Additional " ++ replaceFirst "_" " " type ++ " for system operation")%string;
     userAction := Some ("Operator interacts with this " ++ replaceFirst "_" " " type)%string;
     headers := [];
     rows := None |}.

(** [count] may be negative or zero: the loop then does not run. *)
Definition generateAdditionalElements (ag : HMIAgent) (screen : Screen)
  (documentContext : DocumentContext) (count : Z) : list Element :=
  let systemType := systemTypeOr documentContext "industrial" in
  map (additionalElement ag systemType) (seq 0 (Z.to_nat count)).

(** [element.position || {}] *)
Definition positionOf (element : Element) : Position :=
  match position element with
  | Some p => p
  | None => noPosition
  end.

(** The loop of [validateElementPositions], with its two counters. *)
Fixpoint validateFrom (index : nat) (currentY : Num) (elements : list Element)
  : list Element :=
  match elements with
  | [] => []
  | element :: rest =>
      let pos := positionOf element in
      let x := mathMax (Fin 20)
                 (orValue (pos_x pos) (Fin (50 + Z.of_nat (index mod 3) * 200))) in
      let y := mathMax (Fin 120) (orValue (pos_y pos) currentY) in
      let w := mathMin (Fin 400) (mathMax (Fin 80) (orValue (pos_width pos) (Fin 150))) in
      let h := mathMax (Fin 30) (orValue (pos_height pos) (Fin 40)) in
      {| type_ := type_ element; label := label element;
         position := Some (mkPos (number x) (number y) (number w) (number h));
         style := style element; purpose := purpose element;
         userAction := userAction element; headers := headers element;
         rows := rows element |}
      :: validateFrom (S index) (plus (plus y h) (Fin 10)) rest
  end.

Definition validateElementPositions (elements : list Element) : list Element :=
  validateFrom 0 (Fin 120) elements.

(** [el.position?.y < 100] *)
Definition yBelow (bound : Z) (el : Element) : bool :=
  match position el with
  | Some p => lessThan (toNumber (pos_y p)) (Fin bound)
  | None => false
  end.

Definition isTitle (el : Element) : bool :=
  (String.eqb (type_ el) "header_title" ||
   (String.eqb (type_ el) "text" && yBelow 100 el))%bool.

Definition isStatus (el : Element) : bool := String.eqb (type_ el) "status_indicator".

Definition titleElement (screen : Screen) : Element :=
  {| type_ := "text"; label := screenName screen;
     position := Some (at_ 20 25 400 30);
     style := [("fontSize", "24px"); ("color", "#ECF0F1"); ("fontWeight", "bold")];
     purpose := Some "Screen title and identification";
     userAction := Some "Visual reference for current screen";
     headers := []; rows := None |}.

Definition statusElement : Element :=
  {| type_ := "status_indicator"; label := "SYSTEM READY";
     position := Some (at_ 600 25 140 30);
     style := [("color", "#ECF0F1"); ("backgroundColor", "#27AE60")];
     purpose := Some "Overall system status indication";
     userAction := Some "Monitor system health at a glance";
     headers := []; rows := None |}.

Definition ensureEssentialElements (elements : list Element) (screen : Screen)
  (documentContext : DocumentContext) : list Element :=
  let hasTitle := existsb isTitle elements in
  let hasStatus := existsb isStatus elements in
  (if hasTitle then [] else [titleElement screen])
  ++ elements
  ++ (if hasStatus then [] else [statusElement]).

Definition mentionsHome (s : string) : bool :=
  (includes (toLowerCase s) "main" || includes (toLowerCase s) "home")%bool.

Definition generateNavigationFrom (screen : Screen) (documentContext : DocumentContext)
  : list string :=
  let name := toLowerCase (screenName screen) in
  let allScreens := screenNames documentContext in
  if (includes name "home" || includes name "main")%bool then ["System Startup"]
  else if (includes name "settings" || includes name "config")%bool then
    filter mentionsHome allScreens
  else if includes name "alarm" then allScreens
  else filter mentionsHome allScreens.

Definition generateNavigationTo (screen : Screen) (documentContext : DocumentContext)
  : list string :=
  let name := toLowerCase (screenName screen) in
  let allScreens := screenNames documentContext in
  if (includes name "home" || includes name "main")%bool then
    filter (fun s => negb (String.eqb s (screenName screen))) allScreens
  else if (includes name "settings" || includes name "config")%bool then
    filter mentionsHome allScreens
  else
    filter (fun s => (mentionsHome s || includes (toLowerCase s) "alarm")%bool)
           allScreens.

Definition getScreenCategory (screen : Screen) : string := "Operations".

Definition generateDefaultRecommendations (screen : Screen)
  (documentContext : DocumentContext) : list string :=
  let systemType := systemTypeOr documentContext "system" in
  ["Add keyboard shortcuts for frequently used " ++ screenName screen ++ " operations";
   "Implement contextual help system for " ++ systemType ++ " operations";
   "Consider adding trend displays for critical " ++ systemType ++ " parameters";
   "Add confirmation dialogs for critical actions";
   "Implement operation logging for audit trail"]%string.

Definition getDefaultLayout (screen : Screen) : Layout :=
  {| header := Some (mkBand (Some (screenName screen)) (number (Fin 80))
                       (Some "#2C3E50") (Some "#ECF0F1") None);
     mainArea := Some (mkMainArea (Some "#34495E")
                         (Some (orStr (screenType screen) "control")));
     footer := Some (mkBand None (number (Fin 60)) (Some "#2C3E50") None None) |}.

(** *** Color themes *)

Definition schemeRoles : list string :=
  ["canvasBackground"; "headerBackground"; "headerText"; "headerSubtext";
   "screenBackground"; "screenHeaderBg"; "screenHeaderText"; "primary";
   "secondary"; "accent"; "success"; "warning"; "text"; "border";
   "buttonFill"; "buttonBorder"; "tableBorder"; "tableHeader"; "indicator";
   "inputBorder"; "inputFill"].

Definition scheme (colors : list string) : list (string * string) :=
  combine schemeRoles colors.

Definition waterTreatmentScheme := scheme
  ["#F0F8FF"; "#2C3E50"; "#ECF0F1"; "#BDC3C7"; "#FFFFFF"; "#3498DB"; "#FFFFFF";
   "#3498DB"; "#95A5A6"; "#E74C3C"; "#27AE60"; "#F39C12"; "#2C3E50"; "#BDC3C7";
   "#ECF0F1"; "#3498DB"; "#BDC3C7"; "#EBF3FD"; "#27AE60"; "#3498DB"; "#FFFFFF"].

Definition powerGenerationScheme := scheme
  ["#FFF8DC"; "#8B4513"; "#FFFFFF"; "#F4A460"; "#FFFFFF"; "#FF8C00"; "#FFFFFF";
   "#FF8C00"; "#CD853F"; "#B22222"; "#228B22"; "#FFD700"; "#8B4513"; "#DEB887";
   "#FFF8DC"; "#FF8C00"; "#DEB887"; "#FFEBCD"; "#228B22"; "#FF8C00"; "#FFFFFF"].

Definition gasScheme := scheme
  ["#F5F5F5"; "#4A4A4A"; "#FFFFFF"; "#CCCCCC"; "#FFFFFF"; "#6A5ACD"; "#FFFFFF";
   "#6A5ACD"; "#9370DB"; "#DC143C"; "#32CD32"; "#FFA500"; "#4A4A4A"; "#D3D3D3";
   "#F8F8FF"; "#6A5ACD"; "#D3D3D3"; "#E6E6FA"; "#32CD32"; "#6A5ACD"; "#FFFFFF"].

Definition defaultScheme := scheme
  ["#F8F9FA"; "#2C3E50"; "#ECF0F1"; "#BDC3C7"; "#FFFFFF"; "#34495E"; "#FFFFFF";
   "#3498DB"; "#95A5A6"; "#E74C3C"; "#27AE60"; "#F39C12"; "#2C3E50"; "#BDC3C7";
   "#ECF0F1"; "#3498DB"; "#BDC3C7"; "#EBF3FD"; "#27AE60"; "#3498DB"; "#FFFFFF"].

Definition colorSchemes : list (string * list (string * string)) :=
  [("water_treatment", waterTreatmentScheme);
   ("power_generation", powerGenerationScheme);
   ("gas", gasScheme)].

(** [getDynamicColorScheme] on the first system type of the context. *)
Definition schemeFor (firstType : option string) : list (string * string) :=
  let systemType :=
    orStr (option_map toLowerCase firstType) "industrial" in
  match find (fun e => (includes systemType (fst e) || includes (fst e) systemType)%bool)
             colorSchemes with
  | Some e => snd e
  | None => if includes systemType "water" then waterTreatmentScheme else defaultScheme
  end.

Definition getDynamicColorScheme (documentContext : DocumentContext)
  : list (string * string) :=
  schemeFor (hd_error (systemType (systemKeywords documentContext))).

Definition getDefaultColorScheme : list (string * string) :=
  schemeFor (Some "industrial").

(** *** The validation pipeline *)

Definition validateAndEnhanceSpec (ag : HMIAgent) (spec : ScreenSpec)
  (screen : Screen) (documentContext : DocumentContext) : ScreenSpec :=
  let name := screenName screen in
  let given := elementsOf spec in
  let padded :=
    if Z.ltb (Z.of_nat (List.length given)) 6 then
      given ++ generateAdditionalElements ag screen documentContext
                 (8 - Z.of_nat (List.length given))
    else given in
  {| screenTitle := Some (orStr (screenTitle spec) name);
     specPurpose := Some (orStr (specPurpose spec)
                            ("Interface for " ++ toLowerCase name ++ " operations"));
     navigation := Some
       match navigation spec with
       | Some n => n
       | None =>
           {| nav_from := generateNavigationFrom screen documentContext;
              nav_to := generateNavigationTo screen documentContext;
              breadcrumb := "Home > " ++ getScreenCategory screen ++ " > " ++ name |}
       end;
     layout := Some
       match layout spec with
       | Some l => l
       | None => getDefaultLayout screen
       end;
     colorScheme := Some
       match colorScheme spec with
       | Some c => c
       | None => getDefaultColorScheme
       end;
     elements := Some
       (ensureEssentialElements (validateElementPositions padded) screen documentContext);
     functionalDescription := Some
       (orStr (functionalDescription spec)
          ("This screen provides " ++ toLowerCase name ++
           " functionality for system operators."));
     recommendations := Some
       match recommendations spec with
       | Some r => r
       | None => generateDefaultRecommendations screen documentContext
       end |}.

(** *** The model-based path *)

(** [s.replace(/tok\s*/g, '')] for a literal, non-empty [tok]: the scan
    from left to right, either looking for the token or inside a match
    with [k] characters of the token still to pass and then white space. *)
Inductive scanMode : Type :=
| Scanning
| Matched (k : nat).

Fixpoint removeFence (tok : string) (mode : scanMode) (s : string) : string :=
  match s with
  | "" => ""
  | String c r =>
      let scan :=
        if startsWith tok s
        then removeFence tok (Matched (String.length tok - 1)) r
        else String c (removeFence tok Scanning r) in
      match mode with
      | Scanning => scan
      | Matched (S k) => removeFence tok (Matched k) r
      | Matched O => if isSpace c then removeFence tok (Matched O) r else scan
      end
  end.

Definition fence : string := "```".

Definition cleanResponse (aiResponse : string) : string :=
  trim (removeFence fence Scanning
          (removeFence (fence ++ "json") Scanning aiResponse)).

Section ModelPath.

Variable validPattern : string -> bool.
Variable screenRelevantContent : Screen -> DocumentContext -> ScreenContent.

(** The text of the prompt, which is configuration data, around the
    content of the screen. *)
Variable promptText : Screen -> DocumentContext -> ScreenContent -> string.

(** The language-model service: the text of the reply, or a failure. *)
Variable chat : string -> result string.

(** [JSON.parse] into the shape of a specification.  It is [None] when
    [JSON.parse] throws, and also when it returns a value on which the
    validation throws (no object, or elements that are no list of
    objects): both end in the inner [catch]. *)
Variable parseSpec : string -> option ScreenSpec.

(** [createScreenSpecPrompt] extracts the content of the screen first, and
    throws when that throws. *)
Definition createScreenSpecPrompt (screen : Screen) (documentContext : DocumentContext)
  : result string :=
  match extractScreenRelevantContent validPattern screenRelevantContent
          screen documentContext with
  | Throw e => Throw e
  | Ok content => Ok (promptText screen documentContext content)
  end.

(** The prompt is built inside the outer [try]: when that throws, no
    request is sent and the outer [catch] returns the fallback, which may
    throw in its turn.  A failed call ends in the outer [catch] too, a
    reply that does not parse in the inner one. *)
Definition generateAIContextualSpec (screen : Screen)
  (documentContext : DocumentContext) : M (result ScreenSpec) :=
  let fallback :=
    generateFallbackSpec validPattern screenRelevantContent screen documentContext in
  match createScreenSpecPrompt screen documentContext with
  | Throw _ => ret fallback
  | Ok aiPrompt =>
      bind (callModel chat aiPrompt)
           (fun response =>
              reading (fun ag =>
                match response with
                | Ok aiResponse =>
                    match parseSpec (cleanResponse aiResponse) with
                    | Some parsedSpec =>
                        Ok (validateAndEnhanceSpec ag parsedSpec screen documentContext)
                    | None => fallback
                    end
                | Throw _ => fallback
                end))
  end.

Definition generateScreenSpecification (screen : Screen) : M (result ScreenSpec) :=
  bind (updateProgress "screen-generation"
          ("Generating specification for " ++ screenName screen ++ "..."))
       (fun _ =>
          bind (reading getDocumentContext)
               (fun documentContext => generateAIContextualSpec screen documentContext)).

End ModelPath.

(** *** The renderer: clamping into the header and footer bands *)

Definition bandOf (pick : Layout -> option Band) (spec : ScreenSpec) : option Band :=
  match layout spec with
  | Some l => pick l
  | None => None
  end.

(** [screenSpec.layout?.header?.height || d] *)
Definition bandHeight (b : option Band) (d : Z) : Num :=
  orValue (match b with Some b' => band_height b' | None => undefined end) (Fin d).

Definition bandElements (b : option Band) : list Element :=
  match b with
  | Some b' => match band_elements b' with Some l => l | None => [] end
  | None => []
  end.

Definition headerHeight (spec : ScreenSpec) : Num := bandHeight (bandOf header spec) 80.
Definition footerHeight (spec : ScreenSpec) : Num := bandHeight (bandOf footer spec) 60.
Definition footerY (spec : ScreenSpec) : Num := minus (Fin 600) (footerHeight spec).

(** The assignment to [el.position.y], which stores a number.  An element
    without a position is skipped. *)
Definition setY (f : Position -> Num) (el : Element) : Element :=
  match position el with
  | Some p =>
      {| type_ := type_ el; label := label el;
         position := Some
           {| pos_x := pos_x p;
              pos_y := number (f p);
              pos_width := pos_width p; pos_height := pos_height p |};
         style := style el; purpose := purpose el; userAction := userAction el;
         headers := headers el; rows := rows el |}
  | None => el
  end.

Definition clampHeaderElement (headerHeight : Num) : Element -> Element :=
  setY (fun p =>
          mathMin (mathMax (toNumber (pos_y p)) (Fin 5))
                  (minus headerHeight (orValue (pos_height p) (Fin 20)))).

Definition clampFooterElement (footerY footerHeight : Num) : Element -> Element :=
  setY (fun p =>
          plus footerY
               (mathMin (mathMax (minus (toNumber (pos_y p)) footerY) (Fin 0))
                        (minus footerHeight (orValue (pos_height p) (Fin 20))))).

Definition withElements (b : option Band) (f : Element -> Element) : option Band :=
  match b with
  | Some b' =>
      Some {| band_title := band_title b'; band_height := band_height b';
              band_backgroundColor := band_backgroundColor b';
              band_titleColor := band_titleColor b';
              band_elements := option_map (map f) (band_elements b') |}
  | None => None
  end.

(** Steps 2 and 3 of [createScreenImage]: the specification as mutated
    before anything is drawn. *)
Definition clampBands (spec : ScreenSpec) : ScreenSpec :=
  {| screenTitle := screenTitle spec; specPurpose := specPurpose spec;
     navigation := navigation spec;
     layout :=
       match layout spec with
       | Some l =>
           Some {| header := withElements (header l)
                               (clampHeaderElement (headerHeight spec));
                   mainArea := mainArea l;
                   footer := withElements (footer l)
                               (clampFooterElement (footerY spec) (footerHeight spec)) |}
       | None => None
       end;
     colorScheme := colorScheme spec; elements := elements spec;
     functionalDescription := functionalDescription spec;
     recommendations := recommendations spec |}.

(** Steps 6 to 8: the elements handed to [drawElement], in order. *)
Definition drawOrder (spec : ScreenSpec) : list Element :=
  elementsOf spec ++ bandElements (bandOf header spec)
  ++ bandElements (bandOf footer spec).

(** [createScreenImage]: the clamped specification and the draw calls. *)
Definition createScreenImage (screenSpec : ScreenSpec) : ScreenSpec * list Element :=
  let clamped := clampBands screenSpec in
  (clamped, drawOrder clamped).

End Spec.

(** ** Workflow composer *)

Module Composer.
Import Js Keywords Agent.

Record CondensedContext := mkCondensed {
  cc_systemType : string;
  cc_components : string;
  cc_operations : string;
  screenSummary : string;
  cc_totalScreens : nat;
  cc_documentSample : string
}.

Definition createCondensedContext (documentContext : DocumentContext)
  (screens : list Screen) : CondensedContext :=
  {| cc_systemType := systemTypeOr documentContext "industrial_control";
     cc_components := join ", " (firstn 5 (components (systemKeywords documentContext)));
     cc_operations := join ", " (firstn 5 (operations (systemKeywords documentContext)));
     screenSummary := join ", " (map screenName screens);
     cc_totalScreens := List.length screens;
     cc_documentSample := take 300 (documentSample documentContext) |}.

Record SystemOverview := mkOverview {
  systemName : string;
  so_systemType : string;
  so_totalScreens : nat;
  primaryFunction : string
}.

Record ScreenNavigation := mkScreenNav {
  sn_from : list string;
  sn_to : list string;
  triggers : option (list string)
}.

(** A key element as the model returns it: a string, an object (held as
    the text [JSON.stringify] gives) or another value (held as the text
    [String] gives). *)
Inductive KeyElement : Type :=
| KString (s : string)
| KObject (json : string)
| KOther (printed : string).

(** One entry of [screenAnalysis].  The fields that only carry template
    text through ([elementDetails], [designRationale]) are not kept. *)
Record ScreenEntry := mkEntry {
  se_screenName : option string;
  screenNumber : option nat;
  se_purpose : option string;
  keyElements : option (list KeyElement);
  functionality : option (list string);
  se_navigation : option ScreenNavigation;
  behavior : option string;
  dataVisualization : option string;
  userRoles : option string
}.

Record Transition := mkTransition {
  from : option string;
  to : option string;
  trigger : option string;
  description : option string
}.

(** An entry of [screenTransitions] as the model returns it. *)
Inductive RawTransition : Type :=
| TString (s : string)
| TObject (t : Transition)
| TOther.

Record NavigationFlow := mkFlow {
  mermaidDiagram : option string;
  screenTransitions : option (list RawTransition)
}.

(** The workflow object, as parsed from the model and as returned.  The
    constant blocks ([workflowType], [technicalSpecifications],
    [implementationNotes]) are not kept. *)
Record WorkflowData := mkWorkflow {
  systemOverview : option SystemOverview;
  screenAnalysis : option (list ScreenEntry);
  navigationFlow : option NavigationFlow
}.

Definition entriesOf (w : WorkflowData) : list ScreenEntry :=
  match screenAnalysis w with Some l => l | None => [] end.

Definition transitionsOf (w : WorkflowData) : list RawTransition :=
  match navigationFlow w with
  | Some f => match screenTransitions f with Some l => l | None => [] end
  | None => []
  end.

(** [generatePrimaryFunction]: the condensed context has no
    [documentContent], so the search runs over the empty text, finds
    nothing, and the generic sentence is returned. *)
Definition generatePrimaryFunction (condensedContext : CondensedContext) : string :=
  replaceFirst "_" " " (toLowerCase (cc_systemType condensedContext))
  ++ " control and monitoring system".

(** [screen.screenName.toLowerCase()] on an entry whose name may be absent. *)
Definition lowerName (name : option string) : result string :=
  match name with
  | Some n => Ok (toLowerCase n)
  | None => Throw "TypeError: Cannot read properties of undefined (reading 'toLowerCase')"
  end.

Definition generateNavigation (name : option string) (allScreens : list Screen)
  : ScreenNavigation :=
  let otherScreens :=
    map screenName
        (filter (fun s => negb (match name with
                                | Some n => String.eqb (screenName s) n
                                | None => false
                                end)) allScreens) in
  {| sn_from := ["Navigation menu"; "System startup"];
     sn_to := firstn 3 otherScreens;
     triggers := Some ["User selection"; "System event"] |}.

Definition behaviorOf (name lower : string) : string :=
  let has := includes lower in
  if (has "control" || has "manual")%bool then
    "Interactive control interface with real-time feedback, operator confirmation dialogs, and safety interlocks for " ++ name ++ " operations"
  else if has "alarm" then
    "Dynamic alarm display with priority-based color coding, acknowledgment functionality, and real-time status updates"
  else if (has "monitoring" || has "dashboard")%bool then
    "Real-time monitoring dashboard with automatic refresh, trend displays, and parameter limits checking"
  else if (has "settings" || has "config")%bool then
    "Configuration interface with input validation, save/load functionality, and user access control"
  else
    "Responsive interface with real-time updates, user feedback mechanisms, and consistent navigation patterns".

Definition dataVisualizationOf (name lower : string) : string :=
  let has := includes lower in
  if (has "control" || has "manual")%bool then
    "Control panels with analog gauges, digital displays, status indicators, and real-time parameter monitoring"
  else if has "alarm" then
    "Alarm tables with color-coded priorities, timestamps, severity indicators, and historical trend charts"
  else if (has "monitoring" || has "dashboard")%bool then
    "Real-time trend charts, bar graphs, status indicators, and tabular data displays with filtering options"
  else if (has "settings" || has "config")%bool then
    "Configuration forms, parameter entry fields, dropdown menus, and validation status indicators"
  else
    "Mixed visualization including gauges, tables, charts, and status displays appropriate for " ++ name.

Definition userRolesOf (lower : string) : string :=
  let has := includes lower in
  if (has "control" || has "manual")%bool then
    "Operator (basic access), Supervisor (full control), Engineer (configuration), Maintenance (diagnostic access)"
  else if has "alarm" then
    "Operator (view/acknowledge), Supervisor (reset/manage), Engineer (configure thresholds), Admin (system config)"
  else if (has "settings" || has "config")%bool then
    "Engineer (parameter config), Supervisor (operational settings), Admin (system configuration), Maintenance (calibration)"
  else if (has "user" || has "management")%bool then
    "Admin (full access), Supervisor (user management), IT Support (system maintenance)"
  else
    "All Users (navigation), Operator (status view), Supervisor (system control), Engineer (advanced features)".

Definition generateBehavior (screen : Screen) : string :=
  behaviorOf (screenName screen) (toLowerCase (screenName screen)).

Definition generateDataVisualization (screen : Screen) : string :=
  dataVisualizationOf (screenName screen) (toLowerCase (screenName screen)).

Definition generateUserRoles (screen : Screen) : string :=
  userRolesOf (toLowerCase (screenName screen)).

(** [String.fromCharCode(65 + i + 1)] *)
Definition nodeId (i : nat) : string :=
  String (ascii_of_nat (65 + i + 1)) "".

Definition objectTransition (f t : string) : RawTransition :=
  TObject {| from := Some f; to := Some t; trigger := Some "User selection";
             description := Some ("Navigate from " ++ f ++ " to " ++ t)%string |}.

(** [generateConciseNavigationFlow]: a star from the home screen.  With no
    screen at all, reading the name of the home screen throws. *)
Definition generateConciseNavigationFlow (screens : list Screen) : result NavigationFlow :=
  let found := find (fun s => includes (toLowerCase (screenName s)) "home") screens in
  match (match found with Some s => Some s | None => hd_error screens end) with
  | None => Throw "TypeError: Cannot read properties of undefined (reading 'screenName')"
  | Some homeScreen =>
      let home := screenName homeScreen in
      let otherScreens :=
        filter (fun s => negb (String.eqb (screenName s) home)) screens in
      let firstLine :=
        ("    A[" ++ home ++ "] --> B[" ++
         orStr (option_map screenName (hd_error otherScreens)) "System" ++ "]")%string in
      let moreLines :=
        map (fun i => ("    A --> " ++ nodeId i ++ "[" ++
                       screenName (nth i otherScreens homeScreen) ++ "]")%string)
            (seq 1 (Nat.min (List.length otherScreens) 6 - 1)) in
      Ok {| mermaidDiagram := Some (join "; " ("graph TD" :: firstLine :: moreLines));
            screenTransitions := Some
              (map (fun s => objectTransition home (screenName s))
                   (firstn 6 otherScreens)) |}
  end.

(** *** Reading the model's reply *)

Fixpoint indexOf (c : ascii) (s : string) : option nat :=
  match s with
  | "" => None
  | String d r =>
      if Ascii.eqb d c then Some 0
      else option_map S (indexOf c r)
  end.

Fixpoint lastIndexOf (c : ascii) (s : string) : option nat :=
  match s with
  | "" => None
  | String d r =>
      match lastIndexOf c r with
      | Some i => Some (S i)
      | None => if Ascii.eqb d c then Some 0 else None
      end
  end.

(** [s.substring(a, b)]: the two indices are swapped when [a > b]. *)
Definition substring (a b : nat) (s : string) : string :=
  take (Nat.max a b - Nat.min a b) (drop (Nat.min a b) s).

(** The text between the first opening and the last closing brace;
    [None] when either is missing (the source then throws). *)
Definition jsonSlice (jsonString : string) : option string :=
  match indexOf "{" jsonString, lastIndexOf "}" jsonString with
  | Some jsonStart, Some jsonEnd => Some (substring jsonStart (jsonEnd + 1) jsonString)
  | _, _ => None
  end.

Fixpoint noLineTerminator (s : string) : bool :=
  match s with
  | "" => true
  | String c r => (negb (isLineTerminator c) && noLineTerminator r)%bool
  end.

(** [/^(.*?)\s*->\s*(.*?)$/]: the shortest prefix without a line break
    after which white space, the arrow, white space and a rest without a
    line break follow.  [prefix] is what has been passed over. *)
Fixpoint arrowFrom (prefix s : string) : option (string * string) :=
  let t := trimStart s in
  let rest := trimStart (drop 2 t) in
  if (startsWith "->" t && noLineTerminator rest)%bool then Some (prefix, rest)
  else match s with
       | "" => None
       | String c r =>
           if isLineTerminator c then None
           else arrowFrom (prefix ++ String c "") r
       end.

Definition matchArrow (transition : string) : option (string * string) :=
  arrowFrom "" transition.

(** The callback of [screenTransitions.map]; [None] stands for [null],
    which [filter(Boolean)] then drops. *)
Definition normalizeTransition (transition : RawTransition) : option RawTransition :=
  match transition with
  | TString s =>
      match matchArrow s with
      | Some (a, b) => Some (objectTransition (trim a) (trim b))
      | None => None
      end
  | TObject t =>
      Some (TObject
        {| from := from t; to := to t;
           trigger := Some (orStr (trigger t) "User selection");
           description := Some (orStr (description t)
             ("Navigate from " ++ show (from t) ++ " to " ++ show (to t))) |})
  | TOther => None
  end.

Fixpoint filterSome {A : Type} (l : list (option A)) : list A :=
  match l with
  | [] => []
  | Some a :: r => a :: filterSome r
  | None :: r => filterSome r
  end.

Definition coerceKeyElement (element : KeyElement) : KeyElement :=
  match element with
  | KString s => KString s
  | KObject json => KString json
  | KOther printed => KString printed
  end.

(** The first failure of a loop body aborts the loop. *)
Fixpoint forEach {A B : Type} (f : A -> result B) (l : list A) : result (list B) :=
  match l with
  | [] => Ok []
  | a :: r =>
      match f a with
      | Throw e => Throw e
      | Ok b => match forEach f r with
                | Throw e => Throw e
                | Ok bs => Ok (b :: bs)
                end
      end
  end.

(** [l.map((a, index) => ...)] with a callback that may throw: the first
    failure aborts the loop. *)
Fixpoint mapIndexed {A B : Type} (f : nat -> A -> result B) (index : nat) (l : list A)
  : result (list B) :=
  match l with
  | [] => Ok []
  | a :: r =>
      match f index a with
      | Throw e => Throw e
      | Ok b => match mapIndexed f (S index) r with
                | Throw e => Throw e
                | Ok bs => Ok (b :: bs)
                end
      end
  end.

Section Templates.

(** The verdict of the runtime on a pattern, see [compiles]. *)
Variable validPattern : string -> bool.

(** The texts that the generators build from what they mine in the
    document; of a screen they read the name only.  The key elements
    are built from the document of the session. *)
Variable concisePurpose : string -> CondensedContext -> string.
Variable keyElementsFor : HMIAgent -> string -> CondensedContext -> list string.
Variable generateFunctionality : string -> CondensedContext -> list string.

(** The prompt text is configuration data. *)
Variable workflowPrompt : CondensedContext -> string.

(** The language-model service and [JSON.parse] into the shape of a
    workflow ([None] when it throws). *)
Variable chat : string -> result string.
Variable parseWorkflow : string -> option WorkflowData.

(** [generateConcisePurpose] and [generateKeyElements] both start with
    [extractScreenRelevantContent], which builds a pattern around the
    lower-cased screen name and throws when the runtime rejects it. *)
Definition generateConcisePurpose (name : string) (condensedContext : CondensedContext)
  : result string :=
  if compiles validPattern (toLowerCase name)
  then Ok (concisePurpose name condensedContext)
  else Throw invalidPattern.

Definition generateKeyElements (ag : HMIAgent) (name : string)
  (condensedContext : CondensedContext) : result (list string) :=
  if compiles validPattern (toLowerCase name)
  then Ok (keyElementsFor ag name condensedContext)
  else Throw invalidPattern.

Definition templateEntry (ag : HMIAgent) (screens : list Screen)
  (condensedContext : CondensedContext) (index : nat) (screen : Screen)
  : result ScreenEntry :=
  let name := screenName screen in
  match generateConcisePurpose name condensedContext with
  | Throw e => Throw e
  | Ok purpose =>
      match generateKeyElements ag name condensedContext with
      | Throw e => Throw e
      | Ok keys =>
          Ok {| se_screenName := Some name;
                screenNumber := Some (index + 1);
                se_purpose := Some purpose;
                keyElements := Some (map KString keys);
                functionality := Some (generateFunctionality name condensedContext);
                se_navigation := Some (generateNavigation (Some name) screens);
                behavior := Some (generateBehavior screen);
                dataVisualization := Some (generateDataVisualization screen);
                userRoles := Some (generateUserRoles screen) |}
      end
  end.

Definition overviewOf (screens : list Screen) (condensedContext : CondensedContext)
  : SystemOverview :=
  {| systemName := cc_systemType condensedContext ++ " Control System";
     so_systemType := cc_systemType condensedContext;
     so_totalScreens := List.length screens;
     primaryFunction := generatePrimaryFunction condensedContext |}.

(** The object literal is evaluated field by field: the entries of the
    screens first, in order, then the navigation flow.  Whatever throws
    there leaves the method before the second progress event. *)
Definition generateTemplateBasedWorkflow (screens : list Screen)
  (condensedContext : CondensedContext) : M (result WorkflowData) :=
  bind (updateProgress "workflow"
          "Using efficient template-based generation with expert analysis...")
       (fun _ ag =>
          match mapIndexed (templateEntry ag screens condensedContext) 0 screens with
          | Throw e => (Throw e, ag)
          | Ok entries =>
              match generateConciseNavigationFlow screens with
              | Throw e => (Throw e, ag)
              | Ok flow =>
                  bind (updateProgress "workflow" "Expert-level template analysis completed")
                       (fun _ => ret (Ok
                          {| systemOverview := Some (overviewOf screens condensedContext);
                             screenAnalysis := Some entries;
                             navigationFlow := Some flow |}))
                       ag
              end
          end).

(** The body of [workflowData.screenAnalysis.forEach]. *)
Definition sanitizeEntry (screens : list Screen) (condensedContext : CondensedContext)
  (screen : ScreenEntry) : result ScreenEntry :=
  let name := se_screenName screen in
  let needsName :=
    negb (truthyStr (se_purpose screen) && truthyStr (behavior screen) &&
          truthyStr (dataVisualization screen) && truthyStr (userRoles screen)) in
  match (if needsName then lowerName name else Ok "") with
  | Throw e => Throw e
  | Ok lower =>
  match (if truthyStr (se_purpose screen) then Ok (show (se_purpose screen))
         else generateConcisePurpose (show name) condensedContext) with
  | Throw e => Throw e
  | Ok purpose =>
      Ok {| se_screenName := name;
            screenNumber := screenNumber screen;
            se_purpose := Some purpose;
            keyElements := option_map (map coerceKeyElement) (keyElements screen);
            functionality := Some
              match functionality screen with
              | Some f => f
              | None => generateFunctionality (show name) condensedContext
              end;
            se_navigation := Some
              match se_navigation screen with
              | None => generateNavigation name screens
              | Some n =>
                  {| sn_from := sn_from n; sn_to := sn_to n;
                     triggers := Some match triggers n with
                                      | Some t => t
                                      | None => ["User selection"; "System event"]
                                      end |}
              end;
            behavior := Some
              (if truthyStr (behavior screen) then show (behavior screen)
               else behaviorOf (show name) lower);
            dataVisualization := Some
              (if truthyStr (dataVisualization screen) then show (dataVisualization screen)
               else dataVisualizationOf (show name) lower);
            userRoles := Some
              (if truthyStr (userRoles screen) then show (userRoles screen)
               else userRolesOf lower) |}
  end
  end.

(** The entry generated when the model gave no [screenAnalysis] array. *)
Definition scratchEntry (ag : HMIAgent) (condensedContext : CondensedContext)
  (screen : Screen) : result ScreenEntry :=
  let name := screenName screen in
  match generateConcisePurpose name condensedContext with
  | Throw e => Throw e
  | Ok purpose =>
      match generateKeyElements ag name condensedContext with
      | Throw e => Throw e
      | Ok keys =>
          Ok {| se_screenName := Some name;
                screenNumber := None;
                se_purpose := Some purpose;
                keyElements := Some (map KString keys);
                functionality := Some (generateFunctionality name condensedContext);
                se_navigation := None;
                behavior := Some (generateBehavior screen);
                dataVisualization := Some (generateDataVisualization screen);
                userRoles := Some (generateUserRoles screen) |}
      end
  end.

Definition enhanceWithTemplateData (ag : HMIAgent) (workflowData : WorkflowData)
  (screens : list Screen) (condensedContext : CondensedContext) : result WorkflowData :=
  let overview :=
    match systemOverview workflowData with
    | Some o => o
    | None => overviewOf screens condensedContext
    end in
  match (match screenAnalysis workflowData with
         | Some entries => forEach (sanitizeEntry screens condensedContext) entries
         | None => forEach (scratchEntry ag condensedContext) screens
         end) with
  | Throw e => Throw e
  | Ok entries =>
      match (match navigationFlow workflowData with
             | Some flow =>
                 match screenTransitions flow with
                 | Some transitions =>
                     Ok {| mermaidDiagram := mermaidDiagram flow;
                           screenTransitions := Some
                             (filterSome (map normalizeTransition transitions)) |}
                 | None => generateConciseNavigationFlow screens
                 end
             | None => generateConciseNavigationFlow screens
             end) with
      | Throw e => Throw e
      | Ok flow =>
          Ok {| systemOverview := Some overview;
                screenAnalysis := Some entries;
                navigationFlow := Some flow |}
      end
  end.

(** [generateWorkflowFromScreens(screens, structuredData)]; the second
    argument is not read by the method and is left out.

    A failed call and a throwing reconciliation end in the outer [catch],
    which returns the template workflow.  A reply that holds no JSON
    object or does not parse ends in the inner [catch], which returns the
    template workflow too; that [return] stands inside the outer [try],
    so when the template throws there, the outer [catch] runs it once
    more.  What the outer [catch] throws leaves the method. *)
Definition generateWorkflowFromScreens (screens : list Screen) : M (result WorkflowData) :=
  bind (reading getDocumentContext) (fun documentContext =>
  let condensedContext := createCondensedContext documentContext screens in
  let template := generateTemplateBasedWorkflow screens condensedContext in
  if Nat.leb (List.length screens) 3 then template
  else
    bind (callModel chat (workflowPrompt condensedContext)) (fun response =>
    bind (reading (fun ag => ag)) (fun ag =>
      match response with
      | Throw _ => template
      | Ok jsonString =>
          match (match jsonSlice jsonString with
                 | Some json => parseWorkflow json
                 | None => None
                 end) with
          | None =>
              bind template (fun inner =>
                match inner with
                | Ok workflow => ret (Ok workflow)
                | Throw _ => template
                end)
          | Some workflowData =>
              match enhanceWithTemplateData ag workflowData screens condensedContext with
              | Ok enhanced => ret (Ok enhanced)
              | Throw _ => template
              end
          end
      end))).

End Templates.

End Composer.

(** ** Combined layouts *)

Module Layout.
Import Js Agent Spec Composer.

Open Scope Z_scope.

(** A cell of a grid: its top-left corner and its size. *)
Record Cell := mkCell { cell_x : Z; cell_y : Z; cell_width : Z; cell_height : Z }.

(** *** [drawCombinedLayout]: three columns of 650 x 450 cells *)

Definition cols : nat := 3.
Definition padding : Z := 50.
Definition screenWidth : Z := 650.
Definition screenHeight : Z := 450.
Definition headerHeight : Z := 140.

(** The cell of the screen of index [i]. *)
Definition combinedCell (i : nat) : Cell :=
  let col := (i mod cols)%nat in
  let row := (i / cols)%nat in
  {| cell_x := padding + Z.of_nat col * (screenWidth + padding);
     cell_y := headerHeight + padding + Z.of_nat row * (screenHeight + padding);
     cell_width := screenWidth;
     cell_height := screenHeight |}.

(** The loop of [drawCombinedLayout]: each screen with its cell and its
    number, in the order drawn. *)
Definition drawCombinedLayout (screens : list ScreenSpec)
  : list (ScreenSpec * Cell * nat) :=
  map (fun p => (snd p, combinedCell (fst p), (fst p + 1)%nat))
      (combine (seq 0 (List.length screens)) screens).

(** [screens.findIndex(s => s.screenTitle === name)]; an absent title
    and an absent name are both [undefined], and equal. *)
Definition sameTitle (name : option string) (s : ScreenSpec) : bool :=
  match screenTitle s, name with
  | Some a, Some b => String.eqb a b
  | None, None => true
  | _, _ => false
  end.

Fixpoint findIndex (f : ScreenSpec -> bool) (screens : list ScreenSpec) : option nat :=
  match screens with
  | [] => None
  | s :: rest => if f s then Some 0%nat else option_map S (findIndex f rest)
  end.

(** The centre of a cell of the combined layout. *)
Definition centre (i : nat) : Z * Z :=
  (cell_x (combinedCell i) + screenWidth / 2,
   cell_y (combinedCell i) + screenHeight / 2).

(** [drawWorkflowNavigation]: the arrows drawn, each from the centre of
    one cell to the centre of another; a transition with an end that
    resolves to no screen draws nothing. *)
Definition drawWorkflowNavigation (screens : list ScreenSpec)
  (transitions : list Transition) : list ((Z * Z) * (Z * Z)) :=
  filterSome
    (map (fun transition =>
            match findIndex (sameTitle (from transition)) screens,
                  findIndex (sameTitle (to transition)) screens with
            | Some fromIndex, Some toIndex => Some (centre fromIndex, centre toIndex)
            | _, _ => None
            end)
         transitions).

(** *** [createComprehensiveScreenLayout]: a square grid of 400 x 300 cells *)

(** [Math.ceil(Math.sqrt(n))] of a count. *)
Definition ceilSqrt (n : nat) : nat :=
  if Nat.eqb (Nat.sqrt n * Nat.sqrt n) n then Nat.sqrt n else S (Nat.sqrt n).

(** [Math.ceil(n / c)] of two counts, [c] not zero. *)
Definition ceilDiv (n c : nat) : nat := ((n + c - 1) / c)%nat.

Definition margin : Z := 20.
Definition miniWidth : Z := 400.
Definition miniHeight : Z := 300.
Definition bannerHeight : Z := 80.
Definition bannerPadding : Z := 40.

Definition gridCols (screenCount : nat) : nat := ceilSqrt screenCount.
Definition gridRows (screenCount : nat) : nat := ceilDiv screenCount (gridCols screenCount).

Definition canvasWidth (screenCount : nat) : Z :=
  (miniWidth + margin) * Z.of_nat (gridCols screenCount) + margin.

Definition canvasHeight (screenCount : nat) : Z :=
  bannerHeight + (miniHeight + margin) * Z.of_nat (gridRows screenCount)
  + margin + bannerPadding.

Definition miniCell (screenCount i : nat) : Cell :=
  let col := (i mod gridCols screenCount)%nat in
  let row := (i / gridCols screenCount)%nat in
  {| cell_x := margin + Z.of_nat col * (miniWidth + margin);
     cell_y := bannerHeight + bannerPadding + Z.of_nat row * (miniHeight + margin);
     cell_width := miniWidth;
     cell_height := miniHeight |}.

End Layout.

(** ** Document reader *)

Module Reader.
Import Js Agent.

(** [path.extname] of Node.js for POSIX paths: the extension of the last
    portion of the path, from its last dot; empty when that portion has no
    dot, or only a leading one, or is [..]. *)
Fixpoint stripTrailingSlashes (s : string) : string :=
  match s with
  | "" => ""
  | String c r =>
      match stripTrailingSlashes r with
      | "" => if Ascii.eqb c "/" then "" else String c ""
      | t => String c t
      end
  end.

Fixpoint basename (s : string) : string :=
  match s with
  | "" => ""
  | String c r => if includes r "/" then basename r
                  else if Ascii.eqb c "/" then r else s
  end.

Fixpoint lastDot (s : string) : option string :=
  match s with
  | "" => None
  | String c r =>
      match lastDot r with
      | Some e => Some e
      | None => if Ascii.eqb c "." then Some s else None
      end
  end.

Definition extname (path : string) : string :=
  let base := basename (stripTrailingSlashes path) in
  if String.eqb base ".." then ""
  else match base with
       | "" => ""
       | String _ r => match lastDot r with Some e => e | None => "" end
       end.

Section FileSystem.

(** [fs.readFileSync(path, 'utf8')] and [mammoth.extractRawText]: the
    text, or the error they throw. *)
Variable readFileSync : string -> result string.
Variable extractRawText : string -> result string.

Definition readDocument (filePath : string) : M (result string) :=
  bind (updateProgress "analysis" ("Reading document: " ++ filePath)) (fun _ =>
  let ext := toLowerCase (extname filePath) in
  if String.eqb ext ".txt" then ret (readFileSync filePath)
  else if String.eqb ext ".docx" then
    match extractRawText filePath with
    | Ok value =>
        bind (updateProgress "analysis"
                ("Mammoth extraction: " ++ showNat (String.length value) ++ " characters"))
             (fun _ => ret (Ok value))
    | Throw mammothError =>
        bind (updateProgress "analysis" ("Mammoth extraction failed: " ++ mammothError))
             (fun _ =>
                match readFileSync filePath with
                | Ok content =>
                    bind (updateProgress "analysis"
                            ("Fallback text read: " ++ showNat (String.length content)
                             ++ " characters"))
                         (fun _ => ret (Ok content))
                | Throw fallbackError =>
                    bind (updateProgress "analysis" "All document reading attempts failed")
                         (fun _ => ret (Ok ("[Document could not be read: "
                                            ++ fallbackError ++ "]")%string))
                end)
    end
  else ret (readFileSync filePath)).

End FileSystem.

End Reader.

(* ===================================================================== *)
(** * Part II: properties                                                 *)
(* ===================================================================== *)

Unset Implicit Arguments.

(** ** JavaScript strings *)

Module JsFacts.
Import Js.

Lemma lowerChar_idempotent (c : ascii) : lowerChar (lowerChar c) = lowerChar c.
Proof.
  destruct c as [[] [] [] [] [] [] [] []]; reflexivity.
Qed.

Lemma toLowerCase_idempotent (s : string) : toLowerCase (toLowerCase s) = toLowerCase s.
Proof.
  induction s as [|c r IH]; simpl; [reflexivity|].
  now rewrite lowerChar_idempotent, IH.
Qed.

Lemma startsWith_prefix (p s : string) :
  startsWith p s = true <-> exists post, s = (p ++ post)%string.
Proof.
  revert s. induction p as [|a p IH]; intro s; simpl.
  - split; [intros _; now exists s|reflexivity].
  - destruct s as [|b s]; [split; [discriminate|intros (post & [=])]|].
    rewrite andb_true_iff, IH. split.
    + intros [Hab%Ascii.eqb_eq (post & ->)]. subst. now exists post.
    + intros (post & [= -> ->]). split; [apply Ascii.eqb_refl|now exists post].
Qed.

(** [s.includes(p)] holds exactly when [p] occurs in [s]. *)
Lemma includes_occurs (s p : string) :
  includes s p = true <-> exists pre post, s = (pre ++ p ++ post)%string.
Proof.
  induction s as [|c r IH]; cbn [includes].
  - rewrite orb_false_r, startsWith_prefix. split.
    + intros (post & E). now exists ""%string, post.
    + intros ([|a pre] & post & E); [now exists post|discriminate].
  - rewrite orb_true_iff, startsWith_prefix, IH. split.
    + intros [(post & E)|(pre & post & ->)].
      * now exists ""%string, post.
      * now exists (String c pre), post.
    + intros ([|a pre] & post & E).
      * left. now exists post.
      * right. injection E as -> ->. now exists pre, post.
Qed.

Lemma append_empty (a : string) : (a ++ "")%string = a.
Proof.
  induction a as [|x a IH]; simpl; [reflexivity|]. now rewrite IH.
Qed.

Lemma append_assoc (a b c : string) : ((a ++ b) ++ c = a ++ b ++ c)%string.
Proof.
  induction a as [|x a IH]; simpl; [reflexivity|]. now rewrite IH.
Qed.

Lemma includes_trans (s p q : string) :
  includes s p = true -> includes p q = true -> includes s q = true.
Proof.
  rewrite !includes_occurs.
  intros (pre & post & ->) (pre' & post' & ->).
  exists (pre ++ pre')%string, (post' ++ post)%string.
  now rewrite !append_assoc.
Qed.

Lemma trimStart_shorter (s : string) :
  trimStart s = s \/ String.length (trimStart s) < String.length s.
Proof.
  induction s as [|c r IH]; [now left|].
  cbn [trimStart]. destruct (isSpace c); [right|now left].
  cbn [String.length]. destruct IH as [->|IH]; lia.
Qed.

Lemma trimEnd_shorter (s : string) : String.length (trimEnd s) <= String.length s.
Proof.
  induction s as [|c r IH]; [reflexivity|].
  cbn [trimEnd]. destruct (trimEnd r) as [|d t].
  - destruct (isSpace c); cbn [String.length] in *; lia.
  - cbn [String.length] in *. lia.
Qed.

(** A trimmed string has no white space at either end. *)
Lemma trimmed_ends (s : string) : trim s = s -> trimStart s = s /\ trimEnd s = s.
Proof.
  unfold trim. intro H.
  assert (E : trimStart s = s).
  { destruct (trimStart_shorter s) as [E|Hlt]; [exact E|].
    pose proof (trimEnd_shorter (trimStart s)) as Hle.
    rewrite H in Hle. lia. }
  split; [exact E|]. now rewrite E in H.
Qed.

Lemma trimEnd_line_break (s : string) : trimEnd (s ++ nl) = trimEnd s.
Proof.
  induction s as [|c r IH]; [reflexivity|].
  cbn [append trimEnd]. now rewrite IH.
Qed.

Lemma trimStart_head (s t : string) :
  s <> ""%string -> trimStart s = s -> trimStart (s ++ t) = (s ++ t)%string.
Proof.
  destruct s as [|c r]; [congruence|]. intros _.
  cbn [trimStart append]. destruct (isSpace c); [|reflexivity].
  intro H. pose proof (trimStart_shorter r) as [E|Hlt].
  - rewrite E in H. exfalso. clear -H. induction r; [discriminate|].
    injection H as -> H. auto.
  - rewrite H in Hlt. cbn [String.length] in Hlt. lia.
Qed.

(** No character of the string is [c]. *)
Fixpoint without (c : ascii) (s : string) : bool :=
  match s with
  | ""%string => true
  | String d r => (negb (Ascii.eqb d c) && without c r)%bool
  end.

End JsFacts.

(** ** Keyword extractor *)

Module KeywordFacts.
Import Js Keywords JsFacts.

Lemma insertDesc_In (e x : string * nat) (l : list (string * nat)) :
  In x (insertDesc e l) <-> x = e \/ In x l.
Proof.
  induction l as [|h t IH]; simpl.
  - intuition.
  - destruct (Nat.leb (snd h) (snd e)); simpl; [intuition|].
    rewrite IH. intuition.
Qed.

Lemma sortDesc_In (x : string * nat) (l : list (string * nat)) :
  In x (sortDesc l) <-> In x l.
Proof.
  induction l as [|e r IH]; simpl; [tauto|].
  rewrite insertDesc_In, IH. intuition.
Qed.

(** The head of the sorted list is the first entry of largest score:
    all entries before it in the unsorted list score less, all after
    score no more. *)
Lemma sortDesc_head (l : list (string * nat)) (best : string * nat)
  (others : list (string * nat)) :
  sortDesc l = best :: others ->
  exists before after,
    l = before ++ best :: after
    /\ Forall (fun e => snd e < snd best) before
    /\ Forall (fun e => snd e <= snd best) after.
Proof.
  revert best others. induction l as [|e r IH]; intros best others; simpl; [discriminate|].
  destruct (sortDesc r) as [|h t] eqn:Er.
  - assert (r = []) as ->.
    { destruct r as [|x r']; [reflexivity|].
      assert (Hx : In x (sortDesc (x :: r'))) by (apply sortDesc_In; now left).
      rewrite Er in Hx. contradiction. }
    simpl. intros [= <- <-]. exists [], []. repeat split; constructor.
  - destruct (IH h t eq_refl) as (before & after & -> & Hb & Ha).
    simpl. destruct (Nat.leb_spec (snd h) (snd e)).
    + intros [= <- <-]. exists [], (before ++ h :: after).
      repeat split; [constructor|].
      apply Forall_app. split.
      * eapply Forall_impl; [|exact Hb]. simpl. intros; lia.
      * constructor; [lia|]. eapply Forall_impl; [|exact Ha]. simpl. intros; lia.
    + intros [= <- <-]. exists (e :: before), after.
      repeat split; [constructor; [lia|exact Hb]|exact Ha].
Qed.

Lemma systemTypeScores_catalog (lowerContent : string) (e : string * nat) :
  In e (systemTypeScores lowerContent) ->
  In (fst e) (map fst systemPatterns)
  /\ snd e = scoreOf lowerContent (fst e)
               (match lookup (fst e) systemPatterns with Some ps => ps | None => [] end)
  /\ 0 < snd e.
Proof.
  unfold systemTypeScores. rewrite filter_In, in_map_iff.
  intros [(p & <- & Hp) Hpos]. cbn [fst snd] in *.
  apply Nat.ltb_lt in Hpos. split; [now apply in_map|]. split; [|exact Hpos].
  revert Hp. unfold systemPatterns.
  cbn [In]. intros Hcat.
  repeat (destruct Hcat as [<-|Hcat]; [reflexivity|]). contradiction.
Qed.

Lemma detected_type (content : string) :
  exists t,
    systemType (extractSystemKeywords content) = [t]
    /\ (t = "industrial_control"%string \/ In t (map fst systemPatterns)).
Proof.
  unfold extractSystemKeywords. cbn [systemType]. unfold detectSystemType.
  destruct (sortDesc (systemTypeScores (toLowerCase content))) as [|best others] eqn:Es.
  - exists "industrial_control"%string. auto.
  - destruct (Nat.leb 3 (snd best)).
    + exists (fst best). split; [reflexivity|]. right.
      apply (systemTypeScores_catalog (toLowerCase content)).
      apply sortDesc_In. rewrite Es. now left.
    + exists "industrial_control"%string. auto.
Qed.

(** The system type is always exactly one name: a name of the catalog
    or the default [industrial_control]. *)
Theorem systemType_single (content : string) :
  exists t,
    systemType (extractSystemKeywords content) = [t]
    /\ (t = "industrial_control"%string \/ In t (map fst systemPatterns)).
Proof.
  apply detected_type.
Qed.

(** The ranking: either the type returned is the first type of the
    catalog with the highest score, and that score is at least 3; or no
    type scores 3 and the default is returned. *)
Theorem systemType_ranking (content : string) :
  let scores := systemTypeScores (toLowerCase content) in
  (exists before best after,
      scores = before ++ best :: after
      /\ systemType (extractSystemKeywords content) = [fst best]
      /\ 3 <= snd best
      /\ Forall (fun e => snd e < snd best) before
      /\ Forall (fun e => snd e <= snd best) after)
  \/ (systemType (extractSystemKeywords content) = ["industrial_control"%string]
      /\ Forall (fun e => snd e < 3) scores).
Proof.
  cbv zeta. unfold extractSystemKeywords. cbn [systemType]. unfold detectSystemType.
  destruct (sortDesc (systemTypeScores (toLowerCase content))) as [|best others] eqn:Es.
  - right. split; [reflexivity|].
    destruct (systemTypeScores (toLowerCase content)) as [|x r]; [constructor|].
    assert (Hx : In x (sortDesc (x :: r))) by (apply sortDesc_In; now left).
    rewrite Es in Hx. contradiction.
  - destruct (sortDesc_head _ _ _ Es) as (before & after & E & Hb & Ha).
    destruct (Nat.leb_spec 3 (snd best)).
    + left. exists before, best, after. repeat split; auto.
    + right. split; [reflexivity|]. rewrite E. apply Forall_app. split.
      * eapply Forall_impl; [|exact Hb]. simpl. intros; lia.
      * constructor; [lia|]. eapply Forall_impl; [|exact Ha]. simpl. intros; lia.
Qed.

(** The letter case of the document does not matter: two texts with the
    same lower-case form give the same keywords, and so a text and its
    lower-case form do. *)
Theorem extractSystemKeywords_ignores_case (content other : string) :
  toLowerCase content = toLowerCase other ->
  extractSystemKeywords content = extractSystemKeywords other
  /\ extractSystemKeywords (toLowerCase content) = extractSystemKeywords content.
Proof.
  intro E. unfold extractSystemKeywords.
  rewrite toLowerCase_idempotent, E. split; reflexivity.
Qed.

Lemma extractSystemKeywords_ignores_case_witness :
  extractSystemKeywords "PUMP Flow" = extractSystemKeywords "pump flow"
  /\ extractSystemKeywords (toLowerCase "PUMP Flow") = extractSystemKeywords "PUMP Flow".
Proof.
  apply (extractSystemKeywords_ignores_case "PUMP Flow" "pump flow"). reflexivity.
Defined.

Lemma NoDup_filter (A : Type) (f : A -> bool) (l : list A) :
  NoDup l -> NoDup (filter f l).
Proof.
  induction 1 as [|x l Hx Hl IH]; simpl; [constructor|].
  destruct (f x); [constructor|]; auto.
  intro Hin. apply filter_In in Hin. tauto.
Qed.

Lemma NoDup_by_count (l : list string) :
  forallb (fun x => Nat.eqb (count_occ string_dec l x) 1) l = true -> NoDup l.
Proof.
  intro H. apply (NoDup_count_occ' string_dec). intros x Hx.
  rewrite forallb_forall in H. now apply Nat.eqb_eq, H.
Qed.

(** The three term lists hold exactly the terms of the fixed
    vocabularies that occur in the lower-cased text, each once; and since
    "auto" occurs in "automatic", a text that yields the operation
    "automatic" yields "auto" as well. *)
Theorem vocabulary_terms (content : string) :
  let kw := extractSystemKeywords content in
  let occurs t := includes (toLowerCase content) t = true in
  (forall t, In t (operations kw) <-> In t operationPatterns /\ occurs t)
  /\ (forall t, In t (components kw) <-> In t componentPatterns /\ occurs t)
  /\ (forall t, In t (controls kw) <-> In t controlPatterns /\ occurs t)
  /\ NoDup (operations kw) /\ NoDup (components kw) /\ NoDup (controls kw)
  /\ (In "automatic"%string (operations kw) -> In "auto"%string (operations kw)).
Proof.
  cbv zeta. unfold extractSystemKeywords. cbn [operations components controls].
  split; [intro t; apply filter_In|].
  split; [intro t; apply filter_In|].
  split; [intro t; apply filter_In|].
  split; [apply NoDup_filter, NoDup_by_count; reflexivity|].
  split; [apply NoDup_filter, NoDup_by_count; reflexivity|].
  split; [apply NoDup_filter, NoDup_by_count; reflexivity|].
  intros [_ Hocc]%filter_In.
  apply filter_In. split; [simpl; tauto|].
  eapply includes_trans; [exact Hocc|reflexivity].
Qed.

Lemma vocabulary_terms_witness :
  In "auto"%string (operations (extractSystemKeywords "Automatic transfer")).
Proof.
  apply (vocabulary_terms "Automatic transfer"). vm_compute. tauto.
Defined.

End KeywordFacts.

(** ** Section segmenter *)

Module SegmenterFacts.
Import Js Agent Segmenter.

(** The lines stored so far, in order: those of the pushed sections, then
    those of the section under construction. *)
Definition stored (st : loopState) : list string :=
  concat (map content (fst st))
  ++ match snd st with Some cur => content cur | None => [] end.

(** The same with the headings kept in front of their lines. *)
Definition outline (st : loopState) : list string :=
  concat (map (fun sec => heading sec :: content sec) (fst st))
  ++ match snd st with Some cur => heading cur :: content cur | None => [] end.

Definition bodyLines (lines : list string) : list string :=
  map trim (filter (fun line => negb (isHeading line)) lines).

Lemma concat_snoc (A B : Type) (f : A -> list B) (l : list A) (a : A) :
  concat (map f (l ++ [a])) = concat (map f l) ++ f a.
Proof.
  rewrite map_app, concat_app. simpl. now rewrite app_nil_r.
Qed.

Lemma stored_step (implicit : string) (st : loopState) (line : string) :
  stored (step implicit st line)
  = stored st ++ (if isHeading line then [] else [trim line]).
Proof.
  destruct st as [sections [cur|]]; unfold step, stored;
    destruct (isHeading line); simpl;
    rewrite ?concat_snoc, ?app_nil_r, ?app_assoc; reflexivity.
Qed.

Lemma stored_fold (implicit : string) (lines : list string) (st : loopState) :
  stored (fold_left (step implicit) lines st) = stored st ++ bodyLines lines.
Proof.
  revert st. induction lines as [|line lines IH]; intro st; simpl.
  - unfold bodyLines. simpl. now rewrite app_nil_r.
  - rewrite IH, stored_step. unfold bodyLines. simpl.
    destruct (isHeading line); simpl; rewrite <- app_assoc; reflexivity.
Qed.

Lemma stored_finish (st : loopState) :
  concat (map content (finish st)) = stored st.
Proof.
  destruct st as [sections [cur|]]; unfold finish, stored; simpl.
  - now rewrite concat_snoc.
  - now rewrite app_nil_r.
Qed.

Lemma segment_content (implicit : string) (lines : list string) :
  concat (map content (segment implicit lines)) = bodyLines lines.
Proof.
  unfold segment. now rewrite stored_finish, stored_fold.
Qed.

Lemma outline_step (implicit : string) (st : loopState) (line : string) :
  outline (step implicit st line)
  = outline st
    ++ (match snd st with
        | None => if isHeading line then [] else [implicit]
        | Some _ => []
        end)
    ++ [trim line].
Proof.
  destruct st as [sections [cur|]]; unfold step, outline;
    destruct (isHeading line); simpl;
    rewrite ?concat_snoc, ?app_nil_r; simpl;
    rewrite <- ?app_assoc; simpl; reflexivity.
Qed.

Lemma step_current (implicit : string) (st : loopState) (line : string) :
  snd (step implicit st line) <> None.
Proof.
  destruct st as [sections [cur|]]; unfold step;
    destruct (isHeading line); simpl; discriminate.
Qed.

Lemma outline_fold_current (implicit : string) (lines : list string) (st : loopState) :
  snd st <> None ->
  outline (fold_left (step implicit) lines st) = outline st ++ map trim lines.
Proof.
  revert st. induction lines as [|line lines IH]; intros st Hcur; simpl.
  - now rewrite app_nil_r.
  - rewrite IH by apply step_current. rewrite outline_step.
    destruct (snd st) as [cur|]; [|congruence].
    simpl. now rewrite <- app_assoc.
Qed.

Lemma outline_finish (st : loopState) :
  concat (map (fun sec => heading sec :: content sec) (finish st)) = outline st.
Proof.
  destruct st as [sections [cur|]]; unfold finish, outline; simpl.
  - now rewrite concat_snoc.
  - now rewrite app_nil_r.
Qed.

Lemma nonEmptyLines_not_blank (text line : string) :
  In line (nonEmptyLines text) -> trim line <> "".
Proof.
  unfold nonEmptyLines. rewrite filter_In. intros [_ H] E.
  rewrite E in H. discriminate.
Qed.

(** C5, as the code has it: the contents of the sections, concatenated in
    order, are exactly the trimmed non-empty lines that are not heading
    lines (a heading line becomes the heading of a section, not content),
    whatever the state of the agent; and a text without any non-empty line
    gives no section at all. *)
Theorem createBasicStructure_keeps_body_lines (text : string) (ag : HMIAgent) :
  concat (map content (fst (createBasicStructure text ag)))
  = map trim (filter (fun line => negb (isHeading line)) (nonEmptyLines text))
  /\ (nonEmptyLines text = [] -> fst (createBasicStructure text ag) = []).
Proof.
  split.
  - apply segment_content.
  - intro E. cbn. unfold basicStructure. now rewrite E.
Qed.

Lemma createBasicStructure_keeps_body_lines_witness :
  nonEmptyLines "" = []
  /\ fst (createBasicStructure "" (mkAgent (mkSession None None) [] [])) = [].
Proof.
  split; [reflexivity|].
  apply (createBasicStructure_keeps_body_lines "" (mkAgent (mkSession None None) [] []));
    reflexivity.
Defined.

(** C5 as stated fails: a heading line is not part of any content, and
    the empty document gives the empty list of sections. *)
Lemma createBasicStructure_drops_heading_lines :
  concat (map content
            (fst (createBasicStructure ("Home Screen" ++ nl ++ "Start the pump")
                    (mkAgent (mkSession None None) [] []))))
  <> map trim (nonEmptyLines ("Home Screen" ++ nl ++ "Start the pump"))
  /\ fst (createBasicStructure "" (mkAgent (mkSession None None) [] [])) = [].
Proof.
  split; [vm_compute; discriminate | reflexivity].
Qed.

(** A method whose second run returns what its first run returned,
    whatever state the agent is in at the first run and whatever it does
    between the two. *)
Definition repeatable {A : Type} (m : M A) : Prop :=
  forall (B : Type) (between : M B) (ag : HMIAgent),
    fst (fst (twoRuns m between ag)) = snd (fst (twoRuns m between ag)).


(** *** Nothing is lost, and what is stored is clean *)

(** The heading the loop invents when the text does not open with a
    heading line. *)
Definition implicitPrefix (implicit : string) (lines : list string) : list string :=
  match lines with
  | line :: _ => if isHeading line then [] else [implicit]
  | [] => []
  end.

Lemma segment_outline (implicit : string) (lines : list string) :
  concat (map (fun sec => heading sec :: content sec) (segment implicit lines))
  = implicitPrefix implicit lines ++ map trim lines.
Proof.
  unfold segment. rewrite outline_finish.
  destruct lines as [|line rest]; [reflexivity|].
  cbn [fold_left]. rewrite outline_fold_current by apply step_current.
  rewrite outline_step. unfold implicitPrefix. cbn [snd outline fst map concat app].
  destruct (isHeading line); cbn [app]; reflexivity.
Qed.

(** Read heading by heading, each heading followed by its content, the
    sections give back every non-empty line of the text, trimmed and in
    order, once; in front stands "Document Content" when the text does not
    open with a heading line. *)
Theorem createBasicStructure_outline (text : string) (ag : HMIAgent) :
  concat (map (fun sec => heading sec :: content sec)
              (fst (createBasicStructure text ag)))
  = implicitPrefix "Document Content" (nonEmptyLines text)
    ++ map trim (nonEmptyLines text).
Proof.
  apply segment_outline.
Qed.

Lemma trimStart_idempotent (s : string) : trimStart (trimStart s) = trimStart s.
Proof.
  induction s as [|c r IH]; [reflexivity|].
  simpl. destruct (isSpace c) eqn:E; [exact IH|].
  simpl. now rewrite E.
Qed.

Lemma trimEnd_idempotent (s : string) : trimEnd (trimEnd s) = trimEnd s.
Proof.
  induction s as [|c r IH]; [reflexivity|].
  simpl. destruct (trimEnd r) as [|d t] eqn:E.
  - destruct (isSpace c) eqn:Ec; [reflexivity|]. simpl. now rewrite Ec.
  - cbn [trimEnd] in IH |- *. fold trimEnd in IH |- *.
    change (trimEnd (String c (String d t)))
      with (match trimEnd (String d t) with
            | "" => if isSpace c then "" else String c ""
            | t' => String c t'
            end).
    now rewrite IH.
Qed.

Lemma trimEnd_keeps_head (s : string) :
  trimStart s = s -> trimStart (trimEnd s) = trimEnd s.
Proof.
  destruct s as [|c r]; [reflexivity|].
  simpl. destruct (isSpace c) eqn:Ec.
  - intro H. exfalso.
    assert (Hlen : String.length (trimStart r) <= String.length r).
    { clear. induction r as [|d r IH]; simpl; [lia|].
      destruct (isSpace d); simpl; lia. }
    rewrite H in Hlen. simpl in Hlen. lia.
  - intros _. destruct (trimEnd r); simpl; now rewrite Ec.
Qed.

Lemma trim_idempotent (s : string) : trim (trim s) = trim s.
Proof.
  unfold trim.
  rewrite trimEnd_keeps_head by apply trimStart_idempotent.
  apply trimEnd_idempotent.
Qed.

Lemma isHeading_trim (line : string) : isHeading (trim line) = isHeading line.
Proof.
  unfold isHeading. now rewrite trim_idempotent.
Qed.

(** A line as the segmenter stores it. *)
Definition clean (line : string) : Prop := line <> ""%string /\ trim line = line.

Lemma trimmed_clean (line : string) : trim line <> ""%string -> clean (trim line).
Proof.
  intro H. split; [exact H|apply trim_idempotent].
Qed.

Definition headingOk (implicit : string) (sec : Section_) : Prop :=
  heading sec = implicit \/ (isHeading (heading sec) = true /\ clean (heading sec)).

Lemma isHeading_not_blank (line : string) : isHeading line = true -> trim line <> ""%string.
Proof.
  unfold isHeading. intros H E. rewrite E in H. discriminate.
Qed.

Lemma step_headings (implicit : string) (st : loopState) (line : string) :
  Forall (headingOk implicit) (fst st) ->
  (forall cur, snd st = Some cur -> headingOk implicit cur) ->
  Forall (headingOk implicit) (fst (step implicit st line))
  /\ (forall cur, snd (step implicit st line) = Some cur -> headingOk implicit cur).
Proof.
  destruct st as [sections [cur|]]; unfold step; cbn [fst snd];
    intros Hs Hc; destruct (isHeading line) eqn:Eh; cbn [fst snd].
  - split.
    + apply Forall_app. split; [exact Hs|]. constructor; [|constructor].
      now apply Hc.
    + intros c [= <-]. right. cbn [heading]. rewrite isHeading_trim.
      split; [exact Eh|]. now apply trimmed_clean, isHeading_not_blank.
  - split; [exact Hs|]. intros c [= <-].
    destruct (Hc cur eq_refl) as [H|H]; [left|right]; exact H.
  - split; [exact Hs|].
    intros c [= <-]. right. cbn [heading]. rewrite isHeading_trim.
    split; [exact Eh|]. now apply trimmed_clean, isHeading_not_blank.
  - split; [exact Hs|]. intros c [= <-]. now left.
Qed.

Lemma fold_headings (implicit : string) (lines : list string) (st : loopState) :
  Forall (headingOk implicit) (fst st) ->
  (forall cur, snd st = Some cur -> headingOk implicit cur) ->
  Forall (headingOk implicit) (finish (fold_left (step implicit) lines st)).
Proof.
  revert st. induction lines as [|line rest IH]; intros st Hs Hc.
  - cbn [fold_left]. unfold finish. destruct (snd st) as [cur|] eqn:E; [|exact Hs].
    apply Forall_app. split; [exact Hs|]. constructor; [|constructor]. now apply Hc.
  - cbn [fold_left]. destruct (step_headings implicit st line Hs Hc) as [Hs' Hc'].
    now apply IH.
Qed.

(** Every section has as heading either "Document Content" or a heading
    line of the text, trimmed and not empty; every line of content is a
    line of the text that is no heading, trimmed and not empty. *)
Theorem createBasicStructure_clean (text : string) (ag : HMIAgent) :
  Forall (fun sec =>
            headingOk "Document Content" sec
            /\ Forall (fun line => clean line /\ isHeading line = false) (content sec))
         (fst (createBasicStructure text ag)).
Proof.
  cbn [createBasicStructure bind updateProgress ret fst]. unfold basicStructure.
  apply Forall_forall. intros sec Hin. split.
  - assert (H : Forall (headingOk "Document Content")
                  (segment "Document Content" (nonEmptyLines text))).
    { apply fold_headings; [constructor|discriminate]. }
    rewrite Forall_forall in H. now apply H.
  - assert (H : Forall (fun line => clean line /\ isHeading line = false)
                  (concat (map content (segment "Document Content" (nonEmptyLines text))))).
    { rewrite segment_content. unfold bodyLines.
      apply Forall_map, Forall_forall. intros line [Hl Hh]%filter_In.
      split.
      - now apply trimmed_clean, (nonEmptyLines_not_blank text).
      - rewrite isHeading_trim. now apply negb_true_iff. }
    rewrite Forall_concat in H. rewrite Forall_forall in H.
    apply H. now apply in_map.
Qed.

(** *** The pre-filter of the screen identifier *)

Lemma firstOfEachHeading_spec (sections : list Section_) :
  forall seen,
    NoDup (map heading (firstOfEachHeading seen sections))
    /\ (forall sec, In sec (firstOfEachHeading seen sections) ->
                    In sec sections /\ ~ In (heading sec) seen)
    /\ (forall sec, In sec sections -> ~ In (heading sec) seen ->
                    In (heading sec) (map heading (firstOfEachHeading seen sections))).
Proof.
  induction sections as [|s rest IH]; intro seen; cbn [firstOfEachHeading].
  - repeat split; [constructor|contradiction|contradiction|contradiction].
  - destruct (existsb (String.eqb (heading s)) seen) eqn:E.
    + destruct (IH seen) as (Hn & Hin & Hall). repeat split; auto.
      * right. now apply Hin.
      * now apply Hin.
      * intros sec [<-|Hs] Hseen; [|now apply Hall].
        exfalso. apply Hseen. apply existsb_exists in E.
        destruct E as (h & Hh & Eq%String.eqb_eq). now rewrite Eq.
    + assert (Hs : ~ In (heading s) seen).
      { intro Hc. apply Bool.not_true_iff_false in E. apply E.
        apply existsb_exists. exists (heading s). split; [exact Hc|apply String.eqb_refl]. }
      destruct (IH (heading s :: seen)) as (Hn & Hin & Hall).
      repeat split.
      * cbn [map]. constructor; [|exact Hn].
        intros (sec & Eq & Hsec)%in_map_iff. apply Hin in Hsec.
        destruct Hsec as [_ Hsec]. apply Hsec. left. now rewrite Eq.
      * destruct H as [<-|H]; [now left|right; now apply Hin].
      * destruct H as [<-|H]; [exact Hs|].
        apply Hin in H. destruct H as [_ H]. intro Hc. apply H. now right.
      * intros sec Hsec Hseen. cbn [map].
        destruct (String.eqb_spec (heading s) (heading sec)) as [Eq|Ne];
          [left; exact Eq|right].
        destruct Hsec as [<-|Hsec]; [congruence|].
        apply Hall; [exact Hsec|]. intros [Hc|Hc]; [congruence|now apply Hseen].
Qed.

(** The pre-filter returns sections of its input only, each of which
    mentions a screen word or has a structural mark; no two of them share
    a heading; and every section of the input either does not qualify or
    has its heading among those returned. *)
Theorem filterScreenLikeSections_spec (sections : list Section_) (ag : HMIAgent) :
  let kept := fst (filterScreenLikeSections sections ag) in
  NoDup (map heading kept)
  /\ Forall (fun sec => In sec sections
                        /\ (screenLike sec || structural sec)%bool = true) kept
  /\ Forall (fun sec => (screenLike sec || structural sec)%bool = false
                        \/ In (heading sec) (map heading kept)) sections.
Proof.
  cbn [filterScreenLikeSections bind updateProgress ret fst]. unfold screenLikeSections.
  destruct (firstOfEachHeading_spec
              (filter screenLike sections ++ filter structural sections) [])
    as (Hn & Hin & Hall).
  split; [exact Hn|]. split.
  - apply Forall_forall. intros sec Hsec. apply Hin in Hsec. destruct Hsec as [Hsec _].
    apply in_app_or in Hsec. destruct Hsec as [H|H]; apply filter_In in H;
      destruct H as [H1 H2]; rewrite H2; split; auto using orb_true_r.
  - apply Forall_forall. intros sec Hsec.
    destruct (screenLike sec || structural sec)%bool eqn:Hq; [right|now left].
    apply Hall; [|intros []].
    apply in_or_app. apply orb_true_iff in Hq.
    destruct Hq as [Hq|Hq]; [left|right]; apply filter_In; auto.
Qed.

(** *** The two segmenters *)

(** Two sections with the same content whose headings are equal, or are
    the two implicit headings. *)
Definition alike (h1 h2 : string) (a b : Section_) : Prop :=
  content a = content b
  /\ (heading a = heading b \/ (heading a = h1 /\ heading b = h2)).

Definition alikeCurrent (h1 h2 : string) (a b : option Section_) : Prop :=
  match a, b with
  | Some x, Some y => alike h1 h2 x y
  | None, None => True
  | _, _ => False
  end.

Lemma step_alike (h1 h2 : string) (st1 st2 : loopState) (line : string) :
  Forall2 (alike h1 h2) (fst st1) (fst st2) ->
  alikeCurrent h1 h2 (snd st1) (snd st2) ->
  Forall2 (alike h1 h2) (fst (step h1 st1 line)) (fst (step h2 st2 line))
  /\ alikeCurrent h1 h2 (snd (step h1 st1 line)) (snd (step h2 st2 line)).
Proof.
  destruct st1 as [s1 [c1|]], st2 as [s2 [c2|]]; cbn [fst snd alikeCurrent];
    intros Hs Hc; try contradiction; unfold step;
    destruct (isHeading line); cbn [fst snd alikeCurrent].
  - split; [|split; [reflexivity|now left]].
    apply Forall2_app; [exact Hs|]. constructor; [exact Hc|constructor].
  - split; [exact Hs|]. destruct Hc as [Hc Hh]. split; [|exact Hh].
    cbn [content]. now rewrite Hc.
  - split; [exact Hs|]. split; [reflexivity|now left].
  - split; [exact Hs|]. split; [reflexivity|]. right. split; reflexivity.
Qed.

Lemma segment_alike (h1 h2 : string) (lines : list string) :
  Forall2 (alike h1 h2) (segment h1 lines) (segment h2 lines).
Proof.
  unfold segment.
  assert (H : forall st1 st2,
             Forall2 (alike h1 h2) (fst st1) (fst st2) ->
             alikeCurrent h1 h2 (snd st1) (snd st2) ->
             Forall2 (alike h1 h2)
                     (finish (fold_left (step h1) lines st1))
                     (finish (fold_left (step h2) lines st2))).
  { induction lines as [|line rest IH]; intros st1 st2 Hs Hc.
    - cbn [fold_left]. unfold finish.
      destruct (snd st1), (snd st2); cbn [alikeCurrent] in Hc; try contradiction.
      + apply Forall2_app; [exact Hs|]. constructor; [exact Hc|constructor].
      + exact Hs.
    - cbn [fold_left]. destruct (step_alike h1 h2 st1 st2 line Hs Hc) as [Hs' Hc'].
      now apply IH. }
  apply H; [constructor|exact I].
Qed.

(** [parseDocumentStructure] and [createBasicStructure] cut a text into
    the same sections: as many, with the same content, and with the same
    headings but for the implicit first one, "Introduction" for the one
    and "Document Content" for the other. *)
Theorem parseDocumentStructure_agrees (text : string) (ag : HMIAgent) :
  Forall2 (alike "Introduction" "Document Content")
          (parseDocumentStructure text) (fst (createBasicStructure text ag)).
Proof.
  apply segment_alike.
Qed.

End SegmenterFacts.

(** ** Validation of a specification *)

Module SpecFacts.
Import Js Keywords Agent Spec.

Open Scope Z_scope.

(** Two elements that agree on every field but [position]. *)
Definition sameButPosition (a b : Element) : Prop :=
  type_ a = type_ b /\ label a = label b /\ style a = style b /\
  purpose a = purpose b /\ userAction a = userAction b /\
  headers a = headers b /\ rows a = rows b.

(** A position that needs no validation: four whole numbers, already
    inside the bounds the validation enforces. *)
Definition validatedBox (e : Element) : Prop :=
  exists x y w h,
    position e = Some (at_ x y w h) /\
    20 <= x /\ 120 <= y /\ 80 <= w <= 400 /\ 30 <= h.

(** [z'] is [z] moved into the interval from [lo] to [hi] (from [lo] up
    when there is no [hi]): [z] itself when it lies inside, and otherwise
    the bound it lies beyond. *)
Definition movedInto (lo : Z) (hi : option Z) (z z' : Z) : Prop :=
  (z < lo /\ z' = lo)
  \/ (lo <= z /\
      match hi with
      | Some top => (z <= top /\ z' = z) \/ (top < z /\ z' = top)
      | None => z' = z
      end).

(** What the validation makes of one coordinate.  A truthy value is read
    as a number and a falsy one gives way to the default; the number is
    moved into the interval, and what is not a number ends as NaN. *)
Definition validatedCoordinate (lo : Z) (hi : option Z) (given : Value)
  (default out : Num) : Prop :=
  match orValue given default with
  | Fin z => exists z', out = Fin z' /\ movedInto lo hi z z'
  | NaN => out = NaN
  end.

(** The validated list against the given one, element by element:
    [index] counts the elements, [currentY] is where the next element
    without a [y] of its own goes. *)
Fixpoint validatedFrom (index : nat) (currentY : Num) (given out : list Element) : Prop :=
  match given, out with
  | [], [] => True
  | i :: given', o :: out' =>
      sameButPosition i o
      /\ exists x y w h,
           position o = Some (mkPos (number x) (number y) (number w) (number h))
           /\ validatedCoordinate 20 None (pos_x (positionOf i))
                (Fin (50 + Z.of_nat (index mod 3) * 200)) x
           /\ validatedCoordinate 120 None (pos_y (positionOf i)) currentY y
           /\ validatedCoordinate 80 (Some 400) (pos_width (positionOf i)) (Fin 150) w
           /\ validatedCoordinate 30 None (pos_height (positionOf i)) (Fin 40) h
           /\ validatedFrom (S index) (plus (plus y h) (Fin 10)) given' out'
  | _, _ => False
  end.

(** A number that is NaN or lies in an interval. *)
Definition atLeast (lo : Z) (n : Num) : Prop :=
  match n with Fin z => lo <= z | NaN => True end.

Definition within (lo hi : Z) (n : Num) : Prop :=
  match n with Fin z => lo <= z <= hi | NaN => True end.

(** An element whose position holds four numbers, of which [P] holds. *)
Definition numbers (P : Num -> Num -> Num -> Num -> Prop) (e : Element) : Prop :=
  exists x y w h,
    position e = Some (mkPos (number x) (number y) (number w) (number h)) /\ P x y w h.

(** The bounds of the validation, on numbers that may be NaN. *)
Definition validatedNumbers (x y w h : Num) : Prop :=
  atLeast 20 x /\ atLeast 120 y /\ within 80 400 w /\ atLeast 30 h.

Lemma raised (lo : Z) (n : Num) :
  match n with
  | Fin z => exists z', mathMax (Fin lo) n = Fin z' /\ movedInto lo None z z'
  | NaN => mathMax (Fin lo) n = NaN
  end.
Proof.
  destruct n as [z|]; [|reflexivity].
  exists (Z.max lo z). split; [reflexivity|]. unfold movedInto. lia.
Qed.

Lemma clamped (lo hi : Z) (n : Num) :
  lo <= hi ->
  match n with
  | Fin z => exists z', mathMin (Fin hi) (mathMax (Fin lo) n) = Fin z'
                        /\ movedInto lo (Some hi) z z'
  | NaN => mathMin (Fin hi) (mathMax (Fin lo) n) = NaN
  end.
Proof.
  intro Hle. destruct n as [z|]; [|reflexivity].
  exists (Z.min hi (Z.max lo z)). split; [reflexivity|]. unfold movedInto. lia.
Qed.

Lemma validateFrom_validated (elements : list Element) :
  forall index currentY,
    validatedFrom index currentY elements (validateFrom index currentY elements).
Proof.
  induction elements as [|e rest IH]; intros index currentY; [exact I|].
  cbn [validateFrom validatedFrom]. split; [repeat split|].
  eexists _, _, _, _. split; [reflexivity|].
  unfold validatedCoordinate.
  split; [apply raised|]. split; [apply raised|].
  split; [apply clamped; lia|]. split; [apply raised|]. apply IH.
Qed.

Lemma validateFrom_pointwise (elements : list Element) :
  forall index currentY,
    Forall2 (fun i o => sameButPosition i o /\ numbers validatedNumbers o)
            elements (validateFrom index currentY elements).
Proof.
  induction elements as [|e rest IH]; intros index currentY; cbn [validateFrom].
  - constructor.
  - constructor; [|apply IH].
    split; [repeat split|].
    eexists _, _, _, _. split; [reflexivity|].
    unfold validatedNumbers, atLeast, within.
    repeat split;
      match goal with
      | |- context [orValue ?v ?d] => destruct (orValue v d); cbn; lia
      end.
Qed.

Lemma validateFrom_length (elements : list Element) (index : nat) (currentY : Num) :
  List.length (validateFrom index currentY elements) = List.length elements.
Proof.
  symmetry. eapply Forall2_length, validateFrom_pointwise.
Qed.

Lemma validateFrom_types (elements : list Element) (index : nat) (currentY : Num) :
  map type_ (validateFrom index currentY elements) = map type_ elements.
Proof.
  revert index currentY.
  induction elements as [|e rest IH]; intros; simpl; [reflexivity|].
  now rewrite IH.
Qed.

Lemma validateFrom_numbers (elements : list Element) (index : nat) (currentY : Num) :
  Forall (numbers validatedNumbers) (validateFrom index currentY elements).
Proof.
  pose proof (validateFrom_pointwise elements index currentY) as H.
  induction H; constructor; tauto.
Qed.

(** C9, as the code has it.  The validation returns as many elements, in
    the same order, and each differs from its input in [position] only.
    The new position holds four numbers.  Each comes from the coordinate
    given, or from the default where none is given or 0 is given: a width
    is moved into 80 to 400 (150 by default), a height is raised to 30 at
    least (40 by default), x to 20 at least and y to 120 at least, where
    y by default is 10 below the element before.  A coordinate that is
    given but is not read as a number ends as NaN, so the bounds hold of
    every coordinate that is not NaN. *)
Theorem validateElementPositions_frame (elements : list Element) :
  List.length (validateElementPositions elements) = List.length elements
  /\ Forall2 (fun i o => sameButPosition i o /\ numbers validatedNumbers o)
             elements (validateElementPositions elements)
  /\ validatedFrom 0 (Fin 120) elements (validateElementPositions elements).
Proof.
  split; [apply validateFrom_length|].
  split; [apply validateFrom_pointwise|apply validateFrom_validated].
Qed.

(** An element as a reply may hold it: the width is the string "auto". *)
Definition autoWide : Element :=
  mkElement "gauge" "PRESSURE"
    (Some (mkPos (number (Fin 50)) (number (Fin 200)) (other NaN) (number (Fin 100))))
    [] None None [] None.

(** C9 as stated fails: a width that is not a number is not clamped into
    80 to 400, it becomes NaN. *)
Lemma validateElementPositions_width_not_a_number :
  map position (validateElementPositions [autoWide])
  = [Some (mkPos (number (Fin 50)) (number (Fin 200)) (number NaN) (number (Fin 100)))]
  /\ ~ (exists w, number NaN = number (Fin w) /\ 80 <= w <= 400).
Proof.
  split; [reflexivity|]. intros (w & E & _). discriminate.
Qed.

Lemma existsb_app_true (A : Type) (f : A -> bool) (l r : list A) :
  existsb f r = true -> existsb f (l ++ r) = true.
Proof.
  intro H. rewrite existsb_app, H. apply orb_true_r.
Qed.

(** C10: the input elements appear unchanged, as one block, in the
    output; before them comes nothing or the one synthesized title (of
    type [text]), after them nothing or the one synthesized status
    indicator; and the output always holds a [status_indicator]. *)
Theorem ensureEssentialElements_frame (elements : list Element) (screen : Screen)
  (documentContext : DocumentContext) :
  exists before after,
    ensureEssentialElements elements screen documentContext
    = before ++ elements ++ after
    /\ (before = [] \/ before = [titleElement screen])
    /\ (after = [] \/ after = [statusElement])
    /\ type_ (titleElement screen) = "text"%string
    /\ type_ statusElement = "status_indicator"%string
    /\ existsb isStatus (ensureEssentialElements elements screen documentContext) = true.
Proof.
  unfold ensureEssentialElements.
  exists (if existsb isTitle elements then [] else [titleElement screen]).
  exists (if existsb isStatus elements then [] else [statusElement]).
  repeat split.
  - destruct (existsb isTitle elements); auto.
  - destruct (existsb isStatus elements); auto.
  - apply existsb_app_true. rewrite existsb_app.
    destruct (existsb isStatus elements); reflexivity.
Qed.

(** *** The two paths of the generator *)

(** A position with all four numbers, of which the theorems speak. *)
Definition boxed (P : Z -> Z -> Z -> Z -> Prop) (e : Element) : Prop :=
  exists x y w h, position e = Some (at_ x y w h) /\ P x y w h.

Lemma boxed_element (P : Z -> Z -> Z -> Z -> Prop) t l x y w h st :
  P x y w h -> boxed P (element t l (at_ x y w h) st).
Proof. intro H. now exists x, y, w, h. Qed.

Lemma boxed_table (P : Z -> Z -> Z -> Z -> Prop) t l hs n x y w h st :
  P x y w h -> boxed P (table t l hs n (at_ x y w h) st).
Proof. intro H. now exists x, y, w, h. Qed.

Lemma boxed_weaken (P Q : Z -> Z -> Z -> Z -> Prop) (e : Element) :
  (forall x y w h, P x y w h -> Q x y w h) -> boxed P e -> boxed Q e.
Proof.
  intros HPQ (x & y & w & h & E & H). exists x, y, w, h. auto.
Qed.

Lemma indexed_Forall (P : Element -> Prop) (mk : string -> nat -> Element)
  (items : list string) :
  forall index,
    (forall item j, (index <= j < index + List.length items)%nat -> P (mk item j)) ->
    Forall P (indexed mk index items).
Proof.
  induction items as [|item rest IH]; intros index H; simpl; constructor.
  - apply H. simpl. lia.
  - apply IH. intros it j Hj. apply H. simpl. lia.
Qed.

Lemma indexed_length (mk : string -> nat -> Element) (items : list string) (index : nat) :
  List.length (indexed mk index items) = List.length items.
Proof.
  revert index. induction items; intros; simpl; auto.
Qed.

Ltac divmod := zify; Z.div_mod_to_equations; lia.

(** The loop variables of [buttonGrid] on entering turn [index], for a
    grid whose first row is at [y0]. *)
Definition gridInv (y0 rowStep colStep : Z) (index : nat) (bx by_ : Z) : Prop :=
  if (Nat.ltb 0 index && Nat.eqb (index mod 3) 0)%bool
  then by_ = y0 + (Z.of_nat (index / 3) - 1) * rowStep
  else bx = 50 + Z.of_nat (index mod 3) * colStep
       /\ by_ = y0 + Z.of_nat (index / 3) * rowStep.

Lemma buttonGrid_cons (mk : string -> Z -> Z -> Element) (rowStep colStep : Z)
  (index : nat) (bx by_ : Z) (item : string) (rest : list string) :
  buttonGrid mk rowStep colStep index bx by_ (item :: rest)
  = let wrap := (Nat.ltb 0 index && Nat.eqb (index mod 3) 0)%bool in
    mk item (if wrap then 50 else bx) (if wrap then by_ + rowStep else by_)
    :: buttonGrid mk rowStep colStep (S index)
         ((if wrap then 50 else bx) + colStep)
         (if wrap then by_ + rowStep else by_) rest.
Proof. reflexivity. Qed.

(** [buttonGrid] in closed form: item [j] sits in column [j mod 3] of row
    [j / 3]. *)
Lemma buttonGrid_closed (mk : string -> Z -> Z -> Element) (y0 rowStep colStep : Z)
  (items : list string) :
  forall index bx by_,
    gridInv y0 rowStep colStep index bx by_ ->
    buttonGrid mk rowStep colStep index bx by_ items
    = indexed (fun item j =>
                 mk item (50 + Z.of_nat (j mod 3) * colStep)
                         (y0 + Z.of_nat (j / 3) * rowStep))
              index items.
Proof.
  induction items as [|item rest IH]; intros index bx by_ Hinv; [reflexivity|].
  rewrite buttonGrid_cons. cbv zeta.
  change (indexed ?mk' index (item :: rest))
    with (mk' item index :: indexed mk' (S index) rest).
  unfold gridInv in Hinv.
  destruct (Nat.ltb 0 index && Nat.eqb (index mod 3) 0)%bool eqn:Hwrap.
  - apply andb_prop in Hwrap. destruct Hwrap as [_ Hm%Nat.eqb_eq].
    f_equal.
    + f_equal; [rewrite Hm|]; lia.
    + apply IH. unfold gridInv.
      replace (Nat.eqb (S index mod 3) 0) with false
        by (symmetry; apply Nat.eqb_neq; divmod).
      rewrite andb_false_r.
      replace (S index mod 3)%nat with 1%nat by divmod.
      replace (S index / 3)%nat with (index / 3)%nat by divmod.
      lia.
  - destruct Hinv as [-> ->]. f_equal.
    apply IH. unfold gridInv.
    destruct (Nat.ltb 0 (S index) && Nat.eqb (S index mod 3) 0)%bool eqn:Hnext.
    + apply andb_prop in Hnext. destruct Hnext as [_ Hm%Nat.eqb_eq].
      replace (S index / 3)%nat with (S (index / 3)) by divmod. lia.
    + change (Nat.ltb 0 (S index)) with true in Hnext.
      rewrite andb_true_l in Hnext. apply Nat.eqb_neq in Hnext.
      replace (S index mod 3)%nat with (S (index mod 3)) by divmod.
      replace (S index / 3)%nat with (index / 3)%nat by divmod.
      split; lia.
Qed.

Lemma buttonGrid_from_start (mk : string -> Z -> Z -> Element) (y0 rowStep colStep : Z)
  (items : list string) :
  buttonGrid mk rowStep colStep 0 50 y0 items
  = indexed (fun item j =>
               mk item (50 + Z.of_nat (j mod 3) * colStep)
                       (y0 + Z.of_nat (j / 3) * rowStep))
            0 items.
Proof.
  apply buttonGrid_closed. unfold gridInv.
  change (Nat.ltb 0 0) with false. rewrite andb_false_l.
  change (0 mod 3)%nat with 0%nat. change (0 / 3)%nat with 0%nat. lia.
Qed.

(** The box of a fallback element: inside the canvas to the left, the
    top and the right; inside it to the bottom when [few] holds. *)
Definition fallbackBox (few : Prop) (x y w h : Z) : Prop :=
  0 <= x /\ 0 <= y /\ x + w <= 800 /\ (few -> y + h <= 600).

Ltac literal_boxes :=
  repeat first
    [ apply Forall_nil
    | apply Forall_cons
    | apply boxed_element
    | apply boxed_table
    | (unfold fallbackBox; lia) ].

Section FallbackBoxes.

Variable screenContent : ScreenContent.
Variable documentContext : DocumentContext.

Local Abbreviation few := (List.length (keyOperations screenContent) <= 18)%nat.

Lemma firstn_bound (A : Type) (n : nat) (l : list A) (j : nat) :
  (0 <= j < 0 + List.length (firstn n l))%nat -> (j < n)%nat.
Proof.
  pose proof (firstn_le_length n l). lia.
Qed.

Lemma home_boxes :
  Forall (boxed (fallbackBox few))
         (generateDocumentDrivenHomeElements screenContent documentContext).
Proof.
  unfold generateDocumentDrivenHomeElements.
  rewrite buttonGrid_from_start.
  repeat (apply Forall_app; split); try solve [literal_boxes].
  apply indexed_Forall. intros item j Hj%firstn_bound.
  apply boxed_element. unfold fallbackBox. divmod.
Qed.

Lemma control_boxes :
  Forall (boxed (fallbackBox few))
         (generateDocumentDrivenControlElements screenContent documentContext).
Proof.
  unfold generateDocumentDrivenControlElements.
  rewrite buttonGrid_from_start.
  repeat (apply Forall_app; split); try solve [literal_boxes].
  - apply indexed_Forall. intros item j Hj.
    apply boxed_element. unfold fallbackBox. divmod.
  - apply indexed_Forall. intros item j Hj%firstn_bound.
    apply boxed_element. unfold fallbackBox. lia.
Qed.

Lemma auto_boxes :
  Forall (boxed (fallbackBox few))
         (generateDocumentDrivenAutoElements screenContent documentContext).
Proof.
  unfold generateDocumentDrivenAutoElements.
  repeat (apply Forall_app; split); try solve [literal_boxes].
  apply indexed_Forall. intros item j Hj%firstn_bound.
  apply boxed_element. unfold fallbackBox. divmod.
Qed.

Lemma settings_boxes :
  Forall (boxed (fallbackBox few))
         (generateDocumentDrivenSettingsElements screenContent documentContext).
Proof.
  unfold generateDocumentDrivenSettingsElements.
  repeat (apply Forall_app; split); try solve [literal_boxes].
  apply indexed_Forall. intros item j Hj%firstn_bound.
  apply boxed_element. unfold fallbackBox. divmod.
Qed.

Lemma generic_boxes (screen : Screen) :
  Forall (boxed (fallbackBox few))
         (generateDocumentDrivenGenericElements screenContent documentContext screen).
Proof.
  unfold generateDocumentDrivenGenericElements.
  rewrite buttonGrid_from_start.
  repeat (apply Forall_app; split); try solve [literal_boxes].
  apply indexed_Forall. intros item j Hj%firstn_bound.
  apply boxed_element. unfold fallbackBox. divmod.
Qed.

Lemma fixed_boxes :
  Forall (boxed (fallbackBox few))
         (generateDocumentDrivenTestElements screenContent documentContext)
  /\ Forall (boxed (fallbackBox few))
            (generateDocumentDrivenPumpElements screenContent documentContext)
  /\ Forall (boxed (fallbackBox few))
            (generateDocumentDrivenPurgeElements screenContent documentContext)
  /\ Forall (boxed (fallbackBox few))
            (generateDocumentDrivenAlarmElements screenContent documentContext)
  /\ Forall (boxed (fallbackBox few))
            (generateDocumentDrivenTrackingElements screenContent documentContext)
  /\ Forall (boxed (fallbackBox few))
            (generateDocumentDrivenUserElements screenContent documentContext).
Proof.
  repeat split; literal_boxes.
Qed.

End FallbackBoxes.

Lemma generators_at_least_two (screenContent : ScreenContent)
  (documentContext : DocumentContext) (screen : Screen) :
  (2 <= List.length (generateDocumentDrivenHomeElements screenContent documentContext)
   /\ 2 <= List.length (generateDocumentDrivenControlElements screenContent documentContext)
   /\ 2 <= List.length (generateDocumentDrivenAutoElements screenContent documentContext)
   /\ 2 <= List.length (generateDocumentDrivenTestElements screenContent documentContext)
   /\ 2 <= List.length (generateDocumentDrivenPumpElements screenContent documentContext)
   /\ 2 <= List.length (generateDocumentDrivenPurgeElements screenContent documentContext)
   /\ 2 <= List.length (generateDocumentDrivenSettingsElements screenContent documentContext)
   /\ 2 <= List.length (generateDocumentDrivenAlarmElements screenContent documentContext)
   /\ 2 <= List.length (generateDocumentDrivenTrackingElements screenContent documentContext)
   /\ 2 <= List.length (generateDocumentDrivenUserElements screenContent documentContext)
   /\ 2 <= List.length
             (generateDocumentDrivenGenericElements screenContent documentContext screen))%nat.
Proof.
  unfold generateDocumentDrivenHomeElements, generateDocumentDrivenControlElements,
    generateDocumentDrivenAutoElements, generateDocumentDrivenSettingsElements,
    generateDocumentDrivenGenericElements.
  repeat split; rewrite ?length_app; simpl; lia.
Qed.

Lemma adaptive_boxes (screen : Screen) (documentContext : DocumentContext)
  (content : ScreenContent) :
  Forall (boxed (fallbackBox (List.length (keyOperations content) <= 18)%nat))
         (adaptiveElements screen documentContext content).
Proof.
  unfold adaptiveElements. cbv zeta.
  pose proof (fixed_boxes content documentContext) as (Ht & Hp & Hg & Ha & Hk & Hu).
  apply Forall_app. split; [literal_boxes|].
  repeat match goal with
         | |- context [if ?b then _ else _] => destruct b
         end;
    auto using home_boxes, control_boxes, auto_boxes, settings_boxes, generic_boxes.
Qed.

Lemma adaptive_length (screen : Screen) (documentContext : DocumentContext)
  (content : ScreenContent) :
  (4 <= List.length (adaptiveElements screen documentContext content))%nat.
Proof.
  unfold adaptiveElements. cbv zeta.
  pose proof (generators_at_least_two content documentContext screen)
    as (H1 & H2 & H3 & H4 & H5 & H6 & H7 & H8 & H9 & H10 & H11).
  rewrite length_app.
  repeat match goal with
         | |- context [if ?b then _ else _] => destruct b
         end; simpl List.length at 1; lia.
Qed.

Section FallbackPath.

Variable validPattern : string -> bool.
Variable screenRelevantContent : Screen -> DocumentContext -> ScreenContent.

(** The fallback returns exactly when the pattern around the screen name
    compiles, and then the base specification around the adaptive
    elements. *)
Lemma generateFallbackSpec_run (screen : Screen) (documentContext : DocumentContext) :
  generateFallbackSpec validPattern screenRelevantContent screen documentContext
  = if compiles validPattern (toLowerCase (screenName screen))
    then Ok (baseSpec screen
               (adaptiveElements screen documentContext
                  (screenRelevantContent screen documentContext)))
    else Throw invalidPattern.
Proof.
  unfold generateFallbackSpec, generateAdaptiveElements, extractScreenRelevantContent.
  cbv zeta. destruct (compiles validPattern _); reflexivity.
Qed.

Lemma generateFallbackSpec_elements (screen : Screen) (documentContext : DocumentContext)
  (spec : ScreenSpec) :
  generateFallbackSpec validPattern screenRelevantContent screen documentContext = Ok spec ->
  compiles validPattern (toLowerCase (screenName screen)) = true
  /\ elementsOf spec
     = adaptiveElements screen documentContext
         (screenRelevantContent screen documentContext).
Proof.
  rewrite generateFallbackSpec_run.
  destruct (compiles validPattern _); [|discriminate].
  intros [= <-]. split; reflexivity.
Qed.

End FallbackPath.

(** What the model-based path guarantees of every box. *)
Definition modelBox (x y w h : Z) : Prop :=
  20 <= x /\ 25 <= y /\ 80 <= w <= 400 /\ 30 <= h.

(** The same of numbers that may be NaN. *)
Definition modelNumbers (x y w h : Num) : Prop :=
  atLeast 20 x /\ atLeast 25 y /\ within 80 400 w /\ atLeast 30 h.

(** A coordinate the validation can read: one that is not given, or one
    that converts to a number. *)
Definition readable (v : Value) : bool :=
  (negb (truthy v) || match toNumber v with Fin _ => true | NaN => false end)%bool.

Definition readableElement (e : Element) : bool :=
  (readable (pos_x (positionOf e)) && readable (pos_y (positionOf e))
   && readable (pos_width (positionOf e)) && readable (pos_height (positionOf e)))%bool.

Lemma readable_orValue (v : Value) (d : Z) :
  readable v = true -> exists z, orValue v (Fin d) = Fin z.
Proof.
  unfold readable, orValue.
  destruct (truthy v); cbn [negb orb]; [|intros _; now exists d].
  destruct (toNumber v) as [z|]; [intros _; now exists z|discriminate].
Qed.

(** When every coordinate given is readable, the validation ends with
    whole numbers inside its bounds. *)
Lemma validateFrom_readable (elements : list Element) :
  forallb readableElement elements = true ->
  forall index currentY,
    Forall validatedBox (validateFrom index (Fin currentY) elements).
Proof.
  induction elements as [|e rest IH]; intros Hr index currentY; [constructor|].
  cbn [forallb] in Hr. apply andb_prop in Hr. destruct Hr as [He Hrest].
  unfold readableElement in He.
  apply andb_prop in He. destruct He as [He Hh].
  apply andb_prop in He. destruct He as [He Hw].
  apply andb_prop in He. destruct He as [Hx Hy].
  cbn [validateFrom].
  destruct (readable_orValue _ (50 + Z.of_nat (index mod 3) * 200) Hx) as (x & Ex).
  destruct (readable_orValue _ currentY Hy) as (y & Ey).
  destruct (readable_orValue _ 150 Hw) as (w & Ew).
  destruct (readable_orValue _ 40 Hh) as (h & Eh).
  rewrite Ex, Ey, Ew, Eh. cbn [mathMax mathMin plus onNumbers].
  constructor; [|apply IH, Hrest].
  eexists _, _, _, _. split; [reflexivity|]. lia.
Qed.

Lemma generateAdditionalElements_length (ag : HMIAgent) (screen : Screen)
  (documentContext : DocumentContext) (count : Z) :
  List.length (generateAdditionalElements ag screen documentContext count)
  = Z.to_nat count.
Proof.
  unfold generateAdditionalElements. now rewrite length_map, length_seq.
Qed.

Lemma readable_number (z : Z) : readable (number (Fin z)) = true.
Proof. unfold readable. apply orb_true_r. Qed.

Lemma generateAdditionalElements_readable (ag : HMIAgent) (screen : Screen)
  (documentContext : DocumentContext) (count : Z) :
  forallb readableElement (generateAdditionalElements ag screen documentContext count)
  = true.
Proof.
  unfold generateAdditionalElements. apply forallb_forall.
  intros e He. apply in_map_iff in He. destruct He as (i & <- & _).
  unfold readableElement, additionalElement, positionOf, at_.
  cbn [position pos_x pos_y pos_width pos_height].
  now rewrite !readable_number.
Qed.

(** The elements handed to the validation: those of the model, padded to
    eight when there are fewer than six. *)
Definition padded (ag : HMIAgent) (spec : ScreenSpec) (screen : Screen)
  (documentContext : DocumentContext) : list Element :=
  if Z.ltb (Z.of_nat (List.length (elementsOf spec))) 6 then
    elementsOf spec ++ generateAdditionalElements ag screen documentContext
                         (8 - Z.of_nat (List.length (elementsOf spec)))
  else elementsOf spec.

Lemma validateAndEnhanceSpec_elements (ag : HMIAgent) (spec : ScreenSpec)
  (screen : Screen) (documentContext : DocumentContext) :
  elementsOf (validateAndEnhanceSpec ag spec screen documentContext)
  = ensureEssentialElements
      (validateElementPositions (padded ag spec screen documentContext))
      screen documentContext.
Proof. reflexivity. Qed.

Lemma padded_length (ag : HMIAgent) (spec : ScreenSpec) (screen : Screen)
  (documentContext : DocumentContext) :
  (6 <= List.length (padded ag spec screen documentContext))%nat.
Proof.
  unfold padded.
  destruct (Z.ltb_spec (Z.of_nat (List.length (elementsOf spec))) 6).
  - rewrite length_app, generateAdditionalElements_length. lia.
  - lia.
Qed.

Lemma padded_readable (ag : HMIAgent) (spec : ScreenSpec) (screen : Screen)
  (documentContext : DocumentContext) :
  forallb readableElement (padded ag spec screen documentContext)
  = forallb readableElement (elementsOf spec).
Proof.
  unfold padded. destruct (Z.ltb _ 6); [|reflexivity].
  rewrite forallb_app, generateAdditionalElements_readable. apply andb_true_r.
Qed.

Lemma ensureEssentialElements_length (elements : list Element) (screen : Screen)
  (documentContext : DocumentContext) :
  (List.length elements
   <= List.length (ensureEssentialElements elements screen documentContext))%nat.
Proof.
  unfold ensureEssentialElements. rewrite !length_app. lia.
Qed.

Lemma validateAndEnhanceSpec_at_least_six (ag : HMIAgent) (spec : ScreenSpec)
  (screen : Screen) (documentContext : DocumentContext) :
  (6 <= List.length
          (elementsOf (validateAndEnhanceSpec ag spec screen documentContext)))%nat.
Proof.
  rewrite validateAndEnhanceSpec_elements.
  pose proof (ensureEssentialElements_length
                (validateElementPositions (padded ag spec screen documentContext))
                screen documentContext).
  pose proof (padded_length ag spec screen documentContext).
  unfold validateElementPositions in *. rewrite validateFrom_length in *. lia.
Qed.

(** The two synthesized elements sit in the header, at y = 25. *)
Lemma essential_boxes (P : Element -> Prop) (elements : list Element) (screen : Screen)
  (documentContext : DocumentContext) :
  P (titleElement screen) -> P statusElement -> Forall P elements ->
  Forall P (ensureEssentialElements elements screen documentContext).
Proof.
  intros Ht Hs He. unfold ensureEssentialElements.
  repeat (apply Forall_app; split); [|exact He|].
  - destruct (existsb isTitle elements); repeat constructor. exact Ht.
  - destruct (existsb isStatus elements); repeat constructor. exact Hs.
Qed.

Lemma validateAndEnhanceSpec_numbers (ag : HMIAgent) (spec : ScreenSpec)
  (screen : Screen) (documentContext : DocumentContext) :
  Forall (numbers modelNumbers)
         (elementsOf (validateAndEnhanceSpec ag spec screen documentContext)).
Proof.
  rewrite validateAndEnhanceSpec_elements. apply essential_boxes.
  - eexists _, _, _, _. split; [reflexivity|].
    unfold modelNumbers, atLeast, within. lia.
  - eexists _, _, _, _. split; [reflexivity|].
    unfold modelNumbers, atLeast, within. lia.
  - eapply Forall_impl; [|apply validateFrom_numbers].
    intros e (x & y & w & h & E & Hx & Hy & Hw & Hh). exists x, y, w, h.
    split; [exact E|]. repeat split; try assumption.
    destruct y; unfold atLeast in *; [lia|exact I].
Qed.

Lemma validateAndEnhanceSpec_boxes (ag : HMIAgent) (spec : ScreenSpec)
  (screen : Screen) (documentContext : DocumentContext) :
  forallb readableElement (elementsOf spec) = true ->
  Forall (boxed modelBox)
         (elementsOf (validateAndEnhanceSpec ag spec screen documentContext)).
Proof.
  intro Hr. rewrite validateAndEnhanceSpec_elements. apply essential_boxes.
  - exists 20, 25, 400, 30. split; [reflexivity|]. unfold modelBox. lia.
  - exists 600, 25, 140, 30. split; [reflexivity|]. unfold modelBox. lia.
  - eapply Forall_impl; [|apply validateFrom_readable; now rewrite padded_readable].
    intros e (x & y & w & h & E & H). exists x, y, w, h.
    split; [exact E|]. unfold modelBox. lia.
Qed.

Section Generator.

Variable validPattern : string -> bool.
Variable screenRelevantContent : Screen -> DocumentContext -> ScreenContent.
Variable promptText : Screen -> DocumentContext -> ScreenContent -> string.
Variable chat : string -> result string.
Variable parseSpec : string -> option ScreenSpec.

Local Abbreviation generate :=
  (generateScreenSpecification validPattern screenRelevantContent promptText
     chat parseSpec).

Local Abbreviation fallback :=
  (generateFallbackSpec validPattern screenRelevantContent).

(** The prompt of a run. *)
Definition promptOf (screen : Screen) (ag : HMIAgent) : string :=
  promptText screen (getDocumentContext ag)
    (screenRelevantContent screen (getDocumentContext ag)).

(** The agent once the run is announced: a progress event more. *)
Definition announced (screen : Screen) (ag : HMIAgent) : HMIAgent :=
  {| sessionData := sessionData ag;
     progress := progress ag ++
       [("screen-generation",
         "Generating specification for " ++ screenName screen ++ "...")%string];
     requests := requests ag |}.

(** The agent after a run that reached the model: a request more. *)
Definition afterRun (screen : Screen) (ag : HMIAgent) : HMIAgent :=
  {| sessionData := sessionData ag;
     progress := progress (announced screen ag);
     requests := requests ag ++ [promptOf screen ag] |}.

Lemma generateScreenSpecification_run (screen : Screen) (ag : HMIAgent) :
  generate screen ag
  = if compiles validPattern (toLowerCase (screenName screen))
    then (match chat (promptOf screen ag) with
          | Ok aiResponse =>
              match parseSpec (cleanResponse aiResponse) with
              | Some parsedSpec =>
                  Ok (validateAndEnhanceSpec (afterRun screen ag) parsedSpec screen
                        (getDocumentContext ag))
              | None => fallback screen (getDocumentContext ag)
              end
          | Throw _ => fallback screen (getDocumentContext ag)
          end, afterRun screen ag)
    else (Throw invalidPattern, announced screen ag).
Proof.
  unfold generateScreenSpecification, generateAIContextualSpec, createScreenSpecPrompt,
    bind, updateProgress, reading, callModel, ret.
  change (getDocumentContext
            {| sessionData := sessionData ag;
               progress := progress ag ++
                 [("screen-generation",
                   "Generating specification for " ++ screenName screen ++ "...")%string];
               requests := requests ag |})
    with (getDocumentContext ag).
  rewrite generateFallbackSpec_run. unfold extractScreenRelevantContent. cbv zeta.
  destruct (compiles validPattern _); reflexivity.
Qed.


End Generator.

(** *** Concrete runs *)

Definition freshAgent : HMIAgent := mkAgent (mkSession None None) [] [].

Definition noContent (screen : Screen) (documentContext : DocumentContext)
  : ScreenContent := mkContent [] [] [].

(** A runtime that rejects every pattern it is asked about. *)
Definition strict (pattern : string) : bool := false.

Definition plainPrompt (screen : Screen) (documentContext : DocumentContext)
  (content : ScreenContent) : string := "prompt".

Definition screenNamed (name : string) : Screen := mkScreen None name None None.

(** The elements a run emits, if it emits a specification. *)
Definition emitted (run : result ScreenSpec * HMIAgent) : option (list Element) :=
  match fst run with
  | Ok spec => Some (elementsOf spec)
  | Throw _ => None
  end.

(** A reply of the model with six buttons, the first far to the right. *)
Definition sixButtons : ScreenSpec :=
  {| screenTitle := None; specPurpose := None; navigation := None;
     layout := None; colorScheme := None;
     elements := Some
       (element "control_button" "START" (at_ 900 700 150 40) []
        :: repeat (element "control_button" "STOP" (at_ 50 200 150 40) []) 5);
     functionalDescription := None; recommendations := None |}.

Definition inCanvas (x y w h : Z) : Prop :=
  0 <= x /\ 0 <= y /\ x + w <= 800 /\ y + h <= 600.


(** *** Alarm screens *)

Definition isAlarm (el : Element) : bool := String.eqb (type_ el) "alarm_indicator".

Lemma existsb_by_type (f : string -> bool) (l : list Element) :
  existsb (fun el => f (type_ el)) l = existsb f (map type_ l).
Proof.
  induction l as [|e r IH]; simpl; [reflexivity|]. now rewrite IH.
Qed.

Lemma additional_types (ag : HMIAgent) (screen : Screen)
  (documentContext : DocumentContext) (count : Z) :
  map type_ (generateAdditionalElements ag screen documentContext count)
  = map (fun i => pick elementTypes (i mod List.length elementTypes))
        (seq 0 (Z.to_nat count)).
Proof.
  unfold generateAdditionalElements. rewrite map_map. reflexivity.
Qed.

Lemma padding_alarm (n : nat) :
  (n < 6)%nat ->
  existsb (fun t => String.eqb t "alarm_indicator")
          (map (fun i => pick elementTypes (i mod List.length elementTypes))
               (seq 0 (Z.to_nat (8 - Z.of_nat n))))
  = Nat.eqb n 0.
Proof.
  intro Hn. do 6 (destruct n as [|n]; [reflexivity|]). lia.
Qed.

(** The padding brings an alarm indicator only when it adds all eight
    types, that is when the model gave no element. *)
Lemma padded_alarm (ag : HMIAgent) (spec : ScreenSpec) (screen : Screen)
  (documentContext : DocumentContext) :
  existsb isAlarm (padded ag spec screen documentContext)
  = (existsb isAlarm (elementsOf spec)
     || Nat.eqb (List.length (elementsOf spec)) 0)%bool.
Proof.
  unfold padded, isAlarm.
  destruct (Z.ltb_spec (Z.of_nat (List.length (elementsOf spec))) 6) as [Hlt|Hge].
  - rewrite existsb_app.
    rewrite (existsb_by_type (fun t => String.eqb t "alarm_indicator")
               (generateAdditionalElements _ _ _ _)).
    rewrite additional_types, padding_alarm by lia. reflexivity.
  - replace (Nat.eqb (List.length (elementsOf spec)) 0) with false
      by (symmetry; apply Nat.eqb_neq; lia).
    now rewrite orb_false_r.
Qed.

Section AlarmScreen.

Variable validPattern : string -> bool.
Variable screenRelevantContent : Screen -> DocumentContext -> ScreenContent.

(** C2, as the code has it.  For the screen named "Alarm Screen" the
    fallback emits a header title, a status indicator, a text, two control
    buttons and a data table, and so no alarm indicator.  After validation
    a model-based specification holds an alarm indicator exactly when the
    model supplied one, or supplied no element at all (the padding to
    eight elements then brings one). *)
Theorem alarm_screen_elements (screen : Screen) (documentContext : DocumentContext)
  (ag : HMIAgent) (spec : ScreenSpec) :
  screenName screen = "Alarm Screen"%string ->
  (exists fallback,
     generateFallbackSpec validPattern screenRelevantContent screen documentContext
     = Ok fallback
     /\ map type_ (elementsOf fallback)
        = ["header_title"; "status_indicator"; "text"; "control_button";
           "control_button"; "data_table"]%string)
  /\ existsb isAlarm (elementsOf (validateAndEnhanceSpec ag spec screen documentContext))
     = (existsb isAlarm (elementsOf spec)
        || Nat.eqb (List.length (elementsOf spec)) 0)%bool.
Proof.
  intro Hname. split.
  - rewrite generateFallbackSpec_run. unfold adaptiveElements. rewrite Hname.
    eexists. split; reflexivity.
  - rewrite validateAndEnhanceSpec_elements. unfold ensureEssentialElements.
    rewrite !existsb_app.
    assert (Hv : existsb isAlarm
                   (validateElementPositions (padded ag spec screen documentContext))
                 = existsb isAlarm (padded ag spec screen documentContext)).
    { unfold isAlarm, validateElementPositions.
      rewrite !(existsb_by_type (fun t => String.eqb t "alarm_indicator")).
      now rewrite validateFrom_types. }
    rewrite Hv, padded_alarm.
    destruct (existsb isTitle _), (existsb isStatus _); simpl;
      rewrite ?orb_false_r; reflexivity.
Qed.

End AlarmScreen.

Lemma alarm_screen_elements_witness :
  exists fallback,
    generateFallbackSpec strict noContent (screenNamed "Alarm Screen")
      (getDocumentContext freshAgent) = Ok fallback
    /\ map type_ (elementsOf fallback)
       = ["header_title"; "status_indicator"; "text"; "control_button";
          "control_button"; "data_table"]%string.
Proof.
  apply (alarm_screen_elements strict noContent (screenNamed "Alarm Screen")
           (getDocumentContext freshAgent) freshAgent sixButtons).
  reflexivity.
Defined.

(** C2 as stated fails on both paths: the fallback for "Alarm Screen" has
    no alarm indicator, and neither has a validated specification whose
    six elements, as the model gave them, are buttons. *)
Lemma alarm_screen_without_alarm_indicator :
  option_map (existsb isAlarm)
    (emitted (generateScreenSpecification strict noContent plainPrompt
                (fun _ => Throw "timeout") (fun _ => None)
                (screenNamed "Alarm Screen") freshAgent)) = Some false
  /\ option_map (existsb isAlarm)
       (emitted (generateScreenSpecification strict noContent plainPrompt
                   (fun _ => Ok "{}") (fun _ => Some sixButtons)
                   (screenNamed "Alarm Screen") freshAgent)) = Some false.
Proof.
  split; vm_compute; reflexivity.
Qed.

(** *** The header and footer bands of the renderer *)

Definition effectiveHeight (p : Position) : Num := orValue (pos_height p) (Fin 20).

(** An element with a position: its [y] is a number, and [P] holds of the
    position and that number unless it is NaN. *)
Definition placed (P : Position -> Z -> Prop) (el : Element) : Prop :=
  match position el with
  | Some p =>
      exists n, pos_y p = number n
                /\ match n with Fin y => P p y | NaN => True end
  | None => True
  end.

(** The bottom edge stays in the band; the top edge does too, unless the
    element is too tall for the band. *)
Definition inHeaderBand (headerHeight : Num) (p : Position) (y : Z) : Prop :=
  exists H h,
    headerHeight = Fin H /\ effectiveHeight p = Fin h
    /\ y + h <= H
    /\ match toNumber (pos_height p) with Fin given => y + given <= H | NaN => True end
    /\ (5 <= y \/ H < 5 + h).

Definition inFooterBand (footerY footerHeight : Num) (p : Position) (y : Z) : Prop :=
  exists fy fh h,
    footerY = Fin fy /\ footerHeight = Fin fh /\ effectiveHeight p = Fin h
    /\ y + h <= fy + fh
    /\ match toNumber (pos_height p) with
       | Fin given => y + given <= fy + fh
       | NaN => True
       end
    /\ (fy <= y \/ fh < h).

(** The clamp keeps an element without a position as it is, and gives
    one with a position a [y] that is a whole number exactly when it has
    numbers to work with: the [y] given, the effective height and the
    height of the band. *)
Definition keepsNumbers (bandHeight : Num) (given out : Element) : Prop :=
  match position given, position out with
  | Some p, Some q =>
      match toNumber (pos_y p), effectiveHeight p, bandHeight with
      | Fin _, Fin _, Fin _ => exists y, pos_y q = number (Fin y)
      | _, _, _ => pos_y q = number NaN
      end
  | None, None => True
  | _, _ => False
  end.

(** A height that is given is the effective height; one that is not
    given counts as 20 and reads as zero, if it reads as a number. *)
Lemma effectiveHeight_cases (v : Value) :
  (truthy v = true /\ orValue v (Fin 20) = toNumber v)
  \/ (orValue v (Fin 20) = Fin 20 /\ (toNumber v = Fin 0 \/ toNumber v = NaN)).
Proof.
  unfold orValue.
  destruct v as [| |[|]|[z|]| |r]; cbn [truthy toNumber]; auto.
  destruct (Z.eqb_spec z 0) as [->|Hz]; cbn [negb]; auto.
Qed.

Lemma clampHeaderElement_band (H : Num) (el : Element) :
  placed (inHeaderBand H) (clampHeaderElement H el).
Proof.
  unfold placed, clampHeaderElement, setY.
  destruct (position el) as [p|] eqn:Ep;
    cbn [position pos_x pos_y pos_width pos_height]; [|now rewrite Ep].
  eexists. split; [reflexivity|].
  destruct (toNumber (pos_y p)) as [y|]; [|exact I].
  destruct H as [Hz|]; [|exact I].
  unfold inHeaderBand, effectiveHeight. cbn [pos_x pos_y pos_width pos_height].
  pose proof (effectiveHeight_cases (pos_height p)) as Hh.
  destruct (orValue (pos_height p) (Fin 20)) as [h|]; [|exact I].
  cbn [mathMin mathMax minus onNumbers].
  exists Hz, h. split; [reflexivity|]. split; [reflexivity|].
  destruct Hh as [[_ <-]|[[= ->] [->| ->]]]; repeat split; lia.
Qed.

Lemma clampFooterElement_band (fy fh : Num) (el : Element) :
  placed (inFooterBand fy fh) (clampFooterElement fy fh el).
Proof.
  unfold placed, clampFooterElement, setY.
  destruct (position el) as [p|] eqn:Ep;
    cbn [position pos_x pos_y pos_width pos_height]; [|now rewrite Ep].
  eexists. split; [reflexivity|].
  destruct fy as [fyz|]; [|exact I].
  destruct (toNumber (pos_y p)) as [y|]; [|exact I].
  destruct fh as [fhz|]; [|exact I].
  unfold inFooterBand, effectiveHeight. cbn [pos_x pos_y pos_width pos_height].
  pose proof (effectiveHeight_cases (pos_height p)) as Hh.
  destruct (orValue (pos_height p) (Fin 20)) as [h|]; [|exact I].
  cbn [mathMin mathMax minus plus onNumbers].
  exists fyz, fhz, h. do 3 (split; [reflexivity|]).
  destruct Hh as [[_ <-]|[[= ->] [->| ->]]]; repeat split; lia.
Qed.

Lemma clampHeaderElement_numbers (H : Num) (el : Element) :
  keepsNumbers H el (clampHeaderElement H el).
Proof.
  unfold keepsNumbers, clampHeaderElement, setY, effectiveHeight.
  destruct (position el) as [p|] eqn:Ep; cbn [position pos_y]; [|now rewrite Ep].
  destruct (toNumber (pos_y p)) as [y|], (orValue (pos_height p) (Fin 20)) as [h|],
    H as [Hz|]; cbn [mathMin mathMax minus onNumbers]; try reflexivity.
  eexists. reflexivity.
Qed.

Lemma clampFooterElement_numbers (fh : Num) (el : Element) :
  keepsNumbers fh el (clampFooterElement (minus (Fin 600) fh) fh el).
Proof.
  unfold keepsNumbers, clampFooterElement, setY, effectiveHeight.
  destruct (position el) as [p|] eqn:Ep; cbn [position pos_y]; [|now rewrite Ep].
  destruct (toNumber (pos_y p)) as [y|], (orValue (pos_height p) (Fin 20)) as [h|],
    fh as [fhz|]; cbn [mathMin mathMax minus plus onNumbers]; try reflexivity.
  eexists. reflexivity.
Qed.

Lemma Forall2_map_right (A B : Type) (R : A -> B -> Prop) (f : A -> B) (l : list A) :
  (forall a, R a (f a)) -> Forall2 R l (map f l).
Proof.
  intro H. induction l; constructor; auto.
Qed.

Lemma clampBands_header (spec : ScreenSpec) :
  bandElements (bandOf header (clampBands spec))
  = map (clampHeaderElement (headerHeight spec)) (bandElements (bandOf header spec)).
Proof.
  unfold bandOf, clampBands, bandElements. simpl.
  destruct (layout spec) as [l|]; [|reflexivity]. simpl.
  destruct (header l) as [b|]; [|reflexivity]. simpl.
  destruct (band_elements b); reflexivity.
Qed.

Lemma clampBands_footer (spec : ScreenSpec) :
  bandElements (bandOf footer (clampBands spec))
  = map (clampFooterElement (footerY spec) (footerHeight spec))
        (bandElements (bandOf footer spec)).
Proof.
  unfold bandOf, clampBands, bandElements. simpl.
  destruct (layout spec) as [l|]; [|reflexivity]. simpl.
  destruct (footer l) as [b|]; [|reflexivity]. simpl.
  destruct (band_elements b); reflexivity.
Qed.


(** A layout with one element in the header and one in the footer. *)
Definition bandsWith (h f : Element) : ScreenSpec :=
  {| screenTitle := None; specPurpose := None; navigation := None;
     layout := Some
       {| header := Some (mkBand None (number (Fin 80)) None None (Some [h]));
          mainArea := None;
          footer := Some (mkBand None (number (Fin 60)) None None (Some [f])) |};
     colorScheme := None; elements := None;
     functionalDescription := None; recommendations := None |}.


(** *** More on the fallback and on the validation *)

Section FallbackCanvas.

Variable validPattern : string -> bool.
Variable screenRelevantContent : Screen -> DocumentContext -> ScreenContent.

(** The fallback lies inside the 800 x 600 canvas whenever the screen
    content lists at most 18 key operations; it throws only when the
    pattern around the screen name does not compile. *)
Theorem generateFallbackSpec_inside_canvas (screen : Screen)
  (documentContext : DocumentContext) :
  (List.length (keyOperations (screenRelevantContent screen documentContext))
   <= 18)%nat ->
  match generateFallbackSpec validPattern screenRelevantContent
          screen documentContext with
  | Ok spec => Forall (boxed inCanvas) (elementsOf spec)
  | Throw _ => compiles validPattern (toLowerCase (screenName screen)) = false
  end.
Proof.
  intro Hfew. rewrite generateFallbackSpec_run.
  destruct (compiles validPattern _); [|reflexivity].
  eapply Forall_impl; [|apply adaptive_boxes].
  intro e. apply boxed_weaken. unfold fallbackBox, inCanvas. intuition.
Qed.

End FallbackCanvas.

Lemma generateFallbackSpec_inside_canvas_witness :
  match generateFallbackSpec strict noContent (screenNamed "Manual Control")
          (getDocumentContext freshAgent) with
  | Ok spec => Forall (boxed inCanvas) (elementsOf spec)
  | Throw _ => compiles strict (toLowerCase "Manual Control") = false
  end.
Proof.
  apply (generateFallbackSpec_inside_canvas strict noContent
           (screenNamed "Manual Control") (getDocumentContext freshAgent)).
  simpl. lia.
Defined.

Lemma orValue_nonzero (z : Z) (d : Num) : z <> 0 -> orValue (number (Fin z)) d = Fin z.
Proof.
  intro H. unfold orValue. cbn [truthy toNumber]. now destruct (Z.eqb_spec z 0).
Qed.

Lemma validateFrom_fixed (elements : list Element) :
  Forall validatedBox elements ->
  forall index currentY, validateFrom index currentY elements = elements.
Proof.
  induction 1 as [|e rest (x & y & w & h & E & Hb) _ IH]; intros index currentY;
    [reflexivity|].
  cbn [validateFrom]. rewrite IH. unfold positionOf. rewrite E.
  cbn [at_ pos_x pos_y pos_width pos_height].
  rewrite !orValue_nonzero by lia. cbn [mathMax mathMin onNumbers].
  replace (Z.max 20 x) with x by lia.
  replace (Z.max 120 y) with y by lia.
  replace (Z.min 400 (Z.max 80 w)) with w by lia.
  replace (Z.max 30 h) with h by lia.
  destruct e. cbn in E |- *. now rewrite E.
Qed.

(** The validation leaves alone a list of elements that are already
    valid (20 <= x, 120 <= y, 80 <= width <= 400, 30 <= height). *)
Theorem validateElementPositions_keeps_valid (elements : list Element) :
  Forall validatedBox elements -> validateElementPositions elements = elements.
Proof.
  intro H. now apply validateFrom_fixed.
Qed.

Lemma validateElementPositions_keeps_valid_witness :
  validateElementPositions [element "gauge" "PRESSURE" (at_ 50 200 100 100) []]
  = [element "gauge" "PRESSURE" (at_ 50 200 100 100) []].
Proof.
  apply (validateElementPositions_keeps_valid
           [element "gauge" "PRESSURE" (at_ 50 200 100 100) []]).
  constructor; [|constructor].
  exists 50, 200, 100, 100. split; [reflexivity|lia].
Defined.

(** Validating twice is validating once, when every coordinate given is
    readable.  (A NaN of the first pass gives way to the default in the
    second.) *)
Lemma validateElementPositions_idempotent (elements : list Element) :
  forallb readableElement elements = true ->
  validateElementPositions (validateElementPositions elements)
  = validateElementPositions elements.
Proof.
  intro Hr. apply validateFrom_fixed. now apply validateFrom_readable.
Qed.

(** An element that comes without a [y]: without a position, or with a
    [y] that is falsy. *)
Definition withoutY (e : Element) : Prop := truthy (pos_y (positionOf e)) = false.

Definition readableHeight (e : Element) : bool := readable (pos_height (positionOf e)).

(** The validated list as a stack that starts at [y]: each element sits
    at the running y, with the height the validation makes of the height
    given, and the next one 10 below its bottom edge.  The running y is
    NaN from the first height on that is not a number. *)
Fixpoint stackedFrom (y : Num) (given out : list Element) : Prop :=
  match given, out with
  | [], [] => True
  | i :: given', o :: out' =>
      exists x w h,
        position o = Some (mkPos (number x) (number y) (number w) (number h))
        /\ validatedCoordinate 30 None (pos_height (positionOf i)) (Fin 40) h
        /\ stackedFrom (plus (plus y h) (Fin 10)) given' out'
  | _, _ => False
  end.

(** A column of whole numbers that starts at [y], each element at least
    30 high and 10 below the bottom edge of the one before. *)
Fixpoint columnFrom (y : Z) (out : list Element) : Prop :=
  match out with
  | [] => True
  | o :: out' =>
      exists x w h,
        position o = Some (mkPos (number x) (number (Fin y)) (number w) (number (Fin h)))
        /\ 30 <= h /\ columnFrom (y + h + 10) out'
  end.

Lemma orValue_falsy (v : Value) (d : Num) : truthy v = false -> orValue v d = d.
Proof. intro H. unfold orValue. now rewrite H. Qed.

Lemma validateFrom_stacked (elements : list Element) :
  Forall withoutY elements ->
  forall index currentY,
    atLeast 120 currentY ->
    stackedFrom currentY elements (validateFrom index currentY elements).
Proof.
  induction 1 as [|e rest He _ IH]; intros index currentY Hy; [exact I|].
  cbn [validateFrom stackedFrom].
  rewrite (orValue_falsy _ currentY He).
  replace (mathMax (Fin 120) currentY) with currentY
    by (destruct currentY as [c|]; [cbn; f_equal; unfold atLeast in Hy; lia|reflexivity]).
  eexists _, _, _. split; [reflexivity|]. split; [apply raised|].
  apply IH.
  destruct currentY as [c|]; [|exact I].
  destruct (orValue (pos_height (positionOf e)) (Fin 40)) as [h|]; [|exact I].
  unfold atLeast in *. cbn. lia.
Qed.

Lemma validateFrom_column (elements : list Element) :
  Forall withoutY elements ->
  forallb readableHeight elements = true ->
  forall index currentY,
    120 <= currentY ->
    columnFrom currentY (validateFrom index (Fin currentY) elements).
Proof.
  induction 1 as [|e rest He _ IH]; intros Hr index currentY Hy; [exact I|].
  cbn [forallb] in Hr. apply andb_prop in Hr. destruct Hr as [Hh Hrest].
  cbn [validateFrom columnFrom].
  rewrite (orValue_falsy _ (Fin currentY) He).
  destruct (readable_orValue _ 40 Hh) as (h & Eh). rewrite Eh.
  cbn [mathMax plus onNumbers].
  replace (Z.max 120 currentY) with currentY by lia.
  eexists _, _, _. split; [reflexivity|]. split; [lia|].
  apply IH; [exact Hrest|lia].
Qed.



Lemma isTitle_validated (elements : list Element) (index : nat) (currentY : Num) :
  existsb isTitle (validateFrom index currentY elements)
  = existsb (fun el => String.eqb (type_ el) "header_title") elements.
Proof.
  revert index currentY.
  induction elements as [|e rest IH]; intros index currentY; [reflexivity|].
  cbn [validateFrom existsb]. rewrite IH. f_equal.
  unfold isTitle, yBelow. cbn [type_ position pos_y toNumber].
  replace (lessThan (mathMax (Fin 120) _) (Fin 100)) with false.
  - now rewrite andb_false_r, orb_false_r.
  - destruct (orValue (pos_y (positionOf e)) currentY) as [y|]; [|reflexivity].
    symmetry. apply Z.ltb_ge. lia.
Qed.

(** The validated specification has every top-level field, a title-like
    element and a status indicator.  Since the validation moves every
    element to y >= 120 before the title is looked for, a [text] element
    of the model never counts as the title: the synthesized title is put
    in front exactly when no element has the type [header_title]. *)
Theorem validateAndEnhanceSpec_well_formed (ag : HMIAgent) (spec : ScreenSpec)
  (screen : Screen) (documentContext : DocumentContext) :
  let out := validateAndEnhanceSpec ag spec screen documentContext in
  (screenTitle out <> None /\ specPurpose out <> None /\ navigation out <> None
   /\ layout out <> None /\ colorScheme out <> None /\ elements out <> None
   /\ functionalDescription out <> None /\ recommendations out <> None)
  /\ existsb isTitle (elementsOf out) = true
  /\ existsb isStatus (elementsOf out) = true
  /\ hd_error (elementsOf out)
     = if existsb (fun el => String.eqb (type_ el) "header_title")
                  (padded ag spec screen documentContext)
       then hd_error (validateElementPositions (padded ag spec screen documentContext))
       else Some (titleElement screen).
Proof.
  cbv zeta. split; [repeat split; discriminate|].
  rewrite validateAndEnhanceSpec_elements.
  unfold ensureEssentialElements, validateElementPositions.
  rewrite !isTitle_validated.
  set (v := validateFrom 0 (Fin 120) (padded ag spec screen documentContext)).
  destruct (existsb (fun el => String.eqb (type_ el) "header_title") _) eqn:Et.
  - repeat split.
    + cbn [app]. rewrite existsb_app. unfold v. rewrite isTitle_validated, Et. reflexivity.
    + cbn [app]. rewrite existsb_app. destruct (existsb isStatus v); reflexivity.
    + cbn [app].
      assert (Hlen : (6 <= List.length v)%nat).
      { unfold v. rewrite validateFrom_length. apply padded_length. }
      destruct v; [simpl in Hlen; lia|reflexivity].
  - split; [reflexivity|]. split; [|reflexivity].
    apply existsb_app_true.
    rewrite existsb_app. destruct (existsb isStatus v); reflexivity.
Qed.

(** [ensureEssentialElements] changes nothing once applied. *)
Theorem ensureEssentialElements_idempotent (elements : list Element) (screen : Screen)
  (documentContext : DocumentContext) :
  ensureEssentialElements
    (ensureEssentialElements elements screen documentContext) screen documentContext
  = ensureEssentialElements elements screen documentContext.
Proof.
  set (once := ensureEssentialElements elements screen documentContext).
  assert (Ht : existsb isTitle once = true).
  { unfold once, ensureEssentialElements.
    destruct (existsb isTitle elements) eqn:E.
    - cbn [app]. rewrite existsb_app, E. reflexivity.
    - reflexivity. }
  assert (Hs : existsb isStatus once = true).
  { unfold once, ensureEssentialElements. apply existsb_app_true.
    rewrite existsb_app. destruct (existsb isStatus elements); reflexivity. }
  unfold ensureEssentialElements at 1. rewrite Ht, Hs.
  cbn [app]. apply app_nil_r.
Qed.

(** When the model gives no element at all, the validated specification
    (eight padding elements, the synthesized title in front) lies inside
    the 800 x 600 canvas. *)
Theorem validateAndEnhanceSpec_padding_inside_canvas (ag : HMIAgent)
  (spec : ScreenSpec) (screen : Screen) (documentContext : DocumentContext) :
  elementsOf spec = [] ->
  List.length (elementsOf (validateAndEnhanceSpec ag spec screen documentContext)) = 9%nat
  /\ Forall (boxed inCanvas)
            (elementsOf (validateAndEnhanceSpec ag spec screen documentContext)).
Proof.
  intro Hnone. rewrite validateAndEnhanceSpec_elements.
  unfold padded. rewrite Hnone.
  unfold ensureEssentialElements, validateElementPositions, generateAdditionalElements.
  cbn [List.length Z.of_nat Z.ltb Z.compare app Z.sub Z.add Z.opp Z.to_nat
       Pos.to_nat Pos.iter_op Init.Nat.add seq map validateFrom].
  rewrite !isTitle_validated.
  split; [reflexivity|].
  cbn [existsb isStatus type_ additionalElement String.eqb Ascii.eqb Bool.eqb
       pick nth elementTypes List.length Nat.modulo Nat.divmod fst snd Nat.sub
       orb app].
  repeat first
    [ apply Forall_nil
    | apply Forall_cons
    | (eexists _, _, _, _; split;
       [reflexivity | unfold inCanvas; cbn; lia]) ].
Qed.

Lemma validateAndEnhanceSpec_padding_inside_canvas_witness :
  Forall (boxed inCanvas)
    (elementsOf (validateAndEnhanceSpec freshAgent
                   (mkSpec None None None None None None None None)
                   (screenNamed "Pump Screen") (getDocumentContext freshAgent))).
Proof.
  apply (validateAndEnhanceSpec_padding_inside_canvas freshAgent
           (mkSpec None None None None None None None None)
           (screenNamed "Pump Screen") (getDocumentContext freshAgent)).
  reflexivity.
Defined.

(** *** Color themes *)

(** The theme of a document follows from its detected system type:
    water treatment has its own theme, power generation too, the two
    types that mention gas share one, and every other type, the default
    included, gets the default theme.  Every theme defines all 21 roles.
    [getDefaultColorScheme] is the default theme. *)
Theorem theme_of_document (ag : HMIAgent) :
  let documentContext := getDocumentContext ag in
  exists t,
    systemType (systemKeywords documentContext) = [t]
    /\ getDynamicColorScheme documentContext
       = (if String.eqb t "water_treatment" then waterTreatmentScheme
          else if String.eqb t "power_generation" then powerGenerationScheme
          else if (String.eqb t "gas_analyzer" || String.eqb t "oil_gas_processing")%bool
               then gasScheme
          else defaultScheme)
    /\ map fst (getDynamicColorScheme documentContext) = schemeRoles
    /\ getDefaultColorScheme = defaultScheme.
Proof.
  cbv zeta. unfold getDynamicColorScheme, getDocumentContext.
  cbn [systemKeywords].
  destruct (KeywordFacts.detected_type (orStr (fdsContent (sessionData ag)) ""))
    as (t & Et & Hcat).
  exists t. rewrite Et. cbn [hd_error]. split; [reflexivity|].
  destruct Hcat as [->|Hcat]; [repeat split; reflexivity|].
  unfold systemPatterns in Hcat. cbn [map fst In] in Hcat.
  repeat (destruct Hcat as [<-|Hcat]; [repeat split; reflexivity|]).
  contradiction.
Qed.

(** *** Cleaning the reply of the model *)

Definition tick : ascii := "`"%char.

Lemma removeFence_plain (rest body t : string) :
  JsFacts.without tick body = true ->
  removeFence (String tick rest) Scanning (body ++ t)
  = (body ++ removeFence (String tick rest) Scanning t)%string.
Proof.
  induction body as [|d r IH]; [reflexivity|].
  cbn [JsFacts.without]. intros [Hd Hr]%andb_prop. apply negb_true_iff in Hd.
  cbn [append removeFence startsWith].
  rewrite Ascii.eqb_sym, Hd. cbn [andb]. now rewrite (IH Hr).
Qed.

Lemma removeFence_resume (tok : string) (c : ascii) (r : string) :
  isSpace c = false ->
  removeFence tok (Matched 0) (String c r) = removeFence tok Scanning (String c r).
Proof.
  intro Hc. cbn [removeFence]. now rewrite Hc.
Qed.

(** A reply that is clean text without a backtick passes unchanged; the
    same text wrapped in a fenced block, "```json", a line break, the
    text, a line break, "```", is unwrapped. *)
Theorem cleanResponse_unwraps (body : string) :
  JsFacts.without tick body = true -> trim body = body -> body <> ""%string ->
  cleanResponse body = body
  /\ cleanResponse (fence ++ "json" ++ nl ++ body ++ nl ++ fence) = body.
Proof.
  intros Htick Htrim Hne.
  destruct (JsFacts.trimmed_ends body Htrim) as [Hstart Hend].
  assert (Hplain : forall rest, removeFence (String tick rest) Scanning body = body).
  { intro rest. rewrite <- (JsFacts.append_empty body) at 1.
    rewrite removeFence_plain by exact Htick. cbn [removeFence].
    apply JsFacts.append_empty. }
  unfold cleanResponse, fence. split.
  - cbn [append]. fold tick. rewrite !Hplain. exact Htrim.
  - destruct body as [|c r] eqn:Eb; [congruence|]. rewrite <- Eb in *.
    assert (Hc : isSpace c = false).
    { rewrite Eb in Hstart. cbn [trimStart] in Hstart.
      destruct (isSpace c); [|reflexivity].
      pose proof (JsFacts.trimStart_shorter r) as [E|Hlt].
      - rewrite E in Hstart. exfalso. clear -Hstart.
        induction r; [discriminate|]. injection Hstart as -> H. auto.
      - rewrite Hstart in Hlt. cbn [String.length] in Hlt. lia. }
    change (removeFence ("```" ++ "json") Scanning
              ("```" ++ "json" ++ nl ++ body ++ nl ++ "```"))
      with (removeFence (String tick "``json") (Matched 0) (body ++ nl ++ "```")).
    rewrite Eb at 1. cbn [append]. rewrite removeFence_resume by exact Hc.
    change (String c (r ++ nl ++ "```")) with (String c r ++ (nl ++ "```"))%string.
    rewrite <- Eb. rewrite removeFence_plain by exact Htick.
    change (removeFence (String tick "``json") Scanning (nl ++ "```"))
      with (nl ++ "```")%string.
    change "```"%string with (String tick "``") at 1.
    rewrite removeFence_plain by exact Htick.
    change (removeFence (String tick "``") Scanning (nl ++ String tick "``")) with nl.
    unfold trim. rewrite JsFacts.trimStart_head by assumption.
    rewrite JsFacts.trimEnd_line_break. exact Hend.
Qed.

Lemma cleanResponse_unwraps_witness :
  cleanResponse "{}" = "{}"%string
  /\ cleanResponse (fence ++ "json" ++ nl ++ "{}" ++ nl ++ fence) = "{}"%string.
Proof.
  apply (cleanResponse_unwraps "{}"); [reflexivity|reflexivity|discriminate].
Defined.

(** *** One request per specification *)

Section OneRequest.

Variable validPattern : string -> bool.
Variable screenRelevantContent : Screen -> DocumentContext -> ScreenContent.
Variable promptText : Screen -> DocumentContext -> ScreenContent -> string.
Variable chat : string -> result string.
Variable parseSpec : string -> option ScreenSpec.

(** Generating a specification leaves the session untouched.  When the
    pattern around the screen name compiles, exactly one request goes to
    the language model, and on either path the result has a title, a
    layout, a color scheme and a list of elements.  When it does not
    compile, the prompt cannot be built: no request goes out, the
    fallback throws as well, and so does the call. *)
Theorem generateScreenSpecification_asks_once (screen : Screen) (ag : HMIAgent) :
  let run := generateScreenSpecification validPattern screenRelevantContent
               promptText chat parseSpec screen ag in
  sessionData (snd run) = sessionData ag
  /\ if compiles validPattern (toLowerCase (screenName screen))
     then requests (snd run)
          = requests ag ++ [promptOf screenRelevantContent promptText screen ag]
          /\ exists spec,
               fst run = Ok spec
               /\ screenTitle spec <> None /\ layout spec <> None
               /\ colorScheme spec <> None /\ elements spec <> None
     else requests (snd run) = requests ag
          /\ fst run = Throw invalidPattern.
Proof.
  cbv zeta. rewrite generateScreenSpecification_run, generateFallbackSpec_run.
  destruct (compiles validPattern _); cbn [fst snd]; [|repeat split].
  split; [reflexivity|]. split; [reflexivity|].
  destruct (chat _) as [aiResponse|err];
    [|eexists; split; [reflexivity|]; repeat split; discriminate].
  destruct (parseSpec _) as [parsedSpec|];
    eexists; (split; [reflexivity|]); repeat split; discriminate.
Qed.

End OneRequest.

(** *** Clamping again *)

Lemma clamp_again (y lo c : Num) :
  mathMin (mathMax (mathMin (mathMax y lo) c) lo) c = mathMin (mathMax y lo) c.
Proof.
  destruct y as [y|], lo as [lo|], c as [c|]; cbn; try reflexivity.
  f_equal. lia.
Qed.

Lemma clampHeaderElement_again (H : Num) (el : Element) :
  clampHeaderElement H (clampHeaderElement H el) = clampHeaderElement H el.
Proof.
  unfold clampHeaderElement, setY.
  destruct (position el) as [p|] eqn:Ep; cbn [position]; [|now rewrite Ep].
  cbn [type_ label style purpose userAction headers rows
       pos_x pos_y pos_width pos_height toNumber].
  now rewrite clamp_again.
Qed.

Lemma clampFooterElement_again (fy fh : Num) (el : Element) :
  clampFooterElement fy fh (clampFooterElement fy fh el) = clampFooterElement fy fh el.
Proof.
  unfold clampFooterElement, setY.
  destruct (position el) as [p|] eqn:Ep; cbn [position]; [|now rewrite Ep].
  cbn [type_ label style purpose userAction headers rows
       pos_x pos_y pos_width pos_height toNumber].
  do 4 f_equal.
  destruct fy as [fy|], (toNumber (pos_y p)) as [y|], fh as [fh|],
    (orValue (pos_height p) (Fin 20)) as [h|]; cbn; try reflexivity.
  f_equal. lia.
Qed.


(** *** Navigation of a specification *)

(** The default navigation of a validated specification: the targets
    are names of screens of the document context; a home or main screen
    is entered from "System Startup" only and never lists itself as a
    target; every other screen is entered from screens of the context. *)
Theorem default_navigation (screen : Screen) (documentContext : DocumentContext) :
  let name := toLowerCase (screenName screen) in
  let known n := In n (screenNames documentContext) in
  Forall known (generateNavigationTo screen documentContext)
  /\ (if (includes name "home" || includes name "main")%bool
      then generateNavigationFrom screen documentContext = ["System Startup"%string]
           /\ ~ In (screenName screen) (generateNavigationTo screen documentContext)
      else Forall known (generateNavigationFrom screen documentContext)).
Proof.
  cbv zeta. unfold generateNavigationTo, generateNavigationFrom.
  destruct (includes (toLowerCase (screenName screen)) "home"
            || includes (toLowerCase (screenName screen)) "main")%bool.
  - split; [|split; [reflexivity|]].
    + apply Forall_forall. intros n Hn. now apply filter_In in Hn.
    + intros Hin. apply filter_In in Hin. destruct Hin as [_ Hne].
      now rewrite String.eqb_refl in Hne.
  - destruct (includes (toLowerCase (screenName screen)) "settings"
              || includes (toLowerCase (screenName screen)) "config")%bool.
    + split; apply Forall_forall; intros n Hn; now apply filter_In in Hn.
    + split.
      * apply Forall_forall. intros n Hn. now apply filter_In in Hn.
      * destruct (includes (toLowerCase (screenName screen)) "alarm").
        -- apply Forall_forall. auto.
        -- apply Forall_forall. intros n Hn. now apply filter_In in Hn.
Qed.

End SpecFacts.

(** ** Workflow composer *)

Module ComposerFacts.
Import Js Keywords Agent Composer.

(** A transition that is an object whose two ends name screens of the
    list. *)
Definition namesExisting (screens : list Screen) (t : RawTransition) : Prop :=
  exists tr a b,
    t = TObject tr /\ from tr = Some a /\ to tr = Some b /\
    In a (map screenName screens) /\ In b (map screenName screens).

(** A transition that is an object with a trigger and a description. *)
Definition complete (t : RawTransition) : Prop :=
  exists tr, t = TObject tr /\ truthyStr (trigger tr) = true
             /\ truthyStr (description tr) = true.

Lemma firstn_incl (A : Type) (n : nat) (l : list A) (a : A) :
  In a (firstn n l) -> In a l.
Proof.
  revert l. induction n as [|n IH]; intros [|x l]; simpl; try tauto.
  intros [->|H]; auto.
Qed.

Lemma orStr_default_truthy (x : option string) (d : string) :
  d <> ""%string -> truthyStr (Some (orStr x d)) = true.
Proof.
  intro Hd. unfold orStr, truthyStr.
  destruct x as [s|].
  - destruct (String.eqb_spec s ""); simpl;
      apply negb_true_iff, String.eqb_neq; assumption.
  - simpl. apply negb_true_iff, String.eqb_neq; assumption.
Qed.

Lemma navigate_text_not_empty (a b : string) :
  ("Navigate from " ++ a ++ " to " ++ b)%string <> ""%string.
Proof. discriminate. Qed.

Lemma objectTransition_complete (a b : string) : complete (objectTransition a b).
Proof.
  eexists. split; [reflexivity|]. split; reflexivity.
Qed.

(** The flow generated from the screen list names screens of the list
    only, and its transitions are complete. *)
Lemma generateConciseNavigationFlow_names (screens : list Screen) (flow : NavigationFlow) :
  generateConciseNavigationFlow screens = Ok flow ->
  exists transitions,
    screenTransitions flow = Some transitions
    /\ Forall (namesExisting screens) transitions
    /\ Forall complete transitions.
Proof.
  unfold generateConciseNavigationFlow.
  set (found := find _ screens).
  assert (Hhome : forall home,
             match found with Some s => Some s | None => hd_error screens end = Some home ->
             In home screens).
  { intros home. unfold found.
    destruct (find _ screens) as [s|] eqn:Hf.
    - intros [= <-]. now apply find_some in Hf.
    - destruct screens as [|s r]; simpl; [discriminate|].
      intros [= <-]. now left. }
  destruct (match found with Some s => Some s | None => hd_error screens end)
    as [home|]; [|discriminate].
  specialize (Hhome home eq_refl).
  intros [= <-].
  exists (map (fun s => objectTransition (screenName home) (screenName s))
              (firstn 6 (filter (fun s => negb (String.eqb (screenName s)
                                                  (screenName home))) screens))).
  split; [reflexivity|]. split.
  - apply Forall_map, Forall_forall. intros s Hs%firstn_incl.
    apply filter_In in Hs. destruct Hs as [Hs _].
    exists {| from := Some (screenName home); to := Some (screenName s);
              trigger := Some "User selection"%string;
              description := Some ("Navigate from " ++ screenName home ++ " to "
                                   ++ screenName s)%string |},
      (screenName home), (screenName s).
    repeat split; try reflexivity; now apply in_map.
  - apply Forall_map, Forall_forall. intros s _. apply objectTransition_complete.
Qed.

Lemma normalizeTransition_complete (t t' : RawTransition) :
  normalizeTransition t = Some t' -> complete t'.
Proof.
  destruct t as [s|tr|]; simpl; [| |discriminate].
  - destruct (matchArrow s) as [[a b]|]; [|discriminate].
    intros [= <-]. apply objectTransition_complete.
  - intros [= <-]. eexists. split; [reflexivity|]. simpl. split.
    + apply orStr_default_truthy. discriminate.
    + apply orStr_default_truthy, navigate_text_not_empty.
Qed.

Lemma filterSome_In (A B : Type) (f : A -> option B) (l : list A) (b : B) :
  In b (filterSome (map f l)) <-> exists a, In a l /\ f a = Some b.
Proof.
  induction l as [|x l IH]; simpl.
  - split; [tauto|]. intros (a & [] & _).
  - destruct (f x) as [y|] eqn:E; simpl; rewrite IH; split.
    + intros [<-|(a & Ha & Hf)]; [exists x|exists a]; auto.
    + intros (a & [<-|Ha] & Hf); [left; congruence|right; exists a; auto].
    + intros (a & Ha & Hf). exists a. auto.
    + intros (a & [<-|Ha] & Hf); [congruence|exists a; auto].
Qed.

(** *** Reading arrows *)

Lemma includes_trimStart (s p : string) :
  includes (trimStart s) p = true -> includes s p = true.
Proof.
  induction s as [|c r IH]; [auto|].
  cbn [trimStart]. destruct (isSpace c); [|auto].
  intro H. cbn [includes]. rewrite (IH H). apply orb_true_r.
Qed.

Lemma arrowFrom_needs_arrow (s : string) :
  forall prefix pair, arrowFrom prefix s = Some pair -> includes s "->" = true.
Proof.
  induction s as [|c r IH]; intros prefix pair; cbn [arrowFrom].
  - cbn. discriminate.
  - destruct (startsWith "->" (trimStart (String c r))
              && noLineTerminator (trimStart (drop 2 (trimStart (String c r)))))%bool
      eqn:E.
    + intros _. apply andb_prop in E. destruct E as [E _].
      apply includes_trimStart.
      destruct (trimStart (String c r)); cbn [includes]; now rewrite E.
    + destruct (isLineTerminator c); [discriminate|].
      intro H. apply IH in H. cbn [includes]. rewrite H. apply orb_true_r.
Qed.

Fixpoint allSpace (s : string) : bool :=
  match s with
  | "" => true
  | String c r => (isSpace c && allSpace r)%bool
  end.

Lemma trimStart_append (a x : string) :
  trimStart (a ++ x) = if allSpace a then trimStart x else (trimStart a ++ x)%string.
Proof.
  induction a as [|c r IH]; [reflexivity|].
  cbn [append trimStart allSpace]. destruct (isSpace c); [exact IH|reflexivity].
Qed.

Lemma trimStart_allSpace (s : string) : allSpace s = true -> trimStart s = ""%string.
Proof.
  induction s as [|c r IH]; [reflexivity|].
  cbn [allSpace trimStart]. intros [Hc Hr]%andb_prop. rewrite Hc. auto.
Qed.

Lemma trimEnd_allSpace (s : string) : allSpace s = true -> trimEnd s = ""%string.
Proof.
  induction s as [|c r IH]; [reflexivity|].
  cbn [allSpace trimEnd]. intros [Hc Hr]%andb_prop. now rewrite (IH Hr), Hc.
Qed.

Lemma trimEnd_append_space (x w : string) :
  allSpace w = true -> trimEnd (x ++ w) = trimEnd x.
Proof.
  intro Hw. induction x as [|c r IH]; [now apply trimEnd_allSpace|].
  cbn [append trimEnd]. now rewrite IH.
Qed.

Lemma trimStart_again (s : string) : trimStart (trimStart s) = trimStart s.
Proof.
  induction s as [|c r IH]; [reflexivity|].
  cbn [trimStart]. destruct (isSpace c) eqn:Hc; [exact IH|].
  cbn [trimStart]. now rewrite Hc.
Qed.

(** Trimming does not see white space at the end. *)
Lemma trim_append_space (a w : string) : allSpace w = true -> trim (a ++ w) = trim a.
Proof.
  intro Hw. unfold trim. rewrite trimStart_append.
  destruct (allSpace a) eqn:Ha.
  - now rewrite (trimStart_allSpace w Hw), (trimStart_allSpace a Ha).
  - now apply trimEnd_append_space.
Qed.

Lemma noLineTerminator_trimStart (s : string) :
  noLineTerminator s = true -> noLineTerminator (trimStart s) = true.
Proof.
  induction s as [|c r IH]; [reflexivity|].
  cbn [trimStart]. destruct (isSpace c); [|auto].
  cbn [noLineTerminator]. intros [_ Hr]%andb_prop. auto.
Qed.

(** Where the text before the separator holds no arrow, an arrow at the
    front of what is left after white space means that text is white space
    only. *)
Lemma arrow_after_space (a b : string) :
  includes a "->" = false ->
  startsWith "->" (trimStart (a ++ " -> " ++ b)) = true ->
  allSpace a = true.
Proof.
  induction a as [|c r IH]; [reflexivity|].
  intros Hno Hstart. cbn [includes] in Hno. apply orb_false_elim in Hno.
  destruct Hno as [Hhere Hrest].
  cbn [append trimStart] in Hstart. cbn [allSpace].
  destruct (isSpace c) eqn:Hc; [cbn [andb]; now apply IH|].
  exfalso. cbn [startsWith] in Hstart, Hhere.
  destruct (Ascii.eqb "-" c); [|discriminate]. cbn [andb] in Hstart, Hhere.
  destruct r as [|d r']; [discriminate|].
  cbn [append] in Hstart. rewrite Hhere in Hstart. discriminate.
Qed.

(** The arrow pattern on a text "A -> B": the first group is A without
    the white space at its end, the second is B without the white space
    at its front. *)
Lemma arrowFrom_unfold (prefix s : string) :
  arrowFrom prefix s
  = if (startsWith "->" (trimStart s)
        && noLineTerminator (trimStart (drop 2 (trimStart s))))%bool
    then Some (prefix, trimStart (drop 2 (trimStart s)))
    else match s with
         | "" => None
         | String c r =>
             if isLineTerminator c then None
             else arrowFrom (prefix ++ String c "") r
         end.
Proof. destruct s; reflexivity. Qed.

Lemma arrowFrom_found (w b prefix : string) :
  allSpace w = true -> noLineTerminator b = true ->
  arrowFrom prefix (w ++ " -> " ++ b) = Some (prefix, trimStart b).
Proof.
  intros Hw Hb. rewrite arrowFrom_unfold, trimStart_append, Hw.
  change (trimStart (" -> " ++ b)) with ("->" ++ " " ++ b)%string.
  change (trimStart (drop 2 ("->" ++ " " ++ b))) with (trimStart b).
  change (startsWith "->" ("->" ++ " " ++ b)) with true.
  cbn [andb]. now rewrite (noLineTerminator_trimStart b Hb).
Qed.

Lemma arrowFrom_separator (a b : string) :
  includes a "->" = false ->
  noLineTerminator a = true -> noLineTerminator b = true ->
  forall prefix,
  exists a' w,
    arrowFrom prefix (a ++ " -> " ++ b) = Some ((prefix ++ a')%string, trimStart b)
    /\ a = (a' ++ w)%string /\ allSpace w = true.
Proof.
  intros Hno Ha Hb.
  induction a as [|c r IH]; intro prefix.
  - exists ""%string, ""%string. rewrite JsFacts.append_empty.
    split; [now apply (arrowFrom_found "")|]. split; reflexivity.
  - destruct (startsWith "->" (trimStart (String c r ++ " -> " ++ b))) eqn:Hstart.
    + pose proof (arrow_after_space _ b Hno Hstart) as Hspace.
      exists ""%string, (String c r). rewrite JsFacts.append_empty.
      split; [now apply arrowFrom_found|]. split; [reflexivity|exact Hspace].
    + cbn [includes] in Hno. apply orb_false_elim in Hno. destruct Hno as [_ Hrest].
      cbn [noLineTerminator] in Ha. apply andb_prop in Ha. destruct Ha as [Hc Hr].
      apply negb_true_iff in Hc.
      destruct (IH Hrest Hr (prefix ++ String c "")%string) as (a' & w & E & Ea & Hw).
      exists (String c a'), w.
      rewrite arrowFrom_unfold, Hstart. cbn [andb].
      change (String c r ++ " -> " ++ b)%string with (String c (r ++ " -> " ++ b)).
      cbv beta iota. rewrite Hc, E. split; [|split; [now rewrite Ea|exact Hw]].
      now rewrite JsFacts.append_assoc.
Qed.

Lemma normalizeTransition_separator (a b : string) :
  includes a "->" = false ->
  noLineTerminator a = true -> noLineTerminator b = true ->
  normalizeTransition (TString (a ++ " -> " ++ b))
  = Some (objectTransition (trim a) (trim b)).
Proof.
  intros Hno Ha Hb. cbn [normalizeTransition]. unfold matchArrow.
  destruct (arrowFrom_separator a b Hno Ha Hb ""%string) as (a' & w & E & Ea & Hw).
  rewrite E. cbn [append]. f_equal. f_equal.
  - rewrite Ea. symmetry. now apply trim_append_space.
  - unfold trim. now rewrite trimStart_again.
Qed.

Lemma normalizeTransition_needs_arrow (s : string) :
  includes s "->" = false -> normalizeTransition (TString s) = None.
Proof.
  intro Hno. cbn [normalizeTransition]. unfold matchArrow.
  destruct (arrowFrom "" s) as [[a b]|] eqn:E; [|reflexivity].
  apply arrowFrom_needs_arrow in E. congruence.
Qed.

Section Reconciliation.

Variable validPattern : string -> bool.
Variable concisePurpose : string -> CondensedContext -> string.
Variable keyElementsFor : HMIAgent -> string -> CondensedContext -> list string.
Variable generateFunctionality : string -> CondensedContext -> list string.

Local Abbreviation enhance :=
  (enhanceWithTemplateData validPattern concisePurpose keyElementsFor
     generateFunctionality).

(** The transitions the model supplied, if it supplied any. *)
Definition supplied (workflowData : WorkflowData) : option (list RawTransition) :=
  match navigationFlow workflowData with
  | Some flow => screenTransitions flow
  | None => None
  end.

Lemma enhance_transitions (ag : HMIAgent) (workflowData out : WorkflowData)
  (screens : list Screen) (condensedContext : CondensedContext) :
  enhance ag workflowData screens condensedContext = Ok out ->
  match supplied workflowData with
  | Some given => transitionsOf out = filterSome (map normalizeTransition given)
  | None => exists flow, generateConciseNavigationFlow screens = Ok flow
                         /\ navigationFlow out = Some flow
  end.
Proof.
  unfold enhanceWithTemplateData, supplied, transitionsOf.
  destruct (match screenAnalysis workflowData with
            | Some entries => forEach _ entries
            | None => _ end) as [entries|e]; [|discriminate].
  destruct (navigationFlow workflowData) as [flow|].
  - destruct (screenTransitions flow) as [given|].
    + intros [= <-]. reflexivity.
    + destruct (generateConciseNavigationFlow screens) as [f|]; [|discriminate].
      intros [= <-]. exists f. split; reflexivity.
  - destruct (generateConciseNavigationFlow screens) as [f|]; [|discriminate].
    intros [= <-]. exists f. split; reflexivity.
Qed.

(** Where a transition of the result comes from: an object of the model,
    or a string of the model that holds an arrow. *)
Definition readFrom (given : list RawTransition) (t : RawTransition) : Prop :=
  exists entry,
    In entry given /\ normalizeTransition entry = Some t
    /\ match entry with
       | TObject _ => True
       | TString text => includes text "->" = true
       | TOther => False
       end.

(** C3, as the code has it.  In the workflow the reconciliation pass
    returns, every transition is an object with a trigger and a
    description.  When the model supplied transitions, the result holds
    what is made of each, in the order given.  A transition object keeps
    its two ends as the model gave them, whether or not they name a
    screen of the list; no check against the screen list is made.  A
    string "A -> B", on one line and with no arrow in A, becomes the
    object from A to B, both trimmed.  Nothing else is kept: a string
    without an arrow and an entry that is neither a string nor an object
    are dropped.  Only when the model supplied no transitions are they
    generated from the screen list, and then both ends of each name a
    screen of the list. *)
Theorem enhanceWithTemplateData_transitions (ag : HMIAgent)
  (workflowData out : WorkflowData) (screens : list Screen)
  (condensedContext : CondensedContext) :
  enhance ag workflowData screens condensedContext = Ok out ->
  Forall complete (transitionsOf out)
  /\ match supplied workflowData with
     | Some given =>
         transitionsOf out = filterSome (map normalizeTransition given)
         /\ (forall tr,
               In (TObject tr) given ->
               exists tr', In (TObject tr') (transitionsOf out)
                           /\ from tr' = from tr /\ to tr' = to tr)
         /\ (forall a b,
               includes a "->" = false ->
               noLineTerminator a = true -> noLineTerminator b = true ->
               In (TString (a ++ " -> " ++ b)) given ->
               In (objectTransition (trim a) (trim b)) (transitionsOf out))
         /\ Forall (readFrom given) (transitionsOf out)
     | None => Forall (namesExisting screens) (transitionsOf out)
     end.
Proof.
  intro Hrun. pose proof (enhance_transitions _ _ _ _ _ Hrun) as Ht.
  destruct (supplied workflowData) as [given|].
  - rewrite Ht. split; [|split; [reflexivity|split; [|split]]].
    + apply Forall_forall. intros t (a & _ & Ha)%filterSome_In.
      eapply normalizeTransition_complete, Ha.
    + intros tr Hin. eexists. split.
      * apply filterSome_In. exists (TObject tr). split; [exact Hin|reflexivity].
      * split; reflexivity.
    + intros a b Hno Ha Hb Hin. apply filterSome_In.
      exists (TString (a ++ " -> " ++ b)). split; [exact Hin|].
      now apply normalizeTransition_separator.
    + apply Forall_forall. intros t (entry & Hin & E)%filterSome_In.
      exists entry. split; [exact Hin|]. split; [exact E|].
      destruct entry as [text|tr|]; [|exact I|discriminate].
      destruct (includes text "->") eqn:Harrow; [reflexivity|].
      rewrite (normalizeTransition_needs_arrow text Harrow) in E. discriminate.
  - destruct Ht as (flow & Hflow & Hout).
    apply generateConciseNavigationFlow_names in Hflow.
    destruct Hflow as (transitions & Etr & Hnames & Hcomplete).
    unfold transitionsOf. rewrite Hout, Etr. split; auto.
Qed.

End Reconciliation.

(** *** Concrete runs *)

Definition noText (name : string) (condensedContext : CondensedContext) : string := "".
Definition noKeyElements (ag : HMIAgent) (name : string)
  (condensedContext : CondensedContext) : list string := [].
Definition noLines (name : string) (condensedContext : CondensedContext)
  : list string := [].

(** A runtime that rejects every pattern it is asked about. *)
Definition strict (pattern : string) : bool := false.

Definition twoScreens : list Screen :=
  [mkScreen None "Home Screen" None None; mkScreen None "Settings Screen" None None].

Definition emptyAgent : HMIAgent := mkAgent (mkSession None None) [] [].

(** A reply of the model whose two transitions name screens that do not
    exist. *)
Definition danglingWorkflow : WorkflowData :=
  {| systemOverview := None; screenAnalysis := None;
     navigationFlow := Some
       {| mermaidDiagram := None;
          screenTransitions := Some
            [TObject (mkTransition (Some "Home Screen") (Some "Ghost Screen") None None);
             TString "Nowhere -> Home Screen"] |} |}.

(** What the pass makes of that reply. *)
Definition danglingResult : result WorkflowData :=
  enhanceWithTemplateData strict noText noKeyElements noLines emptyAgent danglingWorkflow
    twoScreens (createCondensedContext (getDocumentContext emptyAgent) twoScreens).

Definition danglingTransitions : list RawTransition :=
  [TObject (mkTransition (Some "Home Screen") (Some "Ghost Screen")
              (Some "User selection")
              (Some "Navigate from Home Screen to Ghost Screen"));
   TObject (mkTransition (Some "Nowhere") (Some "Home Screen")
              (Some "User selection")
              (Some "Navigate from Nowhere to Home Screen"))].

Lemma enhanceWithTemplateData_transitions_witness :
  exists out,
    danglingResult = Ok out
    /\ Forall complete (transitionsOf out)
    /\ transitionsOf out = danglingTransitions.
Proof.
  eexists. split; [reflexivity|].
  split;
    [|reflexivity];
    apply (enhanceWithTemplateData_transitions strict noText noKeyElements noLines
             emptyAgent danglingWorkflow _ twoScreens
             (createCondensedContext (getDocumentContext emptyAgent) twoScreens));
    reflexivity.
Defined.

(** C3 as stated fails: the pass keeps a transition to "Ghost Screen" and
    builds one from "Nowhere", neither the name of a screen. *)
Lemma enhanceWithTemplateData_keeps_dangling :
  exists out,
    danglingResult = Ok out
    /\ transitionsOf out = danglingTransitions
    /\ ~ In "Ghost Screen"%string (map screenName twoScreens)
    /\ ~ In "Nowhere"%string (map screenName twoScreens).
Proof.
  eexists. split; [vm_compute; reflexivity|].
  split; [reflexivity|].
  split; simpl; intros [H|[H|[]]]; discriminate.
Qed.

(** *** The generated navigation flow *)

Lemma generateConciseNavigationFlow_returns (first : Screen) (rest : list Screen) :
  exists flow, generateConciseNavigationFlow (first :: rest) = Ok flow.
Proof.
  unfold generateConciseNavigationFlow.
  destruct (find _ (first :: rest)); eexists; reflexivity.
Qed.

(** A transition that leaves [home] for another screen of the list. *)
Definition leavesHome (screens : list Screen) (home : string) (t : RawTransition) : Prop :=
  exists tr target,
    t = TObject tr /\ from tr = Some home /\ to tr = Some target
    /\ target <> home /\ In target (map screenName screens).

(** The generated flow is a star: with no screen the generator throws;
    otherwise all transitions leave one screen of the list, the first
    whose name contains "home" or else the first screen, each for another
    screen of the list and never for itself, and there are at most six. *)
Theorem generateConciseNavigationFlow_star (screens : list Screen) :
  match screens with
  | [] => exists message, generateConciseNavigationFlow screens = Throw message
  | first :: _ =>
      exists flow transitions home,
        generateConciseNavigationFlow screens = Ok flow
        /\ screenTransitions flow = Some transitions
        /\ home = match find (fun s => includes (toLowerCase (screenName s)) "home")
                             screens with
                  | Some s => screenName s
                  | None => screenName first
                  end
        /\ (List.length transitions <= 6)%nat
        /\ Forall (leavesHome screens home) transitions
  end.
Proof.
  destruct screens as [|first rest]; [eexists; reflexivity|].
  unfold generateConciseNavigationFlow.
  set (screens := first :: rest).
  set (found := find _ screens).
  set (homeScreen := match found with Some s => s | None => first end).
  assert (E : match found with Some s => Some s | None => hd_error screens end
              = Some homeScreen).
  { unfold homeScreen. destruct found; reflexivity. }
  rewrite E.
  eexists _, (map (fun s => objectTransition (screenName homeScreen) (screenName s))
                  (firstn 6 (filter (fun s => negb (String.eqb (screenName s)
                                                      (screenName homeScreen))) screens))),
    (screenName homeScreen).
  split; [reflexivity|]. split; [reflexivity|]. split.
  - unfold homeScreen. fold found. destruct found; reflexivity.
  - split.
    + rewrite length_map. apply firstn_le_length.
    + apply Forall_map, Forall_forall. intros s Hs%firstn_incl.
      apply filter_In in Hs. destruct Hs as [Hs Hne].
      eexists _, (screenName s). split; [reflexivity|].
      repeat split; try reflexivity.
      * apply negb_true_iff, String.eqb_neq in Hne. exact Hne.
      * now apply in_map.
Qed.

(** [generateNavigation] offers at most three targets, all names of
    screens of the list and none the name of the screen itself. *)
Theorem generateNavigation_targets (name : string) (allScreens : list Screen) :
  let nav := generateNavigation (Some name) allScreens in
  (List.length (sn_to nav) <= 3)%nat
  /\ Forall (fun target => target <> name /\ In target (map screenName allScreens))
            (sn_to nav).
Proof.
  cbv zeta. unfold generateNavigation. cbn [sn_to]. split.
  - apply firstn_le_length.
  - apply Forall_forall. intros target Ht%firstn_incl.
    apply in_map_iff in Ht. destruct Ht as (s & <- & Hs).
    apply filter_In in Hs. destruct Hs as [Hs Hne].
    apply negb_true_iff, String.eqb_neq in Hne. split; [exact Hne|now apply in_map].
Qed.

(** *** Small projects *)

Section SmallProjects.

Variable validPattern : string -> bool.
Variable concisePurpose : string -> CondensedContext -> string.
Variable keyElementsFor : HMIAgent -> string -> CondensedContext -> list string.
Variable generateFunctionality : string -> CondensedContext -> list string.
Variable workflowPrompt : CondensedContext -> string.
Variable chat : string -> result string.
Variable parseWorkflow : string -> option WorkflowData.

Local Abbreviation compose :=
  (generateWorkflowFromScreens validPattern concisePurpose keyElementsFor
     generateFunctionality workflowPrompt chat parseWorkflow).

Local Abbreviation template :=
  (generateTemplateBasedWorkflow validPattern concisePurpose keyElementsFor
     generateFunctionality).

Local Abbreviation entryOf :=
  (templateEntry validPattern concisePurpose keyElementsFor generateFunctionality).

(** The pattern around the name of the screen compiles. *)
Definition accepted (screen : Screen) : bool :=
  compiles validPattern (toLowerCase (screenName screen)).

Lemma template_sends_nothing (screens : list Screen)
  (condensedContext : CondensedContext) (ag : HMIAgent) :
  requests (snd (template screens condensedContext ag)) = requests ag.
Proof.
  unfold generateTemplateBasedWorkflow, bind, updateProgress, ret.
  destruct (mapIndexed _ 0 screens); [|reflexivity].
  destruct (generateConciseNavigationFlow screens); reflexivity.
Qed.

Lemma templateEntry_run (ag : HMIAgent) (screens : list Screen)
  (condensedContext : CondensedContext) (index : nat) (screen : Screen) :
  if accepted screen
  then exists entry,
         entryOf ag screens condensedContext index screen = Ok entry
         /\ se_screenName entry = Some (screenName screen)
         /\ screenNumber entry = Some (index + 1)%nat
  else entryOf ag screens condensedContext index screen = Throw invalidPattern.
Proof.
  unfold accepted, templateEntry, generateConcisePurpose, generateKeyElements.
  cbv zeta. destruct (compiles validPattern _); [|reflexivity].
  eexists. split; [reflexivity|]. split; reflexivity.
Qed.

(** The entries of the template: one per screen, under its name and
    numbered from [index] + 1, when every pattern compiles; the loop
    throws otherwise. *)
Lemma template_entries (ag : HMIAgent) (screens : list Screen)
  (condensedContext : CondensedContext) (l : list Screen) :
  forall index,
    if forallb accepted l
    then exists entries,
           mapIndexed (entryOf ag screens condensedContext) index l = Ok entries
           /\ map se_screenName entries = map (fun s => Some (screenName s)) l
           /\ map screenNumber entries = map Some (seq (index + 1) (List.length l))
    else mapIndexed (entryOf ag screens condensedContext) index l = Throw invalidPattern.
Proof.
  induction l as [|s r IH]; intro index; cbn [forallb mapIndexed].
  - exists []. repeat split.
  - pose proof (templateEntry_run ag screens condensedContext index s) as Hs.
    destruct (accepted s); cbn [andb].
    + destruct Hs as (entry & -> & Hname & Hnumber).
      specialize (IH (S index)).
      destruct (forallb accepted r).
      * destruct IH as (entries & -> & Hnames & Hnumbers).
        exists (entry :: entries). split; [reflexivity|].
        cbn [map List.length seq]. rewrite Hname, Hnumber, Hnames, Hnumbers.
        split; [reflexivity|]. do 2 f_equal.
      * now rewrite IH.
    + now rewrite Hs.
Qed.

(** The template path returns exactly when there is a screen and every
    pattern compiles. *)
Lemma template_run (screens : list Screen) (condensedContext : CondensedContext)
  (ag : HMIAgent) :
  match screens with
  | [] => exists message, fst (template screens condensedContext ag) = Throw message
  | _ :: _ =>
      if forallb accepted screens
      then exists w flow,
             fst (template screens condensedContext ag) = Ok w
             /\ systemOverview w = Some (overviewOf screens condensedContext)
             /\ map se_screenName (entriesOf w)
                = map (fun s => Some (screenName s)) screens
             /\ map screenNumber (entriesOf w)
                = map Some (seq 1 (List.length screens))
             /\ generateConciseNavigationFlow screens = Ok flow
             /\ navigationFlow w = Some flow
      else fst (template screens condensedContext ag) = Throw invalidPattern
  end.
Proof.
  unfold generateTemplateBasedWorkflow, bind, updateProgress, ret.
  destruct screens as [|first rest]; [eexists; reflexivity|].
  set (screens := first :: rest).
  set (started := {| sessionData := sessionData ag;
                     progress := progress ag ++ _;
                     requests := requests ag |}).
  pose proof (template_entries started screens condensedContext screens 0) as He.
  destruct (forallb accepted screens).
  - destruct He as (entries & -> & Hnames & Hnumbers).
    destruct (generateConciseNavigationFlow_returns first rest) as (flow & Eflow).
    fold screens in Eflow. rewrite Eflow. cbn [fst].
    eexists _, flow. split; [reflexivity|].
    unfold entriesOf. cbn [systemOverview screenAnalysis navigationFlow].
    repeat split; assumption.
  - now rewrite He.
Qed.


(** The template path keeps the count of the data model.  With no screen
    it throws, and it throws when the pattern around a screen name does
    not compile.  Otherwise [totalScreens], the number of [screenAnalysis]
    entries and the number of screens are one number, and the entries
    carry the names of the screens, in order, numbered from 1. *)
Theorem generateTemplateBasedWorkflow_counts (screens : list Screen)
  (condensedContext : CondensedContext) (ag : HMIAgent) :
  match screens with
  | [] => exists message, fst (template screens condensedContext ag) = Throw message
  | _ :: _ =>
      if forallb accepted screens
      then exists w overview,
             fst (template screens condensedContext ag) = Ok w
             /\ systemOverview w = Some overview
             /\ so_totalScreens overview = List.length screens
             /\ List.length (entriesOf w) = List.length screens
             /\ map se_screenName (entriesOf w)
                = map (fun s => Some (screenName s)) screens
             /\ map screenNumber (entriesOf w) = map Some (seq 1 (List.length screens))
      else fst (template screens condensedContext ag) = Throw invalidPattern
  end.
Proof.
  pose proof (template_run screens condensedContext ag) as Hrun.
  destruct screens as [|first rest]; [exact Hrun|].
  destruct (forallb accepted (first :: rest)); [|exact Hrun].
  destruct Hrun as (w & flow & Ew & Eo & Hnames & Hnumbers & _).
  exists w, (overviewOf (first :: rest) condensedContext).
  split; [exact Ew|]. split; [exact Eo|]. split; [reflexivity|].
  split; [|split; assumption].
  rewrite <- (length_map se_screenName), Hnames. apply length_map.
Qed.


End SmallProjects.

Definition fourScreens : list Screen :=
  twoScreens ++ [mkScreen None "Alarm Screen" None None;
                 mkScreen None "Pump Screen" None None].



(** *** Dropped entries *)

(** A string entry without an arrow is dropped, and so is an entry that
    is neither a string nor an object; an entry that is kept is an object
    with a trigger and a description. *)
Theorem normalizeTransition_drops (transition : RawTransition) :
  match transition with
  | TString s =>
      includes s "->" = false -> normalizeTransition transition = None
  | TObject _ => normalizeTransition transition <> None
  | TOther => normalizeTransition transition = None
  end.
Proof.
  destruct transition as [s|tr|]; [|discriminate|reflexivity].
  apply normalizeTransition_needs_arrow.
Qed.

Lemma normalizeTransition_drops_witness :
  normalizeTransition (TString "Home Screen to Settings") = None.
Proof.
  apply (normalizeTransition_drops (TString "Home Screen to Settings")). reflexivity.
Defined.

(** *** The reconciled entries *)

Definition isKString (k : KeyElement) : Prop :=
  match k with KString _ => True | _ => False end.

(** An entry after the reconciliation of a model reply. *)
Definition sanitized (e : ScreenEntry) : Prop :=
  se_purpose e <> None /\ functionality e <> None
  /\ truthyStr (behavior e) = true
  /\ truthyStr (dataVisualization e) = true
  /\ truthyStr (userRoles e) = true
  /\ (exists nav t, se_navigation e = Some nav /\ triggers nav = Some t)
  /\ match keyElements e with Some ks => Forall isKString ks | None => True end.

Lemma behaviorOf_not_empty (name lower : string) : behaviorOf name lower <> ""%string.
Proof.
  unfold behaviorOf.
  repeat match goal with |- context [if ?b then _ else _] => destruct b end;
    discriminate.
Qed.

Lemma dataVisualizationOf_not_empty (name lower : string) :
  dataVisualizationOf name lower <> ""%string.
Proof.
  unfold dataVisualizationOf.
  repeat match goal with |- context [if ?b then _ else _] => destruct b end;
    discriminate.
Qed.

Lemma userRolesOf_not_empty (lower : string) : userRolesOf lower <> ""%string.
Proof.
  unfold userRolesOf.
  repeat match goal with |- context [if ?b then _ else _] => destruct b end;
    discriminate.
Qed.

Lemma truthy_or (x : option string) (d : string) :
  d <> ""%string -> truthyStr (Some (if truthyStr x then show x else d)) = true.
Proof.
  intro Hd. destruct x as [s|]; cbn.
  - destruct (String.eqb_spec s ""); cbn.
    + now apply negb_true_iff, String.eqb_neq.
    + now apply negb_true_iff, String.eqb_neq.
  - now apply negb_true_iff, String.eqb_neq.
Qed.

Lemma forEach_Forall2 (A B : Type) (f : A -> result B) (l : list A) (out : list B) :
  forEach f l = Ok out -> Forall2 (fun a b => f a = Ok b) l out.
Proof.
  revert out. induction l as [|a r IH]; intro out; cbn [forEach].
  - intros [= <-]. constructor.
  - destruct (f a) as [b|] eqn:Ea; [|discriminate].
    destruct (forEach f r) as [bs|]; [|discriminate].
    intros [= <-]. constructor; auto.
Qed.

Section Sanitizing.

Variable validPattern : string -> bool.
Variable concisePurpose : string -> CondensedContext -> string.
Variable keyElementsFor : HMIAgent -> string -> CondensedContext -> list string.
Variable generateFunctionality : string -> CondensedContext -> list string.

Lemma sanitizeEntry_sanitized (screens : list Screen)
  (condensedContext : CondensedContext) (entry out : ScreenEntry) :
  sanitizeEntry validPattern concisePurpose generateFunctionality screens
    condensedContext entry
  = Ok out ->
  sanitized out /\ se_screenName out = se_screenName entry.
Proof.
  unfold sanitizeEntry.
  destruct (if negb _ then lowerName (se_screenName entry) else Ok ""%string)
    as [lower|]; [|discriminate].
  destruct (if truthyStr (se_purpose entry) then _ else _) as [text|]; [|discriminate].
  intros [= <-]. split; [|reflexivity].
  unfold sanitized.
  cbn [se_purpose functionality behavior dataVisualization userRoles se_navigation
       keyElements].
  split; [discriminate|]. split; [discriminate|].
  split; [apply truthy_or, behaviorOf_not_empty|].
  split; [apply truthy_or, dataVisualizationOf_not_empty|].
  split; [apply truthy_or, userRolesOf_not_empty|].
  split.
  - destruct (se_navigation entry) as [n|]; eexists _, _; split; reflexivity.
  - destruct (keyElements entry) as [ks|]; [|exact I]. cbn [option_map].
    apply Forall_map, Forall_forall. intros k _. destruct k; exact I.
Qed.

(** When the model supplied the list of screen entries, the
    reconciliation returns as many entries, under the same names and in
    the same order, and each has a purpose, a functionality list, a
    non-empty behavior, data visualization and user roles, a navigation
    with triggers, and key elements that are all strings. *)
Theorem enhanceWithTemplateData_entries (ag : HMIAgent)
  (workflowData out : WorkflowData) (entries : list ScreenEntry)
  (screens : list Screen) (condensedContext : CondensedContext) :
  screenAnalysis workflowData = Some entries ->
  enhanceWithTemplateData validPattern concisePurpose keyElementsFor
    generateFunctionality ag workflowData screens condensedContext = Ok out ->
  map se_screenName (entriesOf out) = map se_screenName entries
  /\ Forall sanitized (entriesOf out).
Proof.
  intros Hsupplied. unfold enhanceWithTemplateData. rewrite Hsupplied.
  destruct (forEach _ entries) as [done|] eqn:Eloop; [|discriminate].
  apply forEach_Forall2 in Eloop.
  destruct (match navigationFlow workflowData with
            | Some flow => _ | None => _ end) as [flow|]; [|discriminate].
  intros [= <-]. unfold entriesOf. cbn [screenAnalysis]. clear Hsupplied.
  induction Eloop as [|entry o r rs Ho _ IH]; [split; constructor|].
  apply sanitizeEntry_sanitized in Ho. destruct Ho as [Hs Hn], IH as [IH1 IH2].
  split; [cbn [map]; now rewrite Hn, IH1|constructor; assumption].
Qed.

End Sanitizing.

Definition namedEntry (name : string) : ScreenEntry :=
  mkEntry (Some name) None None (Some [KObject "{}"; KString "gauge"]) None None
          None None None.

Definition entriesWorkflow : WorkflowData :=
  {| systemOverview := None;
     screenAnalysis := Some [namedEntry "Home Screen"];
     navigationFlow := Some {| mermaidDiagram := None; screenTransitions := Some [] |} |}.

Lemma enhanceWithTemplateData_entries_witness :
  exists out,
    enhanceWithTemplateData strict noText noKeyElements noLines emptyAgent entriesWorkflow
      twoScreens (createCondensedContext (getDocumentContext emptyAgent) twoScreens)
    = Ok out
    /\ Forall sanitized (entriesOf out).
Proof.
  eexists. split; [reflexivity|].
  eapply (enhanceWithTemplateData_entries strict noText noKeyElements noLines emptyAgent
            entriesWorkflow _ [namedEntry "Home Screen"] twoScreens
            (createCondensedContext (getDocumentContext emptyAgent) twoScreens));
    reflexivity.
Defined.

(** *** Cutting the JSON object out of a reply *)

Lemma indexOf_first (c : ascii) (pre rest : string) :
  JsFacts.without c pre = true ->
  indexOf c (pre ++ String c rest) = Some (String.length pre).
Proof.
  induction pre as [|d r IH]; cbn [JsFacts.without append indexOf String.length].
  - intros _. now rewrite Ascii.eqb_refl.
  - intros [Hd Hr]%andb_prop. apply negb_true_iff in Hd. now rewrite Hd, (IH Hr).
Qed.

Lemma lastIndexOf_none (c : ascii) (s : string) :
  JsFacts.without c s = true -> lastIndexOf c s = None.
Proof.
  induction s as [|d r IH]; [reflexivity|].
  cbn [JsFacts.without lastIndexOf]. intros [Hd Hr]%andb_prop.
  apply negb_true_iff in Hd. now rewrite (IH Hr), Hd.
Qed.

Lemma lastIndexOf_last (c : ascii) (front post : string) :
  JsFacts.without c post = true ->
  lastIndexOf c (front ++ String c post) = Some (String.length front).
Proof.
  intro Hpost. induction front as [|d r IH]; cbn [append lastIndexOf String.length].
  - now rewrite (lastIndexOf_none c post Hpost), Ascii.eqb_refl.
  - now rewrite IH.
Qed.

Lemma drop_front (a b : string) : drop (String.length a) (a ++ b) = b.
Proof.
  induction a as [|x a IH]; [now destruct b|]. exact IH.
Qed.

Lemma take_front (a b : string) : take (String.length a) (a ++ b) = a.
Proof.
  induction a as [|x a IH]; [now destruct b|].
  cbn [String.length append take]. now rewrite IH.
Qed.

Lemma length_append (a b : string) :
  String.length (a ++ b) = String.length a + String.length b.
Proof.
  induction a as [|x a IH]; [reflexivity|]. cbn [append String.length]. now rewrite IH.
Qed.

(** From a reply with text around the JSON object the composer cuts
    the object out, from its first opening to its last closing brace,
    whatever braces lie between. *)
Theorem jsonSlice_outermost (pre mid post : string) :
  JsFacts.without "{" pre = true ->
  JsFacts.without "}" post = true ->
  jsonSlice (pre ++ "{" ++ mid ++ "}" ++ post) = Some ("{" ++ mid ++ "}")%string.
Proof.
  intros Hpre Hpost. unfold jsonSlice.
  change (pre ++ "{" ++ mid ++ "}" ++ post)%string
    with (pre ++ String "{" (mid ++ String "}" post))%string.
  rewrite indexOf_first by exact Hpre.
  replace (pre ++ String "{" (mid ++ String "}" post))%string
    with ((pre ++ String "{" mid) ++ String "}" post)%string
    by (rewrite JsFacts.append_assoc; reflexivity).
  rewrite lastIndexOf_last by exact Hpost.
  f_equal. unfold substring. rewrite length_append. cbn [String.length].
  replace (Nat.min (String.length pre) (String.length pre + S (String.length mid) + 1))
    with (String.length pre) by lia.
  replace (Nat.max (String.length pre) (String.length pre + S (String.length mid) + 1)
           - String.length pre)
    with (String.length ("{" ++ mid ++ "}")) by (rewrite !length_append; simpl; lia).
  rewrite JsFacts.append_assoc, drop_front.
  change (String "{" mid ++ String "}" post)%string
    with ("{" ++ mid ++ "}" ++ post)%string.
  replace ("{" ++ mid ++ "}" ++ post)%string with (("{" ++ mid ++ "}") ++ post)%string
    by (rewrite !JsFacts.append_assoc; reflexivity).
  apply take_front.
Qed.

Lemma jsonSlice_outermost_witness :
  jsonSlice ("Here it is: " ++ "{" ++ "a:{b}" ++ "}" ++ " Bye.") = Some "{a:{b}}"%string.
Proof.
  apply (jsonSlice_outermost "Here it is: " "a:{b}" " Bye."); reflexivity.
Defined.

End ComposerFacts.

(** ** Document reader *)

Module ReaderFacts.
Import Js Agent Reader.

Section FileSystem.

Variable readFileSync : string -> result string.
Variable extractRawText : string -> result string.

Local Abbreviation read := (readDocument readFileSync extractRawText).

(** C4, as the code has it.  For a path whose extension is [.docx], in
    any case of letters, [readDocument] never throws: it returns the
    extracted text, or on failure the raw content of the file, or when
    that fails too the placeholder "[Document could not be read: ...]".
    For every other extension it returns what the raw read returns, and
    throws when the raw read throws. *)
Theorem readDocument_outcome (filePath : string) (ag : HMIAgent) :
  (toLowerCase (extname filePath) = ".docx"%string ->
   exists text,
     fst (read filePath ag) = Ok text
     /\ text = match extractRawText filePath with
               | Ok value => value
               | Throw _ =>
                   match readFileSync filePath with
                   | Ok content => content
                   | Throw fallbackError =>
                       ("[Document could not be read: " ++ fallbackError ++ "]")%string
                   end
               end)
  /\ (toLowerCase (extname filePath) <> ".docx"%string ->
      fst (read filePath ag) = readFileSync filePath).
Proof.
  unfold readDocument, bind, updateProgress, ret. split.
  - intros ->. cbn [String.eqb Ascii.eqb Bool.eqb].
    change (String.eqb ".docx" ".txt") with false.
    change (String.eqb ".docx" ".docx") with true. cbv iota.
    destruct (extractRawText filePath) as [value|err].
    + exists value. split; reflexivity.
    + destruct (readFileSync filePath) as [content|err'].
      * exists content. split; reflexivity.
      * eexists. split; reflexivity.
  - intro Hext. apply String.eqb_neq in Hext. rewrite Hext.
    destruct (String.eqb _ ".txt"); reflexivity.
Qed.

End FileSystem.

Definition nothingThere (path : string) : result string :=
  Throw "ENOENT: no such file or directory".

Definition startAgent : HMIAgent := mkAgent (mkSession None None) [] [].

Lemma readDocument_outcome_witness :
  exists text,
    fst (readDocument nothingThere nothingThere "upload/FDS.DOCX" startAgent) = Ok text
    /\ text = "[Document could not be read: ENOENT: no such file or directory]"%string.
Proof.
  apply (readDocument_outcome nothingThere nothingThere "upload/FDS.DOCX" startAgent).
  reflexivity.
Defined.

(** C4 as stated fails: for a text file that cannot be read the error of
    the read leaves [readDocument]. *)
Lemma readDocument_throws_for_txt :
  fst (readDocument nothingThere nothingThere "upload/missing.txt" startAgent)
  = Throw "ENOENT: no such file or directory".
Proof. reflexivity. Qed.

Section Effects.

Variable readFileSync : string -> result string.
Variable extractRawText : string -> result string.

(** Reading a document leaves the session and the request log of the
    agent as they were, and adds to the progress log, at its end, first
    the event that names the file. *)
Theorem readDocument_effects (filePath : string) (ag : HMIAgent) :
  let after := snd (readDocument readFileSync extractRawText filePath ag) in
  sessionData after = sessionData ag
  /\ requests after = requests ag
  /\ exists more,
       progress after
       = progress ag ++ ("analysis", "Reading document: " ++ filePath)%string :: more.
Proof.
  cbv zeta. unfold readDocument, bind, updateProgress, ret.
  destruct (String.eqb _ ".txt"); [repeat split; now exists []|].
  destruct (String.eqb _ ".docx"); [|repeat split; now exists []].
  destruct (extractRawText filePath) as [value|err].
  - repeat split. cbn [snd progress]. rewrite <- app_assoc. eexists. reflexivity.
  - destruct (readFileSync filePath) as [content|err'];
      repeat split; cbn [snd progress]; rewrite <- !app_assoc; eexists; reflexivity.
Qed.

End Effects.

End ReaderFacts.

(** ** Combined layouts *)

Module LayoutFacts.
Import Js Agent Spec Composer Layout.

Open Scope Z_scope.

(** Two cells that share no point. *)
Definition apart (a b : Cell) : Prop :=
  cell_x a + cell_width a <= cell_x b \/ cell_x b + cell_width b <= cell_x a
  \/ cell_y a + cell_height a <= cell_y b \/ cell_y b + cell_height b <= cell_y a.

Ltac divmod := zify; Z.div_mod_to_equations; lia.

(** In the combined layout the cells of two different screens never
    overlap, and every cell lies within the width of the 2400 wide canvas.
    The height decides how many screens fit: a cell lies within the default
    height of 1600 exactly for the first six screens, and within the 1800
    of the exported layout exactly for the first nine. *)
Theorem combinedCell_grid (i j : nat) :
  (i = j \/ apart (combinedCell i) (combinedCell j))
  /\ 0 <= cell_x (combinedCell i)
  /\ cell_x (combinedCell i) + cell_width (combinedCell i) <= 2400
  /\ (cell_y (combinedCell i) + cell_height (combinedCell i) <= 1600 <-> (i < 6)%nat)
  /\ (cell_y (combinedCell i) + cell_height (combinedCell i) <= 1800 <-> (i < 9)%nat).
Proof.
  unfold apart, combinedCell, cols, padding, screenWidth, screenHeight, headerHeight.
  cbn [cell_x cell_y cell_width cell_height].
  repeat split; divmod.
Qed.

(** [i] is the index of the first screen of the list that [f] accepts. *)
Definition firstAt (f : ScreenSpec -> bool) (screens : list ScreenSpec) (i : nat) : Prop :=
  (exists s, nth_error screens i = Some s /\ f s = true)
  /\ forall j s, (j < i)%nat -> nth_error screens j = Some s -> f s = false.

Lemma findIndex_first (f : ScreenSpec -> bool) (screens : list ScreenSpec) (i : nat) :
  findIndex f screens = Some i -> firstAt f screens i.
Proof.
  revert i. induction screens as [|s rest IH]; intro i; cbn [findIndex]; [discriminate|].
  destruct (f s) eqn:E.
  - intros [= <-]. split; [now exists s|]. intros j s' Hj. lia.
  - destruct (findIndex f rest) as [k|]; [|discriminate].
    intros [= <-]. destruct (IH k eq_refl) as [Hat Hbefore]. split; [exact Hat|].
    intros [|j] s' Hj; cbn [nth_error].
    + now intros [= <-].
    + apply Hbefore. lia.
Qed.

Lemma findIndex_existsb (f : ScreenSpec -> bool) (screens : list ScreenSpec) :
  existsb f screens = match findIndex f screens with Some _ => true | None => false end.
Proof.
  induction screens as [|s rest IH]; [reflexivity|].
  cbn [existsb findIndex]. destruct (f s); [reflexivity|].
  cbn [orb]. rewrite IH. now destruct (findIndex f rest).
Qed.

(** A transition both ends of which are titles of screens of the list. *)
Definition drawable (screens : list ScreenSpec) (t : Transition) : bool :=
  (existsb (sameTitle (from t)) screens && existsb (sameTitle (to t)) screens)%bool.

(** The arrow of a transition: from the centre of the cell of the first
    screen titled as its [from] to the centre of the cell of the first
    screen titled as its [to]. *)
Definition arrowOf (screens : list ScreenSpec) (t : Transition)
  (arrow : (Z * Z) * (Z * Z)) : Prop :=
  exists a b,
    firstAt (sameTitle (from t)) screens a
    /\ firstAt (sameTitle (to t)) screens b
    /\ arrow = (centre a, centre b).

(** The navigation arrows of the combined layout are those of the
    transitions both ends of which are titles of screens of the list:
    one arrow for each of them, in the order of the transitions, and
    none for a transition that names a screen absent from the list.
    Each arrow joins the centres of the cells of the two screens, the
    first of that title where a title occurs more than once. *)
Theorem drawWorkflowNavigation_arrows (screens : list ScreenSpec)
  (transitions : list Transition) :
  Forall2 (arrowOf screens)
          (filter (drawable screens) transitions)
          (drawWorkflowNavigation screens transitions).
Proof.
  unfold drawWorkflowNavigation.
  induction transitions as [|t rest IH]; [constructor|].
  cbn [filter map filterSome]. unfold drawable at 1.
  rewrite !findIndex_existsb.
  destruct (findIndex (sameTitle (from t)) screens) as [a|] eqn:Ea;
    [|exact IH].
  destruct (findIndex (sameTitle (to t)) screens) as [b|] eqn:Eb;
    [|exact IH].
  cbn [andb filterSome]. constructor; [|exact IH].
  exists a, b. split; [now apply findIndex_first|].
  split; [now apply findIndex_first|reflexivity].
Qed.

Lemma ceilSqrt_positive (n : nat) : (0 < n -> 0 < ceilSqrt n)%nat.
Proof.
  intro Hn. unfold ceilSqrt.
  destruct (Nat.eqb_spec (Nat.sqrt n * Nat.sqrt n) n) as [E|_]; [|lia].
  destruct (Nat.sqrt n); simpl in E; lia.
Qed.

Lemma row_below_rows (n c i : nat) :
  (0 < c -> i < n -> i / c < ceilDiv n c)%nat.
Proof.
  intros Hc Hi. unfold ceilDiv.
  replace (n + c - 1)%nat with ((n - 1) + 1 * c)%nat by lia.
  rewrite Nat.div_add by lia.
  pose proof (Nat.Div0.div_le_mono i (n - 1) c) as H. lia.
Qed.

Lemma same_cell_same_index (c i j : nat) :
  (i / c = j / c -> i mod c = j mod c -> i = j)%nat.
Proof.
  intros Hd Hm.
  rewrite (Nat.div_mod_eq i c), (Nat.div_mod_eq j c). now rewrite Hd, Hm.
Qed.

(** In the square grid of [createComprehensiveScreenLayout] the canvas is
    sized to its content: every one of the mini screens lies inside the
    canvas, below the banner, and no two of them overlap. *)
Theorem miniCell_grid (screenCount i j : nat) :
  (i < screenCount)%nat -> (j < screenCount)%nat ->
  (i = j \/ apart (miniCell screenCount i) (miniCell screenCount j))
  /\ 0 <= cell_x (miniCell screenCount i)
  /\ cell_x (miniCell screenCount i) + cell_width (miniCell screenCount i)
     <= canvasWidth screenCount
  /\ bannerHeight <= cell_y (miniCell screenCount i)
  /\ cell_y (miniCell screenCount i) + cell_height (miniCell screenCount i)
     <= canvasHeight screenCount.
Proof.
  intros Hi Hj.
  assert (Hc : (0 < gridCols screenCount)%nat) by (apply ceilSqrt_positive; lia).
  pose proof (row_below_rows screenCount (gridCols screenCount) i Hc Hi) as Hrow.
  fold (gridRows screenCount) in Hrow.
  pose proof (Nat.mod_upper_bound i (gridCols screenCount) ltac:(lia)) as Hcol.
  unfold apart, miniCell, canvasWidth, canvasHeight, margin, miniWidth, miniHeight,
    bannerHeight, bannerPadding.
  cbn [cell_x cell_y cell_width cell_height].
  set (c := gridCols screenCount) in *. set (r := gridRows screenCount) in *.
  set (ci := (i mod c)%nat) in *. set (ri := (i / c)%nat) in *.
  split; [|lia].
  destruct (Nat.eq_dec i j) as [E|Hne]; [now left|right].
  assert (Hd : (i / c)%nat <> (j / c)%nat \/ (i mod c)%nat <> (j mod c)%nat).
  { destruct (Nat.eq_dec (i / c) (j / c)) as [Ed|]; [|now left].
    destruct (Nat.eq_dec (i mod c) (j mod c)) as [Em|]; [|now right].
    exfalso. apply Hne. now apply (same_cell_same_index c). }
  fold ci ri in Hd. lia.
Qed.

Lemma miniCell_grid_witness :
  ((2 = 4)%nat \/ apart (miniCell 5 2) (miniCell 5 4))
  /\ 0 <= cell_x (miniCell 5 2)
  /\ cell_x (miniCell 5 2) + cell_width (miniCell 5 2) <= canvasWidth 5
  /\ bannerHeight <= cell_y (miniCell 5 2)
  /\ cell_y (miniCell 5 2) + cell_height (miniCell 5 2) <= canvasHeight 5.
Proof.
  apply (miniCell_grid 5 2 4); lia.
Defined.

End LayoutFacts.
